(** * Scheduler: a shallow embedding of [main.py]

    The program builds a weekly staffing model (a 0/1 linear program) from a
    roster of busy intervals, hands it to an external solver and decodes the
    solver's values into two tables.  This file embeds the functions of
    [main.py] and proves the properties its specification states.

    Conventions of the embedding:
    - a [datetime.time] is the number of seconds since midnight, a
      [datetime] is the number of seconds since today's midnight (every
      [datetime.today()] of one run is taken on the same date);
    - Python exceptions are the [Raise] outcomes of the monad [res];
    - a Python [dict] that is only looked up is a [gmap]; one that is
      iterated in insertion order is an association list;
    - an [LpVariable] is identified by the key under which [build_model]
      stores it; values of variables are integers. *)

From Stdlib Require Import ZArith String Ascii List Lia DecimalString.
From stdpp Require Import base decidable option list gmap strings fin_maps sorting.

Local Open Scope string_scope.
Local Open Scope list_scope.
Local Open Scope Z_scope.

(** ** Exceptions *)

(** [PulpError] is what pulp raises when a constraint is added under a name
    the problem already holds.  [OutOfFuel] and [Unmodelled] are no Python
    exceptions: the first marks a loop of the embedding that ran out of fuel,
    the second an input the embedding does not cover (a time string with a
    character outside ASCII). *)
Inductive exn : Type :=
| KeyError
| ValueError
| PulpError
| OutOfFuel
| Unmodelled.

Inductive res (A : Type) : Type :=
| Ret (a : A)
| Raise (e : exn).
Arguments Ret {A} a.
Arguments Raise {A} e.

#[global] Instance res_ret : MRet res := fun A a => Ret a.
#[global] Instance res_bind : MBind res := fun A B f m =>
  match m with
  | Ret a => f a
  | Raise e => Raise e
  end.
#[global] Instance res_fmap : FMap res := fun A B f m =>
  match m with
  | Ret a => Ret (f a)
  | Raise e => Raise e
  end.

(** [d[k]] on a dict: [KeyError] when the key is absent. *)
Definition getitem `{Countable K} {V} (m : gmap K V) (k : K) : res V :=
  match m !! k with
  | Some v => Ret v
  | None => Raise KeyError
  end.

(** ** Times of day *)

Definition time : Type := Z.
Definition datetime : Type := Z.

Definition seconds_per_day : Z := 86400.
Definition one_hour : Z := 3600.

Definition mktime (h m s : Z) : time := h * 3600 + m * 60 + s.

(** [datetime.combine(datetime.today(), t)] *)
Definition combine_today (t : time) : datetime := t.
(** [dt.time()] *)
Definition time_of (dt : datetime) : time := dt `mod` seconds_per_day.

Definition digit_of (c : ascii) : option Z :=
  let n := Z.of_N (N_of_ascii c) in
  if decide (48 <= n <= 57) then Some (n - 48) else None.

(** One numeric directive of [strptime] whose pattern is
    [hi-pattern|\d]: two digits when they form a number accepted by [two],
    and otherwise one digit.  The directive is followed by [sep] (or by the
    end of the string when [sep] is [None]); the regular expression
    backtracks from the two-digit alternative to the one-digit one when what
    follows does not match. *)
Definition field (two : Z -> Z -> bool) (s : list ascii) : list (Z * list ascii) :=
  match s with
  | [] => []
  | c1 :: s1 =>
    match digit_of c1 with
    | None => []
    | Some d1 =>
      (match s1 with
       | c2 :: s2 =>
         match digit_of c2 with
         | Some d2 => if two d1 d2 then [(d1 * 10 + d2, s2)] else []
         | None => []
         end
       | [] => []
       end) ++ [(d1, s1)]
    end
  end.

(** [%H] is [2[0-3]|[0-1]\d|\d], [%M] is [[0-5]\d|\d]. *)
Definition two_H (d1 d2 : Z) : bool := bool_decide (d1 = 2 ∧ d2 <= 3 ∨ d1 <= 1).
Definition two_M (d1 d2 : Z) : bool := bool_decide (d1 <= 5).

(** The strings of the embedding are byte strings; on a string of ASCII
    characters the bytes are the characters.  Python's [\d] also matches the
    decimal digits outside ASCII, which the embedding does not decode. *)
Definition is_ascii (str : string) : bool :=
  forallb (fun c => bool_decide (Z.of_N (N_of_ascii c) < 128)) (list_ascii_of_string str).

(** [datetime.strptime(s, "%H:%M").time()]: the first match of the pattern
    in the order of the alternatives, which must consume the whole string.
    Covered for ASCII strings; any other string is [Unmodelled]. *)
Definition strptime_HM (str : string) : res time :=
  let after_colon (p : Z * list ascii) : list (Z * (Z * list ascii)) :=
    match p with
    | (h, ":"%char :: r) => (fun q => (h, q)) <$> field two_M r
    | _ => []
    end in
  if is_ascii str then
    match field two_H (list_ascii_of_string str) ≫= after_colon with
    | (h, (m, [])) :: _ => Ret (mktime h m 0)
    | _ => Raise ValueError
    end
  else Raise Unmodelled.

Definition pad2 (n : Z) : string :=
  String (ascii_of_N (Z.to_N (48 + n `div` 10)))
    (String (ascii_of_N (Z.to_N (48 + n `mod` 10))) EmptyString).

(** [t.strftime("%H:%M")] *)
Definition strftime_HM (t : time) : string :=
  pad2 (t `div` 3600) +:+ ":" +:+ pad2 ((t `div` 60) `mod` 60).

(** ** [genblocks] *)

Definition block : Type := string * Z * time * time.

Definition blk_day (b : block) : string := b.1.1.1.
Definition blk_idx (b : block) : Z := b.1.1.2.
Definition blk_start (b : block) : time := b.1.2.
Definition blk_end (b : block) : time := b.2.

(** The [while cur < fin] loop of one day; [fuel] bounds the number of
    evaluations of the loop test. *)
Fixpoint genblocks_loop (fuel : nat) (d : string) (en_time : time)
    (fin cur : datetime) (i : Z) : res (list block) :=
  match fuel with
  | O => Raise OutOfFuel
  | S fuel' =>
    if decide (cur < fin) then
      let s := time_of cur in
      let e := time_of (cur + one_hour) in
      if decide (e > en_time) then Ret []
      else
        rest ← genblocks_loop fuel' d en_time fin (cur + one_hour) (i + 1);
        Ret ((d, i, s, e) :: rest)
    else Ret []
  end.

(** Every iteration advances [cur] by an hour, so [fin - cur] seconds are
    more tests than the loop can make. *)
Definition loop_fuel (fin cur : datetime) : nat := S (Z.to_nat (fin - cur)).

Fixpoint genblocks_days (days : list string) (st_time en_time : time)
    (blocks : list block) : res (list block) :=
  match days with
  | [] => Ret blocks
  | d :: days' =>
    let cur := combine_today st_time in
    let fin := combine_today en_time in
    new ← genblocks_loop (loop_fuel fin cur) d en_time fin cur 0;
    genblocks_days days' st_time en_time (blocks ++ new)
  end.

Definition genblocks (days : list string) (start end_ : string) : res (list block) :=
  st_time ← strptime_HM start;
  en_time ← strptime_HM end_;
  genblocks_days days st_time en_time [].

Definition default_start : string := "07:30".
Definition default_end : string := "17:30".

(** ** [freeblk] *)

Definition class_ : Type := string * time * time.

Fixpoint freeblk (classes : list class_) (d : string) (s e : time) : bool :=
  match classes with
  | [] => true
  | (day_of_week, cs, ce) :: classes' =>
    if decide (day_of_week = d) then
      let c1 := combine_today cs in
      let c2 := combine_today ce in
      let b1 := combine_today s in
      let b2 := combine_today e in
      if decide (c1 < b2 ∧ c2 > b1) then false
      else freeblk classes' d s e
    else freeblk classes' d s e
  end.

(** ** The linear program handed to the solver *)

(** The variables [build_model] creates, one constructor per family:
    [x_{s}_{d}_{i}], [y_{s}_{d}], [start2_{s}_{d}_{i}], [start3_{s}_{d}_{i}],
    [start4_{s}_{d}_{i}] and [u_{d}_{i}].  All of them are binary. *)
Inductive LpVariable : Type :=
| VX (s d : string) (i : Z)
| VY (s d : string)
| VStart2 (s d : string) (i : Z)
| VStart3 (s d : string) (i : Z)
| VStart4 (s d : string) (i : Z)
| VU (d : string) (i : Z).

#[global] Instance LpVariable_eq_dec : EqDecision LpVariable.
Proof. solve_decision. Defined.

Record LpAffineExpression : Type := mkExpr {
  terms : list (Z * LpVariable);
  constant : Z
}.

Definition of_var (v : LpVariable) : LpAffineExpression := mkExpr [(1, v)] 0.
Definition of_const (k : Z) : LpAffineExpression := mkExpr [] k.
Definition lpSum (vs : list LpVariable) : LpAffineExpression :=
  mkExpr ((fun v => (1, v)) <$> vs) 0.
Definition expr_add (a b : LpAffineExpression) : LpAffineExpression :=
  mkExpr (terms a ++ terms b) (constant a + constant b).
Definition expr_scale (k : Z) (a : LpAffineExpression) : LpAffineExpression :=
  mkExpr ((fun t : Z * LpVariable => (k * t.1, t.2)) <$> terms a) (k * constant a).

Inductive sense : Type := LE | GE | EQ.

Record LpConstraint : Type := mkConstraint {
  c_lhs : LpAffineExpression;
  c_sense : sense;
  c_rhs : LpAffineExpression;
  c_name : option string
}.

Inductive direction : Type := LpMinimize | LpMaximize.

(** [LpProblem(name, sense)] with its objective and its constraints in the
    order they were added. *)
Record LpProblem : Type := mkProblem {
  prob_name : string;
  prob_sense : direction;
  objective : LpAffineExpression;
  constraints : list LpConstraint
}.

Definition sumZ (l : list Z) : Z := foldr Z.add 0 l.

(** The value of an expression under an assignment of the variables. *)
Definition value (val : LpVariable -> Z) (e : LpAffineExpression) : Z :=
  sumZ ((fun t : Z * LpVariable => t.1 * val t.2) <$> terms e) + constant e.

Definition holds (val : LpVariable -> Z) (c : LpConstraint) : bool :=
  match c_sense c with
  | LE => bool_decide (value val (c_lhs c) <= value val (c_rhs c))
  | GE => bool_decide (value val (c_lhs c) >= value val (c_rhs c))
  | EQ => bool_decide (value val (c_lhs c) = value val (c_rhs c))
  end.

Definition expr_vars (e : LpAffineExpression) : list LpVariable := snd <$> terms e.
Definition constraint_vars (c : LpConstraint) : list LpVariable :=
  expr_vars (c_lhs c) ++ expr_vars (c_rhs c).
(** [prob.variables()]: the variables of the objective and the constraints. *)
Definition variables (p : LpProblem) : list LpVariable :=
  expr_vars (objective p) ++ concat (constraint_vars <$> constraints p).

Definition binary (val : LpVariable -> Z) (v : LpVariable) : bool :=
  bool_decide (val v = 0 ∨ val v = 1).

(** An assignment the solver may return: every variable of the problem is
    0 or 1 and every constraint holds. *)
Definition feasible (p : LpProblem) (val : LpVariable -> Z) : bool :=
  forallb (binary val) (variables p) && forallb (holds val) (constraints p).

(** An assignment of status [Optimal] of a minimisation problem: feasible,
    and no feasible assignment has a smaller objective. *)
Definition optimal (p : LpProblem) (val : LpVariable -> Z) : Prop :=
  feasible p val = true ∧
  ∀ val', feasible p val' = true -> value val (objective p) <= value val' (objective p).

(** ** Adding a constraint to the problem *)

(** A constraint's name is stored with every character of ["-+[] ->/"]
    replaced by an underscore. *)
Definition sanitise_char (c : ascii) : ascii :=
  if bool_decide (c ∈ ["-"; "+"; "["; "]"; " "; ">"; "/"]%char) then "_"%char else c.
Fixpoint sanitise (name : string) : string :=
  match name with
  | EmptyString => EmptyString
  | String c name' => String (sanitise_char c) (sanitise name')
  end.

(** [if name: constraint.name = name] *)
Definition with_name (name : option string) (c : LpConstraint) : LpConstraint :=
  match name with
  | Some (String a n) => mkConstraint (c_lhs c) (c_sense c) (c_rhs c) (Some (sanitise (String a n)))
  | _ => c
  end.

(** The names under which the named constraints of a problem are stored. *)
Definition constraint_names (cs : list LpConstraint) : list string := omap c_name cs.

Definition snoc_constraint (prob : LpProblem) (c : LpConstraint) : LpProblem :=
  mkProblem (prob_name prob) (prob_sense prob) (objective prob) (constraints prob ++ [c]).

(** [prob.addConstraint(c)] for a constraint that has its name: pulp raises
    [PulpError] when the problem holds a constraint of that name.  A
    constraint without name is stored under a generated name [_C<n>] that the
    problem does not hold; the names [build_model] passes start with a
    letter, so they never meet a generated one. *)
Definition store (c : LpConstraint) (prob : LpProblem) : res LpProblem :=
  match c_name c with
  | Some n =>
    if decide (n ∈ constraint_names (constraints prob)) then Raise PulpError
    else Ret (snoc_constraint prob c)
  | None => Ret (snoc_constraint prob c)
  end.

(** [prob += c, name] and [prob += c] *)
Definition add_constraint (c : LpConstraint) (name : option string) (prob : LpProblem)
    : res LpProblem :=
  store (with_name name c) prob.

(** ** The roster *)

(** A row of the frame [loaddata] returns: ['Student Name'], ['Day of Week'],
    ['Class Start'], ['Class End']. *)
Record row : Type := mkRow {
  student_name : string;
  day_of_week : string;
  class_start : time;
  class_end : time
}.

(** [Series.unique()]: the distinct values in order of first appearance. *)
Fixpoint unique_from (seen l : list string) : list string :=
  match l with
  | [] => []
  | a :: l' =>
    if decide (a ∈ seen) then unique_from seen l'
    else a :: unique_from (a :: seen) l'
  end.
Definition unique (l : list string) : list string := unique_from [] l.

(** [sorted(...)]: a stable sort; insertion from the right is one. *)
Fixpoint insert_sorted {A} (le : A -> A -> bool) (a : A) (l : list A) : list A :=
  match l with
  | [] => [a]
  | b :: l' => if le a b then a :: b :: l' else b :: insert_sorted le a l'
  end.
Definition sort_by {A} (le : A -> A -> bool) (l : list A) : list A :=
  foldr (insert_sorted le) [] l.

(** Python compares [str] by code points, which is the order of the bytes
    of the UTF-8 encoding. *)
Definition sorted (l : list string) : list string := sort_by String.leb l.

(** [df.groupby("Student Name")]: the groups in sorted key order, each with
    its rows in the order of the frame. *)
Definition groupby_student (df : list row) : list (string * list row) :=
  (fun s => (s, filter (fun r => student_name r = s) df))
    <$> sorted (unique (student_name <$> df)).

(** A [dict] iterated in insertion order. *)
Fixpoint dict_set {V} (k : string) (v : V) (m : list (string * V)) : list (string * V) :=
  match m with
  | [] => [(k, v)]
  | (k', v') :: m' => if decide (k' = k) then (k, v) :: m' else (k', v') :: dict_set k v m'
  end.
Fixpoint dict_get {V} (m : list (string * V)) (k : string) : res V :=
  match m with
  | [] => Raise KeyError
  | (k', v') :: m' => if decide (k' = k) then Ret v' else dict_get m' k
  end.

(** ** [build_model] *)

Record params : Type := mkParams {
  minh : Z;
  maxh : Z;
  avg_low : Z;
  avg_high : Z;
  maxovl : Z;
  day_cost : Z
}.
Definition default_params : params := mkParams 6 20 8 12 3 1.

Definition big_weight : Z := 1000.

(** [str(i)] in an f-string. *)
Definition str_int (i : Z) : string := NilZero.string_of_int (Z.to_int i).

Definition key3 : Type := string * string * Z.
Definition key2 : Type := string * string.
Definition dayblock : Type := Z * time * time.

(** A loop over [l] that threads a state. *)
Fixpoint for_each {A S} (l : list A) (body : A -> S -> res S) (st : S) : res S :=
  match l with
  | [] => Ret st
  | a :: l' => st' ← body a st; for_each l' body st'
  end.

(** A loop over [l] whose body appends to a list (constraints added to
    [prob], rows appended to [rows]). *)
Definition for_collect `{MBind M, MRet M, FMap M} {A B}
    (l : list A) (body : A -> M (list B)) : M (list B) :=
  (fun ll : list (list B) => concat ll) <$> mapM body l.

(** lines 105-107: [day_blocks] *)
Definition group_blocks (ds : list string) (blks : list block)
    : res (gmap string (list dayblock)) :=
  for_each blks
    (fun b day_blocks =>
       let '(d, i, st, et) := b in
       l ← getitem day_blocks d;
       Ret (<[d := l ++ [(i, st, et)]]> day_blocks))
    (foldl (fun m d => <[d := []]> m) ∅ ds).

(** The dicts [x], [y], [start2], [start3], [start4]. *)
Record vars : Type := mkVars {
  x_vars : gmap key3 LpVariable;
  y_vars : gmap key2 LpVariable;
  start2_vars : gmap key3 LpVariable;
  start3_vars : gmap key3 LpVariable;
  start4_vars : gmap key3 LpVariable
}.
Definition no_vars : vars := mkVars ∅ ∅ ∅ ∅ ∅.

Definition set_x (f : gmap key3 LpVariable -> gmap key3 LpVariable) (vs : vars) : vars :=
  mkVars (f (x_vars vs)) (y_vars vs) (start2_vars vs) (start3_vars vs) (start4_vars vs).
Definition set_y (f : gmap key2 LpVariable -> gmap key2 LpVariable) (vs : vars) : vars :=
  mkVars (x_vars vs) (f (y_vars vs)) (start2_vars vs) (start3_vars vs) (start4_vars vs).
Definition set_start2 (f : gmap key3 LpVariable -> gmap key3 LpVariable) (vs : vars) : vars :=
  mkVars (x_vars vs) (y_vars vs) (f (start2_vars vs)) (start3_vars vs) (start4_vars vs).
Definition set_start3 (f : gmap key3 LpVariable -> gmap key3 LpVariable) (vs : vars) : vars :=
  mkVars (x_vars vs) (y_vars vs) (start2_vars vs) (f (start3_vars vs)) (start4_vars vs).
Definition set_start4 (f : gmap key3 LpVariable -> gmap key3 LpVariable) (vs : vars) : vars :=
  mkVars (x_vars vs) (y_vars vs) (start2_vars vs) (start3_vars vs) (f (start4_vars vs)).

(** lines 119-126: the shift-start variables of one block *)
Definition create_starts (s d : string) (block_indices : list Z) (i : Z) (vs : vars) : vars :=
  let vs := if decide (i + 1 ∈ block_indices)
            then set_start2 <[(s, d, i) := VStart2 s d i]> vs else vs in
  let vs := if decide (i + 2 ∈ block_indices)
            then set_start3 <[(s, d, i) := VStart3 s d i]> vs else vs in
  if decide (i + 3 ∈ block_indices)
  then set_start4 <[(s, d, i) := VStart4 s d i]> vs else vs.

(** lines 110-126 *)
Definition create_vars (stus ds : list string) (day_blocks : gmap string (list dayblock))
    : res vars :=
  for_each stus (fun s =>
    for_each ds (fun d vs =>
      let vs := set_y <[(s, d) := VY s d]> vs in
      bl ← getitem day_blocks d;
      let vs := foldl (fun vs (b : dayblock) =>
                         set_x <[(s, d, b.1.1) := VX s d b.1.1]> vs) vs bl in
      let block_indices := (fun b : dayblock => b.1.1) <$> bl in
      Ret (foldl (fun vs (b : dayblock) => create_starts s d block_indices b.1.1 vs) vs bl)))
    no_vars.

(** lines 128-129 *)
Definition create_u (blks : list block) : gmap (string * Z) LpVariable :=
  foldl (fun u (b : block) => <[(blk_day b, blk_idx b) := VU (blk_day b) (blk_idx b)]> u) ∅ blks.

(** [x[(s,d,i)] for (d,i,_,_) in blks] *)
Definition x_of_blocks (x : gmap key3 LpVariable) (s : string) (blks : list block)
    : res (list LpVariable) :=
  mapM (fun b : block => getitem x (s, blk_day b, blk_idx b)) blks.
(** [x[(s,d,i)] for s in stus] *)
Definition x_of_students (x : gmap key3 LpVariable) (stus : list string) (d : string) (i : Z)
    : res (list LpVariable) :=
  mapM (fun s => getitem x (s, d, i)) stus.
(** [x[(s,d,i)] for s in stus for (d,i,_,_) in blks] *)
Definition x_all (x : gmap key3 LpVariable) (stus : list string) (blks : list block)
    : res (list LpVariable) :=
  for_collect stus (fun s => x_of_blocks x s blks).

(** lines 131-137 *)
Definition build_objective (p : params) (vs : vars) (u : gmap (string * Z) LpVariable)
    (stus ds : list string) (blks : list block) : res LpAffineExpression :=
  us ← mapM (fun b : block => getitem u (blk_day b, blk_idx b)) blks;
  xs ← x_all (x_vars vs) stus blks;
  ys ← for_collect stus (fun s => mapM (fun d => getitem (y_vars vs) (s, d)) ds);
  Ret (expr_add (expr_add (expr_scale big_weight (lpSum us)) (lpSum xs))
                (expr_scale (day_cost p) (lpSum ys))).

(** lines 139-141 *)
Definition soft_coverage (vs : vars) (u : gmap (string * Z) LpVariable)
    (stus : list string) (blks : list block) (prob : LpProblem) : res LpProblem :=
  for_each blks (fun b prob =>
    let '(d, i, st, et) := b in
    xs ← x_of_students (x_vars vs) stus d i;
    uv ← getitem u (d, i);
    add_constraint (mkConstraint (expr_add (lpSum xs) (of_var uv)) GE (of_const 1) None)
      (Some ("cover_" +:+ d +:+ "_" +:+ str_int i)) prob) prob.

(** lines 143-145 *)
Definition overlap_cap (p : params) (vs : vars) (stus : list string) (blks : list block)
    (prob : LpProblem) : res LpProblem :=
  for_each blks (fun b prob =>
    let '(d, i, st, et) := b in
    xs ← x_of_students (x_vars vs) stus d i;
    add_constraint (mkConstraint (lpSum xs) LE (of_const (maxovl p)) None)
      (Some ("ovl_" +:+ d +:+ "_" +:+ str_int i)) prob) prob.

(** lines 147-151 *)
Definition weekly_bounds (p : params) (vs : vars) (stus : list string) (blks : list block)
    (prob : LpProblem) : res LpProblem :=
  for_each stus (fun s prob =>
    xs ← x_of_blocks (x_vars vs) s blks;
    let total_hrs := lpSum xs in
    prob ← add_constraint (mkConstraint total_hrs GE (of_const (minh p)) None)
             (Some ("minH_" +:+ s)) prob;
    add_constraint (mkConstraint total_hrs LE (of_const (maxh p)) None)
      (Some ("maxH_" +:+ s)) prob) prob.

(** lines 153-157 *)
Definition average_bounds (p : params) (vs : vars) (stus : list string) (blks : list block)
    (prob : LpProblem) : res LpProblem :=
  let N := Z.of_nat (length stus) in
  xs ← x_all (x_vars vs) stus blks;
  let total_all := lpSum xs in
  prob ← add_constraint (mkConstraint total_all GE (of_const (avg_low p * N)) None)
           (Some "AvgLow") prob;
  add_constraint (mkConstraint total_all LE (of_const (avg_high p * N)) None)
    (Some "AvgHigh") prob.

(** lines 159-164 *)
Definition busy_check (vs : vars) (stmap : list (string * list class_))
    (day_blocks : gmap string (list dayblock)) (stus ds : list string)
    (prob : LpProblem) : res LpProblem :=
  for_each stus (fun s prob =>
    for_each ds (fun d prob =>
      bl ← getitem day_blocks d;
      for_each bl (fun (b : dayblock) prob =>
        let '(i, st, et) := b in
        classes ← dict_get stmap s;
        if negb (freeblk classes d st et) then
          xv ← getitem (x_vars vs) (s, d, i);
          add_constraint (mkConstraint (of_var xv) EQ (of_const 0) None)
            (Some ("busy_" +:+ s +:+ "_" +:+ d +:+ "_" +:+ str_int i)) prob
        else Ret prob) prob) prob) prob.

(** [[start[(s,d,i)] for i in block_indices if (s,d,i) in start]] *)
Definition starts_in (start : gmap key3 LpVariable) (s d : string) (block_indices : list Z)
    : res (list LpVariable) :=
  mapM (fun i => getitem start (s, d, i))
       (filter (fun i => is_Some (start !! (s, d, i))) block_indices).

(** [prob += x[k] >= start[(s,d,i)]] *)
Definition add_link (x start : gmap key3 LpVariable) (k k' : key3) (prob : LpProblem)
    : res LpProblem :=
  xv ← getitem x k;
  sv ← getitem start k';
  add_constraint (mkConstraint (of_var xv) GE (of_var sv) None) None prob.

(** lines 187-199: the links of one block index *)
Definition shift_links (vs : vars) (s d : string) (i : Z) (prob : LpProblem)
    : res LpProblem :=
  prob ← (if decide (is_Some (start2_vars vs !! (s, d, i))) then
            prob ← add_link (x_vars vs) (start2_vars vs) (s, d, i) (s, d, i) prob;
            add_link (x_vars vs) (start2_vars vs) (s, d, i + 1) (s, d, i) prob
          else Ret prob);
  prob ← (if decide (is_Some (start3_vars vs !! (s, d, i))) then
            prob ← add_link (x_vars vs) (start3_vars vs) (s, d, i) (s, d, i) prob;
            prob ← add_link (x_vars vs) (start3_vars vs) (s, d, i + 1) (s, d, i) prob;
            add_link (x_vars vs) (start3_vars vs) (s, d, i + 2) (s, d, i) prob
          else Ret prob);
  if decide (is_Some (start4_vars vs !! (s, d, i))) then
    prob ← add_link (x_vars vs) (start4_vars vs) (s, d, i) (s, d, i) prob;
    prob ← add_link (x_vars vs) (start4_vars vs) (s, d, i + 1) (s, d, i) prob;
    prob ← add_link (x_vars vs) (start4_vars vs) (s, d, i + 2) (s, d, i) prob;
    add_link (x_vars vs) (start4_vars vs) (s, d, i + 3) (s, d, i) prob
  else Ret prob.

(** lines 166-199 *)
Definition shift_shape (vs : vars) (day_blocks : gmap string (list dayblock))
    (stus ds : list string) (prob : LpProblem) : res LpProblem :=
  for_each stus (fun s prob =>
    for_each ds (fun d prob =>
      bl ← getitem day_blocks d;
      let block_indices := (fun b : dayblock => b.1.1) <$> bl in
      s2_list ← starts_in (start2_vars vs) s d block_indices;
      s3_list ← starts_in (start3_vars vs) s d block_indices;
      s4_list ← starts_in (start4_vars vs) s d block_indices;
      xs ← mapM (fun i => getitem (x_vars vs) (s, d, i)) block_indices;
      let sum_x_day := lpSum xs in
      yv ← getitem (y_vars vs) (s, d);
      prob ← add_constraint
               (mkConstraint (lpSum (s2_list ++ s3_list ++ s4_list)) EQ (of_var yv) None)
               (Some ("shifts_" +:+ s +:+ "_" +:+ d)) prob;
      prob ← add_constraint
               (mkConstraint sum_x_day EQ
                  (expr_add (expr_add (expr_scale 2 (lpSum s2_list))
                                      (expr_scale 3 (lpSum s3_list)))
                            (expr_scale 4 (lpSum s4_list))) None)
               (Some ("sumx_" +:+ s +:+ "_" +:+ d)) prob;
      for_each block_indices (shift_links vs s d) prob) prob) prob.

(** What [build_model] returns: [(prob, x, y, u, blks, stus)]. *)
Record model : Type := mkModel {
  prob : LpProblem;
  x_dict : gmap key3 LpVariable;
  y_dict : gmap key2 LpVariable;
  u_dict : gmap (string * Z) LpVariable;
  blks : list block;
  stus : list string
}.

(** line 84 *)
Definition active_days (df : list row) : list string :=
  sorted (unique (day_of_week <$> df)).

(** lines 89-91 *)
Definition build_stmap (df : list row) : list (string * list class_) :=
  foldl (fun stmap (sg : string * list row) =>
           dict_set sg.1
             ((fun r => (day_of_week r, class_start r, class_end r)) <$> sg.2) stmap)
        [] (groupby_student df).

Definition build_model (df : list row) (p : params) : res model :=
  let ds := active_days df in
  blks ← genblocks ds default_start default_end;
  let stmap := build_stmap df in
  let stus := fst <$> stmap in
  day_blocks ← group_blocks ds blks;
  vs ← create_vars stus ds day_blocks;
  let u := create_u blks in
  obj ← build_objective p vs u stus ds blks;
  let prob := mkProblem "sched" LpMinimize obj [] in
  prob ← soft_coverage vs u stus blks prob;
  prob ← overlap_cap p vs stus blks prob;
  prob ← weekly_bounds p vs stus blks prob;
  prob ← average_bounds p vs stus blks prob;
  prob ← busy_check vs stmap day_blocks stus ds prob;
  prob ← shift_shape vs day_blocks stus ds prob;
  Ret (mkModel prob (x_vars vs) (y_vars vs) u blks stus).

(** ** [solve_and_extract] *)

(** What [prob.solve(solver)] leaves behind: [LpStatus[prob.status]] and the
    [varValue] of every variable ([None] when the solver set none). *)
Record outcome : Type := mkOutcome {
  status : string;
  varValue : LpVariable -> option Z
}.

(** The extraction reads [varValue]s and may raise; [io] logs every variable
    whose value is read. *)
Definition io (A : Type) : Type := list LpVariable -> res A * list LpVariable.

#[global] Instance io_ret : MRet io := fun A a log => (Ret a, log).
#[global] Instance io_bind : MBind io := fun A B f m log =>
  match m log with
  | (Ret a, log') => f a log'
  | (Raise e, log') => (Raise e, log')
  end.
#[global] Instance io_fmap : FMap io := fun A B f m log =>
  match m log with
  | (Ret a, log') => (Ret (f a), log')
  | (Raise e, log') => (Raise e, log')
  end.

Definition lift {A} (r : res A) : io A := fun log => (r, log).
(** [v.varValue] *)
Definition read_value (out : outcome) (v : LpVariable) : io (option Z) :=
  fun log => (Ret (varValue out v), log ++ [v]).

(** A row of [sol_df]: Student, Day, BlockIdx, Start, End, TotalHrs. *)
Record assigned : Type := mkAssigned {
  a_student : string;
  a_day : string;
  a_blockidx : Z;
  a_start : string;
  a_end : string;
  a_totalhrs : Z
}.

(** A row of [uncovered_df]: Day, BlockIdx, Start, End, Status. *)
Record uncovered : Type := mkUncovered {
  u_day : string;
  u_blockidx : Z;
  u_start : string;
  u_end : string;
  u_status : string
}.

(** A [DataFrame]: its column labels and its rows.  [pd.DataFrame(rows)]
    takes the labels from the dicts of [rows], so a frame built from no row
    has no column. *)
Record DataFrame (R : Type) : Type := mkFrame {
  columns : list string;
  records : list R
}.
Arguments mkFrame {R} columns records.
Arguments columns {R} d.
Arguments records {R} d.

Definition frame_of {R} (labels : list string) (rows : list R) : DataFrame R :=
  mkFrame (match rows with [] => [] | _ => labels end) rows.
Definition empty {R} (df : DataFrame R) : bool :=
  bool_decide (columns df = [] ∨ records df = []).
(** [df[c] = ...] with new values for the rows *)
Definition set_column {R} (c : string) (f : list R -> list R) (df : DataFrame R)
    : DataFrame R :=
  mkFrame (if decide (c ∈ columns df) then columns df else columns df ++ [c])
          (f (records df)).
(** [df[c]]: [KeyError] when there is no such column *)
Definition get_column {R} (c : string) (df : DataFrame R) : res (list R) :=
  if decide (c ∈ columns df) then Ret (records df) else Raise KeyError.
Definition drop_column {R} (c : string) (df : DataFrame R) : res (DataFrame R) :=
  if decide (c ∈ columns df)
  then Ret (mkFrame (filter (fun c' => c' ≠ c) (columns df)) (records df))
  else Raise KeyError.

(** [daymap]; a day that is not a key maps to NaN ([None]). *)
Definition daymap (d : string) : option Z :=
  if decide (d = "Monday") then Some 1
  else if decide (d = "Tuesday") then Some 2
  else if decide (d = "Wednesday") then Some 3
  else if decide (d = "Thursday") then Some 4
  else if decide (d = "Friday") then Some 5
  else None.

(** The order of the [daynum] column: numbers ascending, NaN last. *)
Definition daynum_compare (a b : option Z) : comparison :=
  match a, b with
  | Some m, Some n => m ?= n
  | Some _, None => Lt
  | None, Some _ => Gt
  | None, None => Eq
  end.

(** [sort_values(["daynum","BlockIdx","Student"])]: the rows compared by
    daynum, then BlockIdx, then Student. *)
Definition row_compare (a b : assigned) : comparison :=
  match daynum_compare (daymap (a_day a)) (daymap (a_day b)) with
  | Eq =>
    match a_blockidx a ?= a_blockidx b with
    | Eq => String.compare (a_student a) (a_student b)
    | c => c
    end
  | c => c
  end.
Definition row_le (a b : assigned) : bool :=
  match row_compare a b with Gt => false | _ => true end.

(** lines 230-235 *)
Definition add_totalhrs (sol_df : DataFrame assigned) : DataFrame assigned :=
  if negb (empty sol_df) then
    set_column "TotalHrs"
      (fun rows =>
         (fun r => mkAssigned (a_student r) (a_day r) (a_blockidx r) (a_start r) (a_end r)
                     (Z.of_nat (length (filter (fun r' => a_student r' = a_student r) rows))))
           <$> rows)
      sol_df
  else set_column "TotalHrs" (fun rows => rows) sol_df.

(** lines 238-241 *)
Definition sort_nicely (sol_df : DataFrame assigned) : res (DataFrame assigned) :=
  _ ← get_column "Day" sol_df;
  let sol_df := set_column "daynum" (fun rows => rows) sol_df in
  _ ← get_column "BlockIdx" sol_df;
  _ ← get_column "Student" sol_df;
  let sol_df := mkFrame (columns sol_df) (sort_by row_le (records sol_df)) in
  drop_column "daynum" sol_df.

Definition assigned_labels : list string := ["Student"; "Day"; "BlockIdx"; "Start"; "End"].
Definition uncovered_labels : list string := ["Day"; "BlockIdx"; "Start"; "End"; "Status"].

Definition solve_and_extract (solver : LpProblem -> outcome) (prob : LpProblem)
    (x : gmap key3 LpVariable) (y : gmap key2 LpVariable) (u : gmap (string * Z) LpVariable)
    (blks : list block) (stus : list string)
    : io (option (DataFrame assigned * DataFrame uncovered)) :=
  let out := solver prob in
  if decide (status out ∉ ["Optimal"; "Feasible"]) then mret None
  else
    rows ← for_collect stus (fun s =>
      for_collect blks (fun b : block =>
        let '(d, i, st, et) := b in
        xv ← lift (getitem x (s, d, i));
        val ← read_value out xv;
        if decide (val = Some 1)
        then mret [mkAssigned s d i (strftime_HM st) (strftime_HM et) 0]
        else mret []));
    let sol_df := add_totalhrs (frame_of assigned_labels rows) in
    sol_df ← lift (sort_nicely sol_df);
    uncovered_rows ← for_collect blks (fun b : block =>
      let '(d, i, st, et) := b in
      uv ← lift (getitem u (d, i));
      val ← read_value out uv;
      if decide (val = Some 1)
      then mret [mkUncovered d i (strftime_HM st) (strftime_HM et) "Uncovered"]
      else mret []);
    mret (Some (sol_df, frame_of uncovered_labels uncovered_rows)).

(** ** [loaddata] and the driver *)

(** lines 266-276 of [main]: build the model, solve it and decode it. *)
Definition build_and_extract (solver : LpProblem -> outcome) (df : list row) (p : params)
    : io (option (DataFrame assigned * DataFrame uncovered)) :=
  m ← lift (build_model df p);
  solve_and_extract solver (prob m) (x_dict m) (y_dict m) (u_dict m) (blks m) (stus m).

(** A row of the sheet as [pd.read_excel] returns it. *)
Record sheet_row : Type := mkSheetRow {
  raw_name : string;
  raw_day : string;
  raw_start : string;
  raw_end : string
}.

(** [%S] is [6[0-1]|[0-5]\d|\d]. *)
Definition two_S (d1 d2 : Z) : bool := bool_decide (d1 = 6 ∧ d2 <= 1 ∨ d1 <= 5).

(** A time in the format ["%H:%M:%S"]; a second of 60 or 61 matches the
    pattern but is no time of day. *)
Definition strptime_HMS (str : string) : res time :=
  let colon {A} (next : list ascii -> list A) (p : Z * list ascii) : list (Z * A) :=
    match p with
    | (n, ":"%char :: r) => (fun q => (n, q)) <$> next r
    | _ => []
    end in
  if is_ascii str then
    match field two_H (list_ascii_of_string str)
          ≫= colon (fun r => field two_M r ≫= colon (field two_S)) with
    | (h, (m, (sec, []))) :: _ =>
      if decide (sec <= 59) then Ret (mktime h m sec) else Raise ValueError
    | _ => Raise ValueError
    end
  else Raise Unmodelled.

Section Loading.
(** [pd.to_datetime(cell, format="%H:%M:%S").time()] for one cell; pandas
    raises when a cell does not match the format. *)
Variable to_time : string -> res time.

(** lines 19-23: the two columns are converted one after the other. *)
Definition loaddata (sheet : list sheet_row) : res (list row) :=
  starts ← mapM (fun r => to_time (raw_start r)) sheet;
  ends ← mapM (fun r => to_time (raw_end r)) sheet;
  Ret ((fun t : sheet_row * (time * time) =>
          mkRow (raw_name t.1) (raw_day t.1) t.2.1 t.2.2)
         <$> zip sheet (zip starts ends)).

(** lines 264-274 of [main]: load the roster, then build the model. *)
Definition load_and_build (sheet : list sheet_row) (p : params) : res model :=
  df ← loaddata sheet;
  build_model df p.

(** lines 264-281 of [main] *)
Definition main (solver : LpProblem -> outcome) (sheet : list sheet_row)
    : io (option (DataFrame assigned * DataFrame uncovered)) :=
  df ← lift (loaddata sheet);
  build_and_extract solver df default_params.
End Loading.

(** ** Vocabulary of the statements *)

(** [n] consecutive one-hour blocks of day [d], the first one with index [i]
    and start [cur]. *)
Definition hour_blocks (d : string) (cur : time) (i : Z) (n : nat) : list block :=
  (fun k : nat => (d, i + Z.of_nat k, cur + one_hour * Z.of_nat k,
                   cur + one_hour * (Z.of_nat k + 1))) <$> seq 0 n.

(** The constraints of [build_model], family by family, as functions of the
    keys; [build_model_closed] proves that [build_model] returns them. *)

Definition block_of (d : string) (b : dayblock) : block := (d, b.1.1, b.1.2, b.2).
Definition indices (bl : list dayblock) : list Z := (fun b : dayblock => b.1.1) <$> bl.

(** The blocks of every active day: ten hours from 07:30. *)
Definition day_template : list dayblock :=
  (fun k : nat => (Z.of_nat k, mktime 7 30 0 + one_hour * Z.of_nat k,
                   mktime 7 30 0 + one_hour * (Z.of_nat k + 1))) <$> seq 0 10.

Definition xs_of_students (stus : list string) (d : string) (i : Z) : list LpVariable :=
  (fun s => VX s d i) <$> stus.
Definition xs_of_blocks (s : string) (blks : list block) : list LpVariable :=
  (fun b : block => VX s (blk_day b) (blk_idx b)) <$> blks.
Definition xs_all (stus : list string) (blks : list block) : list LpVariable :=
  stus ≫= fun s => xs_of_blocks s blks.

Definition objective_of (p : params) (stus ds : list string) (blks : list block)
    : LpAffineExpression :=
  expr_add
    (expr_add
       (expr_scale big_weight (lpSum ((fun b : block => VU (blk_day b) (blk_idx b)) <$> blks)))
       (lpSum (xs_all stus blks)))
    (expr_scale (day_cost p) (lpSum (stus ≫= fun s => (fun d => VY s d) <$> ds))).

Definition cover_constraint (stus : list string) (d : string) (i : Z) : LpConstraint :=
  mkConstraint (expr_add (lpSum (xs_of_students stus d i)) (of_var (VU d i))) GE (of_const 1)
    (Some (sanitise ("cover_" +:+ d +:+ "_" +:+ str_int i))).

Definition ovl_constraint (p : params) (stus : list string) (d : string) (i : Z)
    : LpConstraint :=
  mkConstraint (lpSum (xs_of_students stus d i)) LE (of_const (maxovl p))
    (Some (sanitise ("ovl_" +:+ d +:+ "_" +:+ str_int i))).

Definition weekly_constraints (p : params) (blks : list block) (s : string)
    : list LpConstraint :=
  [mkConstraint (lpSum (xs_of_blocks s blks)) GE (of_const (minh p))
     (Some (sanitise ("minH_" +:+ s)));
   mkConstraint (lpSum (xs_of_blocks s blks)) LE (of_const (maxh p))
     (Some (sanitise ("maxH_" +:+ s)))].

Definition average_constraints (p : params) (stus : list string) (blks : list block)
    : list LpConstraint :=
  [mkConstraint (lpSum (xs_all stus blks)) GE
     (of_const (avg_low p * Z.of_nat (length stus))) (Some "AvgLow");
   mkConstraint (lpSum (xs_all stus blks)) LE
     (of_const (avg_high p * Z.of_nat (length stus))) (Some "AvgHigh")].

Definition busy_constraint (s d : string) (i : Z) : LpConstraint :=
  mkConstraint (of_var (VX s d i)) EQ (of_const 0)
    (Some (sanitise ("busy_" +:+ s +:+ "_" +:+ d +:+ "_" +:+ str_int i))).

Definition busy_constraints (classes : list class_) (bl : list dayblock) (s d : string)
    : list LpConstraint :=
  bl ≫= fun b : dayblock =>
    if negb (freeblk classes d b.1.2 b.2) then [busy_constraint s d b.1.1] else [].

(** The indices at which a shift of [k + 1] blocks can start. *)
Definition start_indices (k : Z) (idx : list Z) : list Z :=
  filter (fun i => i + k ∈ idx) idx.

Definition ge_constraint (a b : LpVariable) : LpConstraint :=
  mkConstraint (of_var a) GE (of_var b) None.

Definition link_constraints (s d : string) (idx : list Z) (i : Z) : list LpConstraint :=
  (if decide (i + 1 ∈ idx)
   then [ge_constraint (VX s d i) (VStart2 s d i);
         ge_constraint (VX s d (i + 1)) (VStart2 s d i)]
   else []) ++
  (if decide (i + 2 ∈ idx)
   then [ge_constraint (VX s d i) (VStart3 s d i);
         ge_constraint (VX s d (i + 1)) (VStart3 s d i);
         ge_constraint (VX s d (i + 2)) (VStart3 s d i)]
   else []) ++
  (if decide (i + 3 ∈ idx)
   then [ge_constraint (VX s d i) (VStart4 s d i);
         ge_constraint (VX s d (i + 1)) (VStart4 s d i);
         ge_constraint (VX s d (i + 2)) (VStart4 s d i);
         ge_constraint (VX s d (i + 3)) (VStart4 s d i)]
   else []).

Definition s2_list (s d : string) (idx : list Z) : list LpVariable :=
  VStart2 s d <$> start_indices 1 idx.
Definition s3_list (s d : string) (idx : list Z) : list LpVariable :=
  VStart3 s d <$> start_indices 2 idx.
Definition s4_list (s d : string) (idx : list Z) : list LpVariable :=
  VStart4 s d <$> start_indices 3 idx.

Definition shifts_constraint (s d : string) (idx : list Z) : LpConstraint :=
  mkConstraint (lpSum (s2_list s d idx ++ s3_list s d idx ++ s4_list s d idx)) EQ
    (of_var (VY s d)) (Some (sanitise ("shifts_" +:+ s +:+ "_" +:+ d))).

Definition sumx_constraint (s d : string) (idx : list Z) : LpConstraint :=
  mkConstraint (lpSum (VX s d <$> idx)) EQ
    (expr_add (expr_add (expr_scale 2 (lpSum (s2_list s d idx)))
                        (expr_scale 3 (lpSum (s3_list s d idx))))
              (expr_scale 4 (lpSum (s4_list s d idx))))
    (Some (sanitise ("sumx_" +:+ s +:+ "_" +:+ d))).

Definition shape_constraints (s d : string) (idx : list Z) : list LpConstraint :=
  shifts_constraint s d idx :: sumx_constraint s d idx :: (idx ≫= link_constraints s d idx).

(** The constraints [cs], each carrying its name, added one after the other. *)
Fixpoint add_all (cs : list LpConstraint) (prob : LpProblem) : res LpProblem :=
  match cs with
  | [] => Ret prob
  | c :: cs' => prob' ← store c prob; add_all cs' prob'
  end.

(** The busy intervals of a student, in the order of the roster. *)
Definition classes_of (df : list row) (s : string) : list class_ :=
  (fun r => (day_of_week r, class_start r, class_end r))
    <$> filter (fun r => student_name r = s) df.

Definition students (df : list row) : list string :=
  sorted (unique (student_name <$> df)).

(** The blocks [genblocks] returns for the days [ds] and the default window. *)
Definition all_blocks (ds : list string) : list block :=
  ds ≫= fun d => block_of d <$> day_template.

(** The constraints of the problem, in the order [build_model] adds them. *)
Definition constraints_of (p : params) (df : list row) : list LpConstraint :=
  let ds := active_days df in
  let stus := students df in
  let blks := all_blocks ds in
  let idx := indices day_template in
  (blks ≫= fun b => [cover_constraint stus (blk_day b) (blk_idx b)]) ++
  (blks ≫= fun b => [ovl_constraint p stus (blk_day b) (blk_idx b)]) ++
  (stus ≫= weekly_constraints p blks) ++
  average_constraints p stus blks ++
  (stus ≫= fun s => ds ≫= fun d => busy_constraints (classes_of df s) day_template s d) ++
  (stus ≫= fun s => ds ≫= fun d => shape_constraints s d idx).

Definition problem_of (p : params) (df : list row) : LpProblem :=
  mkProblem "sched" LpMinimize
            (objective_of p (students df) (active_days df) (all_blocks (active_days df)))
            (constraints_of p df).

(** Student [s] works block [i] of day [d] in the assignment [val]. *)
Definition assigned_on (m : model) (val : LpVariable -> Z) (s d : string) (i : Z) : Prop :=
  ∃ xv, x_dict m !! (s, d, i) = Some xv ∧ val xv = 1.

(** A roster of one student with a class on Monday and one on Tuesday, and
    an assignment for it: blocks 1-4 on Monday and 3-6 on Tuesday, every
    other block flagged as uncovered, and block 1 of Monday flagged too. *)
Definition roster1 : list row :=
  [mkRow "A" "Monday" (mktime 7 30 0) (mktime 8 30 0);
   mkRow "A" "Tuesday" (mktime 9 0 0) (mktime 10 0 0)].

Definition val1 (v : LpVariable) : Z :=
  match v with
  | VX s d i =>
    if bool_decide (s = "A" ∧ (d = "Monday" ∧ 1 <= i <= 4 ∨ d = "Tuesday" ∧ 3 <= i <= 6))
    then 1 else 0
  | VY s d => if bool_decide (s = "A" ∧ (d = "Monday" ∨ d = "Tuesday")) then 1 else 0
  | VStart4 s d i =>
    if bool_decide (s = "A" ∧ (d = "Monday" ∧ i = 1 ∨ d = "Tuesday" ∧ i = 3))
    then 1 else 0
  | VU d i =>
    if bool_decide (d = "Monday" ∧ 2 <= i <= 4 ∨ d = "Tuesday" ∧ 3 <= i <= 6)
    then 0 else 1
  | _ => 0
  end.

Definition strip (b : block) : dayblock := (blk_idx b, blk_start b, blk_end b).

(** One pass of the body of the loops of lines 110-126, for student [s] and
    day [d] whose blocks are [bl]. *)
Definition vars_of_day (s d : string) (bl : list dayblock) (vs : vars) : vars :=
  let vs := set_y <[(s, d) := VY s d]> vs in
  let vs := foldl (fun vs (b : dayblock) =>
                     set_x <[(s, d, b.1.1) := VX s d b.1.1]> vs) vs bl in
  foldl (fun vs (b : dayblock) => create_starts s d (indices bl) b.1.1 vs) vs bl.

(** The day a variable belongs to. *)
Definition var_day (v : LpVariable) : string :=
  match v with
  | VX _ d _ | VY _ d | VStart2 _ d _ | VStart3 _ d _ | VStart4 _ d _ | VU d _ => d
  end.

Definition is_u (v : LpVariable) : bool :=
  match v with VU _ _ => true | _ => false end.

Definition ys_all (stus ds : list string) : list LpVariable :=
  stus ≫= fun s => (fun d => VY s d) <$> ds.
Definition us_all (blks : list block) : list LpVariable :=
  (fun b : block => VU (blk_day b) (blk_idx b)) <$> blks.

(** The number of students whose [x] is 1 at block [i] of day [d], and the
    value of the block's uncovered flag. *)
Definition is_assigned (m : model) (val : LpVariable -> Z) (d : string) (i : Z) (s : string)
    : bool :=
  match x_dict m !! (s, d, i) with
  | Some xv => bool_decide (val xv = 1)
  | None => false
  end.
Definition assigned_count (m : model) (val : LpVariable -> Z) (d : string) (i : Z) : Z :=
  Z.of_nat (length (filter (fun s => is_assigned m val d i s = true) (stus m))).
Definition uncovered_flag (m : model) (val : LpVariable -> Z) (d : string) (i : Z) : Z :=
  match u_dict m !! (d, i) with
  | Some uv => val uv
  | None => 0
  end.

(** The assignment [val] with the uncovered flag of one block cleared. *)
Definition clear_flag (val : LpVariable -> Z) (d : string) (i : Z) (v : LpVariable) : Z :=
  if decide (v = VU d i) then 0 else val v.

(** The rank of a day in the [daynum] column: Monday is 1, Friday is 5, and
    any other label (NaN) comes last. *)
Definition day_rank (d : string) : Z :=
  match daymap d with
  | Some n => n
  | None => 6
  end.

(** The order of the rows of the assigned table: day, then block index,
    then student name. *)
Definition sorted_before (a b : assigned) : Prop :=
  day_rank (a_day a) < day_rank (a_day b) ∨
  (day_rank (a_day a) = day_rank (a_day b) ∧
   (a_blockidx a < a_blockidx b ∨
    (a_blockidx a = a_blockidx b ∧ String.leb (a_student a) (a_student b) = true))).

(** The row of student [s] and block [b], without its total. *)
Definition row_of (s : string) (b : block) : assigned :=
  mkAssigned s (blk_day b) (blk_idx b) (strftime_HM (blk_start b)) (strftime_HM (blk_end b)) 0.

(** The rows the first loop of [solve_and_extract] collects: one per student
    and block whose [x] has the value 1, students first. *)
Definition assigned_rows (out : outcome) (x : gmap key3 LpVariable)
    (blks : list block) (stus : list string) : list assigned :=
  stus ≫= fun s => blks ≫= fun b : block =>
    match x !! (s, blk_day b, blk_idx b) with
    | Some xv => if decide (varValue out xv = Some 1) then [row_of s b] else []
    | None => []
    end.

(** The same row with its total: the number of rows of the same student. *)
Definition with_total (rows : list assigned) (r : assigned) : assigned :=
  mkAssigned (a_student r) (a_day r) (a_blockidx r) (a_start r) (a_end r)
    (Z.of_nat (length (filter (fun r' => a_student r' = a_student r) rows))).

(** The result of an extraction step does not depend on what was read
    before it. *)
Definition indep {A} (m : io A) : Prop := ∀ log1 log2, (m log1).1 = (m log2).1.

(** The rows of the uncovered table: one per block whose [u] has the value
    1, in the order of the blocks. *)
Definition uncovered_of (b : block) : uncovered :=
  mkUncovered (blk_day b) (blk_idx b) (strftime_HM (blk_start b)) (strftime_HM (blk_end b))
    "Uncovered".
Definition uncovered_rows (out : outcome) (u : gmap (string * Z) LpVariable)
    (blks : list block) : list uncovered :=
  blks ≫= fun b : block =>
    match u !! (blk_day b, blk_idx b) with
    | Some uv => if decide (varValue out uv = Some 1) then [uncovered_of b] else []
    | None => []
    end.

(** The rows collected from a model of [build_model], whose dicts hold the
    variables [VX] and [VU] of the students and blocks. *)
Definition model_rows (out : outcome) (stus : list string) (blks : list block)
    : list assigned :=
  stus ≫= fun s => blks ≫= fun b : block =>
    if decide (varValue out (VX s (blk_day b) (blk_idx b)) = Some 1) then [row_of s b] else [].
Definition model_urows (out : outcome) (blks : list block) : list uncovered :=
  blks ≫= fun b : block =>
    if decide (varValue out (VU (blk_day b) (blk_idx b)) = Some 1) then [uncovered_of b] else [].

(** Tiny inputs of [solve_and_extract]: two blocks, two students, every
    value 1. *)
Definition tiny_blks : list block :=
  [("Tuesday", 0, mktime 7 30 0, mktime 8 30 0); ("Monday", 1, mktime 8 30 0, mktime 9 30 0)].
Definition tiny_stus : list string := ["B"; "A"].
Definition tiny_x : gmap key3 LpVariable :=
  <[("B", "Tuesday", 0) := VX "B" "Tuesday" 0]>
    (<[("B", "Monday", 1) := VX "B" "Monday" 1]>
       (<[("A", "Tuesday", 0) := VX "A" "Tuesday" 0]>
          (<[("A", "Monday", 1) := VX "A" "Monday" 1]> ∅))).
Definition tiny_u : gmap (string * Z) LpVariable :=
  <[("Tuesday", 0) := VU "Tuesday" 0]> (<[("Monday", 1) := VU "Monday" 1]> ∅).
Definition all_ones (status : string) (_ : LpProblem) : outcome :=
  mkOutcome status (fun _ => Some 1).
Definition empty_problem : LpProblem := mkProblem "sched" LpMinimize (of_const 0) [].

(** The variables whose values the two loops of [solve_and_extract] read. *)
Definition x_reads (x : gmap key3 LpVariable) (blks : list block) (stus : list string)
    : list LpVariable :=
  stus ≫= fun s => blks ≫= fun b : block =>
    match x !! (s, blk_day b, blk_idx b) with
    | Some xv => [xv]
    | None => []
    end.
Definition u_reads (u : gmap (string * Z) LpVariable) (blks : list block)
    : list LpVariable :=
  blks ≫= fun b : block =>
    match u !! (blk_day b, blk_idx b) with
    | Some uv => [uv]
    | None => []
    end.

Definition all_zeros (status : string) (_ : LpProblem) : outcome :=
  mkOutcome status (fun _ => Some 0).

(** Parameters under which nobody can be assigned ([maxovl] is 0), and
    the assignment that flags every block and assigns none. *)
Definition idle_params : params := mkParams 0 20 0 12 0 1.
Definition idle (v : LpVariable) : Z := if is_u v then 1 else 0.
Definition idle_solver (_ : LpProblem) : outcome :=
  mkOutcome "Optimal" (fun v => Some (idle v)).

(** A roster with an unknown day label, and one with two students whose
    names pulp stores alike. *)
Definition funday_roster : list row :=
  [mkRow "A" "Funday" (mktime 9 0 0) (mktime 10 0 0)].

(** The number of blocks student [s] works in the assignment [val], and
    the value of the student's flag for day [d]. *)
Definition hours (m : model) (val : LpVariable -> Z) (s : string) : Z :=
  Z.of_nat (length (filter (fun b : block =>
                              is_assigned m val (blk_day b) (blk_idx b) s = true) (blks m))).
Definition day_flag (m : model) (val : LpVariable -> Z) (s d : string) : Z :=
  match y_dict m !! (s, d) with
  | Some yv => val yv
  | None => 0
  end.

(** What the loops of lines 110-126 have stored once they have run for the
    (student, day) pairs [pairs], every day having the block indices [idx]. *)
Definition vars_inv (idx : list Z) (pairs : list (string * string)) (vs : vars) : Prop :=
  (∀ s d i v, x_vars vs !! (s, d, i) = Some v <->
     ((s, d) ∈ pairs ∧ i ∈ idx) ∧ v = VX s d i) ∧
  (∀ s d v, y_vars vs !! (s, d) = Some v <-> (s, d) ∈ pairs ∧ v = VY s d) ∧
  (∀ s d i v, start2_vars vs !! (s, d, i) = Some v <->
     ((s, d) ∈ pairs ∧ i ∈ idx ∧ i + 1 ∈ idx) ∧ v = VStart2 s d i) ∧
  (∀ s d i v, start3_vars vs !! (s, d, i) = Some v <->
     ((s, d) ∈ pairs ∧ i ∈ idx ∧ i + 2 ∈ idx) ∧ v = VStart3 s d i) ∧
  (∀ s d i v, start4_vars vs !! (s, d, i) = Some v <->
     ((s, d) ∈ pairs ∧ i ∈ idx ∧ i + 3 ∈ idx) ∧ v = VStart4 s d i).

(** Equality of tuples of integers, component by component. *)
Ltac tuple_eq :=
  repeat match goal with |- (_, _) = (_, _) => f_equal end; try lia; try done.

(** * Proofs *)

Example strptime_ex1 : strptime_HM "07:30" = Ret 27000.
Proof. vm_compute. reflexivity. Qed.
Example strptime_ex2 : strptime_HM "7:5" = Ret (mktime 7 5 0).
Proof. vm_compute. reflexivity. Qed.
Example strptime_ex3 : strptime_HM "24:00" = Raise ValueError.
Proof. vm_compute. reflexivity. Qed.
Example strptime_ex4 : strptime_HM "012:30" = Raise ValueError.
Proof. vm_compute. reflexivity. Qed.
Example strptime_ex5 : strptime_HM "7:305" = Raise ValueError.
Proof. vm_compute. reflexivity. Qed.
Example genblocks_ex : genblocks ["Monday"] "08:00" "10:30" =
  Ret [("Monday", 0, mktime 8 0 0, mktime 9 0 0); ("Monday", 1, mktime 9 0 0, mktime 10 0 0)].
Proof. vm_compute. reflexivity. Qed.
Example genblocks_wrap : genblocks ["Monday"] "22:00" "23:59" =
  Ret [("Monday", 0, mktime 22 0 0, mktime 23 0 0); ("Monday", 1, mktime 23 0 0, 0)].
Proof. vm_compute. reflexivity. Qed.
Example strftime_ex : strftime_HM 27000 = "07:30".
Proof. vm_compute. reflexivity. Qed.

(** ** The exception monad *)

Lemma mapM_res_Ret {A B} (f : A -> res B) (g : A -> B) (l : list A) :
  (∀ a, a ∈ l -> f a = Ret (g a)) -> mapM f l = Ret (g <$> l).
Proof.
  induction l as [|a l IH]; intros Hf; simpl; [done|].
  rewrite (Hf a) by left. simpl.
  rewrite IH by (intros b Hb; apply Hf; by right). done.
Qed.

Lemma for_collect_res_Ret {A B} (body : A -> res (list B)) (g : A -> list B) (l : list A) :
  (∀ a, a ∈ l -> body a = Ret (g a)) -> for_collect l body = Ret (l ≫= g).
Proof.
  intros Hf. unfold for_collect. rewrite (mapM_res_Ret _ g) by done. simpl.
  f_equal. clear Hf. induction l as [|a l IH]; simpl; [done|].
  f_equal. apply IH.
Qed.

(** ** [genblocks] *)

Lemma hour_blocks_S d cur i n :
  hour_blocks d cur i (S n) =
  (d, i, cur, cur + one_hour) :: hour_blocks d (cur + one_hour) (i + 1) n.
Proof.
  unfold hour_blocks. cbn [seq]. rewrite <- fmap_S_seq.
  rewrite fmap_cons. f_equal.
  - unfold one_hour. tuple_eq.
  - rewrite <- list_fmap_compose. apply list_fmap_ext. intros _ k _. simpl.
    unfold one_hour. tuple_eq.
Qed.

Lemma field_bound two hi s n r :
  (∀ d1 d2, 0 <= d1 <= 9 -> 0 <= d2 <= 9 -> two d1 d2 = true -> d1 * 10 + d2 <= hi) ->
  9 <= hi ->
  (n, r) ∈ field two s -> 0 <= n <= hi.
Proof.
  intros Htwo Hhi. unfold field.
  destruct s as [|c1 s1]; [by intros ?%elem_of_nil|].
  destruct (digit_of c1) as [d1|] eqn:E1; [|by intros ?%elem_of_nil].
  assert (0 <= d1 <= 9) as Hd1.
  { unfold digit_of in E1. case_decide; [|done]. injection E1 as <-. lia. }
  intros [Hin|Hin%list_elem_of_singleton]%elem_of_app.
  - destruct s1 as [|c2 s2]; [by apply elem_of_nil in Hin|].
    destruct (digit_of c2) as [d2|] eqn:E2; [|by apply elem_of_nil in Hin].
    assert (0 <= d2 <= 9) as Hd2.
    { unfold digit_of in E2. case_decide; [|done]. injection E2 as <-. lia. }
    destruct (two d1 d2) eqn:E; [|by apply elem_of_nil in Hin].
    apply list_elem_of_singleton in Hin. injection Hin as -> ->.
    specialize (Htwo d1 d2 Hd1 Hd2 E). lia.
  - injection Hin as -> ->. lia.
Qed.

Lemma strptime_HM_range str t : strptime_HM str = Ret t -> 0 <= t < seconds_per_day.
Proof.
  unfold strptime_HM. destruct (is_ascii str); [|done].
  match goal with |- match ?l with _ => _ end = _ -> _ => destruct l as [|[h [m r]] l'] eqn:El end;
    [done|].
  destruct r; [|done]. intros [= <-].
  assert (Hin : (h, (m, [])) ∈ (h, (m, @nil ascii)) :: l') by left.
  rewrite <- El in Hin. apply list_elem_of_bind in Hin as ([h' r'] & Hin & Hh).
  destruct r' as [|c r']; [by apply elem_of_nil in Hin|].
  destruct (decide (c = ":"%char)) as [->|Hc].
  - apply list_elem_of_fmap in Hin as ([m' r''] & Heq & Hm).
    injection Heq as -> -> <-.
    apply (field_bound _ 23) in Hh; [|unfold two_H; intros; case_bool_decide; [lia|done]|lia].
    apply (field_bound _ 59) in Hm; [|unfold two_M; intros; case_bool_decide; [lia|done]|lia].
    unfold mktime, seconds_per_day. lia.
  - exfalso. revert Hin. clear -Hc.
    destruct c as [[] [] [] [] [] [] [] []]; try (by intros ?%elem_of_nil). done.
Qed.

Section GenblocksLoop.
Variables (d : string) (en : time).
Hypothesis en_no_wrap : en <= mktime 23 0 0.

Lemma genblocks_loop_closed fuel cur i :
  0 <= cur -> (Z.to_nat (en - cur) < fuel)%nat ->
  genblocks_loop fuel d en en cur i =
  Ret (hour_blocks d cur i (Z.to_nat ((en - cur) `div` one_hour))).
Proof using en_no_wrap.
  unfold mktime, one_hour in *.
  revert cur i. induction fuel as [|fuel IH]; intros cur i Hcur Hfuel; [lia|].
  simpl. unfold time_of, seconds_per_day, one_hour.
  case_decide as Hlt.
  - rewrite (Z.mod_small (cur + 3600)) by lia.
    case_decide as Hgt.
    + rewrite Z.div_small by lia. done.
    + rewrite IH by lia. simpl.
      replace (en - cur) with ((en - (cur + 3600)) + 1 * 3600) by lia.
      rewrite Z.div_add by lia.
      rewrite Z2Nat.inj_add by (try apply Z.div_pos; lia).
      rewrite Nat.add_comm. change (Z.to_nat 1) with 1%nat. simpl Nat.add.
      rewrite hour_blocks_S. unfold one_hour.
      rewrite (Z.mod_small cur) by lia. done.
  - replace (Z.to_nat ((en - cur) `div` 3600)) with 0%nat; [done|].
    assert ((en - cur) `div` 3600 <= 0) by (apply Z.div_le_upper_bound; lia). lia.
Qed.
End GenblocksLoop.

Lemma genblocks_days_closed days st en acc :
  0 <= st -> en <= mktime 23 0 0 ->
  genblocks_days days st en acc =
  Ret (acc ++ days ≫= fun d => hour_blocks d st 0 (Z.to_nat ((en - st) `div` one_hour))).
Proof.
  intros Hst Hen. revert acc.
  induction days as [|d days IH]; intros acc; cbn [genblocks_days].
  - by rewrite app_nil_r.
  - unfold combine_today, loop_fuel.
    rewrite genblocks_loop_closed by (done || lia).
    cbn [mbind res_bind]. rewrite IH. by rewrite <- app_assoc.
Qed.

(** ** [freeblk] *)

Lemma freeblk_false classes d s e :
  freeblk classes d s e = false <-> ∃ cs ce, (d, cs, ce) ∈ classes ∧ cs < e ∧ ce > s.
Proof.
  induction classes as [|[[d' cs'] ce'] classes IH]; simpl.
  - split; [done|]. intros (? & ? & []%elem_of_nil & _).
  - unfold combine_today. repeat case_decide; subst.
    + split; [|done]. intros _. exists cs', ce'. split; [left|]; lia.
    + rewrite IH. split; intros (cs & ce & Hin & ?); exists cs, ce; (split; [|done]).
      * by right.
      * apply elem_of_cons in Hin as [[= -> ->]|]; [lia|done].
    + rewrite IH. split; intros (cs & ce & Hin & ?); exists cs, ce; (split; [|done]).
      * by right.
      * apply elem_of_cons in Hin as [[= -> ->]|]; [done|done].
Qed.

(** ** Orders and sorting *)

Lemma string_compare_refl s : String.compare s s = Eq.
Proof.
  induction s as [|c s IH]; simpl; [done|].
  unfold Ascii.compare. by rewrite N.compare_refl.
Qed.

Lemma string_compare_lt_trans a b c :
  String.compare a b = Lt -> String.compare b c = Lt -> String.compare a c = Lt.
Proof.
  revert b c. induction a as [|x a IH]; intros [|y b] [|z c]; simpl; try done.
  unfold Ascii.compare.
  destruct (N.compare_spec (N_of_ascii x) (N_of_ascii y)) as [Exy|Lxy|Gxy]; [| |done].
  - rewrite Exy. destruct (N_of_ascii y ?= N_of_ascii z)%N; [apply IH|done|done].
  - intros _.
    destruct (N.compare_spec (N_of_ascii y) (N_of_ascii z)) as [Eyz|Lyz|Gyz]; [| |done].
    + intros _. rewrite <- Eyz. by apply N.compare_lt_iff in Lxy as ->.
    + intros _. assert (N_of_ascii x < N_of_ascii z)%N as ->%N.compare_lt_iff by lia. done.
Qed.

Lemma string_leb_spec a b : String.leb a b = true <-> String.compare a b = Lt ∨ a = b.
Proof.
  unfold String.leb. split.
  - destruct (String.compare a b) eqn:E; [|by left|done].
    right. by apply String.compare_eq_iff.
  - intros [->| ->]; [done|]. by rewrite string_compare_refl.
Qed.

Lemma string_leb_trans a b c :
  String.leb a b = true -> String.leb b c = true -> String.leb a c = true.
Proof.
  rewrite !string_leb_spec. intros [Hab| ->] [Hbc| ->]; eauto.
  left. by eapply string_compare_lt_trans.
Qed.

Lemma string_ltb_spec a b : String.ltb a b = true <-> String.leb a b = true ∧ a ≠ b.
Proof.
  unfold String.ltb, String.leb. split.
  - destruct (String.compare a b) eqn:E; try done. intros _. split; [done|].
    intros ->. by rewrite string_compare_refl in E.
  - destruct (String.compare a b) eqn:E; [|done|by intros []].
    apply String.compare_eq_iff in E. by intros [_ []].
Qed.

Section SortBy.
Context {A : Type} (le : A -> A -> bool).
Hypothesis le_total : ∀ a b, le a b = true ∨ le b a = true.
Hypothesis le_trans : ∀ a b c, le a b = true -> le b c = true -> le a c = true.

Lemma insert_sorted_perm a l : insert_sorted le a l ≡ₚ a :: l.
Proof.
  induction l as [|b l IH]; simpl; [done|].
  destruct (le a b); [done|]. rewrite IH. apply Permutation_swap.
Qed.

Lemma sort_by_perm l : sort_by le l ≡ₚ l.
Proof.
  induction l as [|a l IH]; simpl; [done|].
  rewrite insert_sorted_perm. by rewrite IH.
Qed.

Lemma insert_sorted_sorted a l :
  StronglySorted (fun x y => le x y = true) l ->
  StronglySorted (fun x y => le x y = true) (insert_sorted le a l).
Proof using le_total le_trans.
  induction 1 as [|b l Hl IH Hb]; simpl.
  - repeat constructor.
  - destruct (le a b) eqn:E.
    + constructor; [by constructor|]. constructor; [done|].
      eapply Forall_impl; [exact Hb|]. intros c Hc. by eapply le_trans.
    + constructor; [done|].
      rewrite insert_sorted_perm. constructor; [|done].
      destruct (le_total a b); congruence.
Qed.

Lemma sort_by_sorted l : StronglySorted (fun x y => le x y = true) (sort_by le l).
Proof using le_total le_trans.
  induction l as [|a l IH]; simpl; [constructor|]. by apply insert_sorted_sorted.
Qed.

Lemma elem_of_sort_by a l : a ∈ sort_by le l <-> a ∈ l.
Proof. by rewrite sort_by_perm. Qed.
End SortBy.

Lemma elem_of_sorted a l : a ∈ sorted l <-> a ∈ l.
Proof. apply elem_of_sort_by. Qed.

Lemma NoDup_sorted l : NoDup l -> NoDup (sorted l).
Proof. unfold sorted. by rewrite sort_by_perm. Qed.

Lemma sorted_sorted l : StronglySorted (fun a b => String.leb a b = true) (sorted l).
Proof. apply sort_by_sorted; [apply String.leb_total|apply string_leb_trans]. Qed.

(** A sorted list without duplicates is strictly increasing. *)
Lemma sorted_strict l :
  NoDup l -> StronglySorted (fun a b => String.ltb a b = true) (sorted l).
Proof.
  intros Hnd%NoDup_sorted. pose proof (sorted_sorted l) as Hs.
  induction Hs as [|a l' Hs IH Ha]; [constructor|].
  apply NoDup_cons in Hnd as [Hnotin Hnd].
  constructor; [by apply IH|].
  apply Forall_forall. intros b Hb. apply string_ltb_spec. split.
  - by eapply Forall_forall in Ha.
  - intros ->. done.
Qed.

Lemma elem_of_unique_from seen l a :
  a ∈ unique_from seen l <-> a ∈ l ∧ a ∉ seen.
Proof.
  revert seen. induction l as [|b l IH]; intros seen; simpl.
  - split; [by intros ?%elem_of_nil|by intros [?%elem_of_nil _]].
  - case_decide as Hb.
    + rewrite IH, elem_of_cons. split; [naive_solver|].
      intros [[->|?] ?]; done.
    + rewrite elem_of_cons, IH, !elem_of_cons. split.
      * intros [->|[? ?]]; [by split; [left|]|]. split; [by right|tauto].
      * intros [[->|?] ?]; [by left|].
        destruct (decide (a = b)) as [->|]; [by left|right]. naive_solver.
Qed.

Lemma NoDup_unique_from seen l : NoDup (unique_from seen l).
Proof.
  revert seen. induction l as [|b l IH]; intros seen; simpl; [constructor|].
  case_decide; [done|]. constructor; [|done].
  rewrite elem_of_unique_from. intros [_ []]. left.
Qed.

Lemma elem_of_unique l a : a ∈ unique l <-> a ∈ l.
Proof.
  unfold unique. rewrite elem_of_unique_from. split; [by intros []|].
  intros ?. split; [done|]. by intros ?%elem_of_nil.
Qed.

Lemma NoDup_unique l : NoDup (unique l).
Proof. apply NoDup_unique_from. Qed.

Lemma elem_of_active_days df d :
  d ∈ active_days df <-> ∃ r, r ∈ df ∧ day_of_week r = d.
Proof.
  unfold active_days. rewrite elem_of_sorted, elem_of_unique, list_elem_of_fmap.
  naive_solver.
Qed.

Lemma NoDup_active_days df : NoDup (active_days df).
Proof. apply NoDup_sorted, NoDup_unique. Qed.

(** ** Dicts built by loops *)

Lemma getitem_Some `{Countable K} {V} (m : gmap K V) k v :
  m !! k = Some v -> getitem m k = Ret v.
Proof. unfold getitem. by intros ->. Qed.

Lemma foldl_proj {S T A} (π : S -> T) (f : S -> A -> S) (g : T -> A -> T) l st :
  (∀ st a, π (f st a) = g (π st) a) -> π (foldl f st l) = foldl g (π st) l.
Proof.
  intros Hfg. revert st. induction l as [|a l IH]; intros st; simpl; [done|].
  by rewrite IH, Hfg.
Qed.

(** A loop that stores [F k] under the keys [g a] of the elements that
    pass the test [P]. *)
Lemma lookup_foldl_insert `{Countable K} {V A} (P : A -> Prop) `{!∀ a, Decision (P a)}
    (g : A -> K) (F : K -> V) (l : list A) (m : gmap K V) k v :
  (foldl (fun m a => if decide (P a) then <[g a := F (g a)]> m else m) m l) !! k = Some v <->
  (Exists (fun a => P a ∧ g a = k) l ∧ v = F k) ∨
  (¬ Exists (fun a => P a ∧ g a = k) l ∧ m !! k = Some v).
Proof.
  revert m. induction l as [|a l IH]; intros m; simpl.
  - rewrite Exists_nil. tauto.
  - rewrite IH, Exists_cons. clear IH.
    destruct (decide (P a)) as [HP|HP].
    + destruct (decide (g a = k)) as [<-|Hne].
      * rewrite lookup_insert_eq. split.
        -- intros [[? ->]|[? [= <-]]]; left; tauto.
        -- intros [[_ ->]|[Hn _]]; [|tauto].
           destruct (decide (Exists (fun a0 => P a0 ∧ g a0 = g a) l)); [left|right]; tauto.
      * rewrite lookup_insert_ne by done. tauto.
    + tauto.
Qed.

Lemma lookup_foldl_insert_all `{Countable K} {V A}
    (g : A -> K) (F : K -> V) (l : list A) (m : gmap K V) k v :
  (foldl (fun m a => <[g a := F (g a)]> m) m l) !! k = Some v <->
  (k ∈ g <$> l ∧ v = F k) ∨ ((k ∉ g <$> l) ∧ m !! k = Some v).
Proof.
  pose proof (lookup_foldl_insert (fun _ => True) g F l m k v) as Hl.
  assert (Exists (fun a => True ∧ g a = k) l <-> k ∈ g <$> l) as Hex.
  { rewrite Exists_exists, list_elem_of_fmap. naive_solver. }
  rewrite Hex in Hl. rewrite <- Hl. clear.
  assert (∀ m', foldl (fun m a => <[g a := F (g a)]> m) m' l =
          foldl (fun m a => if decide True then <[g a := F (g a)]> m else m) m' l) as ->; [|done].
  induction l as [|a l IH]; intros m'; simpl; [done|]. by rewrite IH.
Qed.

Lemma for_each_Ret {A S} (body : A -> S -> res S) (l : list A) (Inv : list A -> S -> Prop) st :
  Inv [] st ->
  (∀ done a st, Inv done st -> a ∈ l -> ∃ st', body a st = Ret st' ∧ Inv (done ++ [a]) st') ->
  ∃ st', for_each l body st = Ret st' ∧ Inv l st'.
Proof.
  intros H0 Hstep.
  assert (∀ done rest st, done ++ rest = l -> Inv done st ->
          ∃ st', for_each rest body st = Ret st' ∧ Inv l st') as Hgen.
  { intros done rest. revert done. induction rest as [|a rest IH]; intros done st0 Hl Hinv; simpl.
    - rewrite app_nil_r in Hl. subst. eauto.
    - destruct (Hstep done a st0 Hinv) as (st1 & -> & Hinv1).
      { rewrite <- Hl. apply elem_of_app. right. left. }
      simpl. apply (IH (done ++ [a])); [|done]. by rewrite <- app_assoc. }
  by apply (Hgen [] l).
Qed.

(** ** The variables of [build_model] *)

Lemma merge_lookup (New Old : Prop) {V} (o : option V) (l : option V) (v fk : V) :
  Decision New ->
  (l = Some v <-> (New ∧ v = fk) ∨ (¬ New ∧ o = Some v)) ->
  (o = Some v <-> Old ∧ v = fk) ->
  (l = Some v <-> (New ∨ Old) ∧ v = fk).
Proof. intros [?|?] -> ->; tauto. Qed.

Section CreateVars.
Variables (s d : string) (bl : list dayblock).
Let idx := indices bl.

Lemma foldl_const {S A} (l : list A) (st : S) : foldl (fun st _ => st) st l = st.
Proof. induction l; simpl; auto. Qed.

Lemma x_vars_of_day vs :
  x_vars (vars_of_day s d bl vs) =
  foldl (fun m (b : dayblock) =>
           <[(s, d, b.1.1) := (fun k : key3 => VX k.1.1 k.1.2 k.2) (s, d, b.1.1)]> m)
        (x_vars vs) bl.
Proof.
  unfold vars_of_day. fold idx. rewrite (foldl_proj x_vars _ (fun m _ => m)).
  2:{ intros st b. unfold create_starts. by repeat case_decide. }
  rewrite foldl_const.
  by rewrite (foldl_proj x_vars _
    (fun m (b : dayblock) => <[(s, d, b.1.1) := VX s d b.1.1]> m)).
Qed.

Lemma y_vars_of_day vs : y_vars (vars_of_day s d bl vs) = <[(s, d) := VY s d]> (y_vars vs).
Proof.
  unfold vars_of_day. fold idx. rewrite (foldl_proj y_vars _ (fun m _ => m)).
  2:{ intros st b. unfold create_starts. by repeat case_decide. }
  rewrite foldl_const. rewrite (foldl_proj y_vars _ (fun m _ => m)) by done.
  by rewrite foldl_const.
Qed.

Lemma start2_vars_of_day vs :
  start2_vars (vars_of_day s d bl vs) =
  foldl (fun m (b : dayblock) =>
           if decide (b.1.1 + 1 ∈ idx)
           then <[(s, d, b.1.1) := (fun k : key3 => VStart2 k.1.1 k.1.2 k.2) (s, d, b.1.1)]> m
           else m)
        (start2_vars vs) bl.
Proof.
  unfold vars_of_day. fold idx.
  rewrite (foldl_proj start2_vars _ (fun m (b : dayblock) =>
    if decide (b.1.1 + 1 ∈ idx) then <[(s, d, b.1.1) := VStart2 s d b.1.1]> m else m)).
  2:{ intros st b. unfold create_starts. by repeat case_decide. }
  f_equal. rewrite (foldl_proj start2_vars _ (fun m _ => m)) by done.
  by rewrite foldl_const.
Qed.

Lemma start3_vars_of_day vs :
  start3_vars (vars_of_day s d bl vs) =
  foldl (fun m (b : dayblock) =>
           if decide (b.1.1 + 2 ∈ idx)
           then <[(s, d, b.1.1) := (fun k : key3 => VStart3 k.1.1 k.1.2 k.2) (s, d, b.1.1)]> m
           else m)
        (start3_vars vs) bl.
Proof.
  unfold vars_of_day. fold idx.
  rewrite (foldl_proj start3_vars _ (fun m (b : dayblock) =>
    if decide (b.1.1 + 2 ∈ idx) then <[(s, d, b.1.1) := VStart3 s d b.1.1]> m else m)).
  2:{ intros st b. unfold create_starts. by repeat case_decide. }
  f_equal. rewrite (foldl_proj start3_vars _ (fun m _ => m)) by done.
  by rewrite foldl_const.
Qed.

Lemma start4_vars_of_day vs :
  start4_vars (vars_of_day s d bl vs) =
  foldl (fun m (b : dayblock) =>
           if decide (b.1.1 + 3 ∈ idx)
           then <[(s, d, b.1.1) := (fun k : key3 => VStart4 k.1.1 k.1.2 k.2) (s, d, b.1.1)]> m
           else m)
        (start4_vars vs) bl.
Proof.
  unfold vars_of_day. fold idx.
  rewrite (foldl_proj start4_vars _ (fun m (b : dayblock) =>
    if decide (b.1.1 + 3 ∈ idx) then <[(s, d, b.1.1) := VStart4 s d b.1.1]> m else m)).
  2:{ intros st b. unfold create_starts. by repeat case_decide. }
  f_equal. rewrite (foldl_proj start4_vars _ (fun m _ => m)) by done.
  by rewrite foldl_const.
Qed.

Lemma Exists_start (k : Z) s' d' i' :
  Exists (fun b : dayblock => b.1.1 + k ∈ idx ∧ (s, d, b.1.1) = (s', d', i')) bl <->
  (s', d') = (s, d) ∧ i' ∈ idx ∧ i' + k ∈ idx.
Proof.
  rewrite Exists_exists. unfold idx at 2, indices.
  rewrite list_elem_of_fmap. split.
  - intros (b & Hb & Hk & [= <- <- <-]). eauto.
  - intros ([= -> ->] & (b & -> & Hb) & Hk). eauto.
Qed.

Lemma elem_of_day_keys s' d' i' :
  (s', d', i') ∈ (fun b : dayblock => (s, d, b.1.1)) <$> bl <->
  (s', d') = (s, d) ∧ i' ∈ idx.
Proof.
  unfold idx, indices. rewrite !list_elem_of_fmap. split.
  - intros (b & [= -> -> ->] & Hb). eauto.
  - intros ([= -> ->] & (b & -> & Hb)). eauto.
Qed.

Lemma vars_of_day_inv pairs vs :
  vars_inv idx pairs vs -> vars_inv idx (pairs ++ [(s, d)]) (vars_of_day s d bl vs).
Proof.
  intros (Hx & Hy & H2 & H3 & H4).
  assert (Epairs : ∀ s' d' (Q : Prop),
    ((s', d') = (s, d) ∧ Q) ∨ ((s', d') ∈ pairs ∧ Q) <-> (s', d') ∈ pairs ++ [(s, d)] ∧ Q).
  { intros. rewrite elem_of_app, list_elem_of_singleton. tauto. }
  split; [|split; [|split; [|split]]].
  - intros s' d' i' v. rewrite x_vars_of_day, <- Epairs.
    eapply merge_lookup; [apply _| |apply Hx].
    rewrite (lookup_foldl_insert_all (fun b : dayblock => (s, d, b.1.1))
               (fun k : key3 => VX k.1.1 k.1.2 k.2)).
    by rewrite elem_of_day_keys.
  - intros s' d' v. rewrite y_vars_of_day.
    rewrite elem_of_app, list_elem_of_singleton.
    destruct (decide ((s, d) = (s', d'))) as [[= <- <-]|Hne].
    + rewrite lookup_insert_eq. naive_solver.
    + rewrite lookup_insert_ne, Hy by done. naive_solver.
  - intros s' d' i' v. rewrite start2_vars_of_day, <- Epairs.
    eapply merge_lookup; [apply _| |apply H2].
    rewrite (lookup_foldl_insert (fun b : dayblock => b.1.1 + 1 ∈ idx)
               (fun b : dayblock => (s, d, b.1.1))
               (fun k : key3 => VStart2 k.1.1 k.1.2 k.2)).
    by rewrite Exists_start.
  - intros s' d' i' v. rewrite start3_vars_of_day, <- Epairs.
    eapply merge_lookup; [apply _| |apply H3].
    rewrite (lookup_foldl_insert (fun b : dayblock => b.1.1 + 2 ∈ idx)
               (fun b : dayblock => (s, d, b.1.1))
               (fun k : key3 => VStart3 k.1.1 k.1.2 k.2)).
    by rewrite Exists_start.
  - intros s' d' i' v. rewrite start4_vars_of_day, <- Epairs.
    eapply merge_lookup; [apply _| |apply H4].
    rewrite (lookup_foldl_insert (fun b : dayblock => b.1.1 + 3 ∈ idx)
               (fun b : dayblock => (s, d, b.1.1))
               (fun k : key3 => VStart4 k.1.1 k.1.2 k.2)).
    by rewrite Exists_start.
Qed.
End CreateVars.

Lemma create_vars_inv stus ds (day_blocks : gmap string (list dayblock)) bl :
  (∀ d, d ∈ ds -> day_blocks !! d = Some bl) ->
  ∃ vs, create_vars stus ds day_blocks = Ret vs ∧
        vars_inv (indices bl) (stus ≫= fun s => (fun d => (s, d)) <$> ds) vs.
Proof.
  intros Hdb. unfold create_vars.
  apply (for_each_Ret _ stus
    (fun done vs => vars_inv (indices bl) (done ≫= fun s => (fun d => (s, d)) <$> ds) vs)).
  { unfold vars_inv, no_vars; simpl.
    split; [|split; [|split; [|split]]]; intros; rewrite lookup_empty;
      (split; [done|]); rewrite elem_of_nil; tauto. }
  intros done s vs Hinv _.
  destruct (for_each_Ret
    (fun d vs =>
       let vs := set_y <[(s, d) := VY s d]> vs in
       bl ← getitem day_blocks d;
       let vs := foldl (fun vs (b : dayblock) =>
                          set_x <[(s, d, b.1.1) := VX s d b.1.1]> vs) vs bl in
       let block_indices := (fun b : dayblock => b.1.1) <$> bl in
       Ret (foldl (fun vs (b : dayblock) => create_starts s d block_indices b.1.1 vs) vs bl))
    ds
    (fun done_d vs => vars_inv (indices bl)
       ((done ≫= fun s => (fun d => (s, d)) <$> ds) ++ ((fun d => (s, d)) <$> done_d)) vs)
    vs) as (vs' & Hvs' & Hinv').
  { by rewrite app_nil_r. }
  { intros done_d d vs0 Hinv0 Hd. rewrite (getitem_Some _ _ _ (Hdb d Hd)). simpl.
    eexists. split; [done|]. rewrite fmap_app, app_assoc.
    apply (vars_of_day_inv s d bl), Hinv0. }
  exists vs'. split; [done|]. rewrite bind_app. simpl. by rewrite app_nil_r.
Qed.

(** ** [day_blocks], [u] and [stmap] *)

Lemma group_blocks_loop (blks : list block) (db0 : gmap string (list dayblock)) :
  (∀ b, b ∈ blks -> is_Some (db0 !! blk_day b)) ->
  ∃ db,
    for_each blks
      (fun b day_blocks =>
         let '(d, i, st, et) := b in
         l ← getitem day_blocks d;
         Ret (<[d := l ++ [(i, st, et)]]> day_blocks)) db0 = Ret db ∧
    ∀ d, db !! d =
         (fun l => l ++ (strip <$> filter (fun b => blk_day b = d) blks)) <$> db0 !! d.
Proof.
  revert db0. induction blks as [|[[[d i] st] et] blks IH]; intros db0 Hdom.
  - exists db0. split; [done|]. intros d. simpl. destruct (db0 !! d); simpl; [|done].
    by rewrite app_nil_r.
  - destruct (Hdom (d, i, st, et)) as [l Hl]; [left|]. cbn [blk_day fst] in Hl.
    cbn [for_each]. rewrite (getitem_Some _ _ _ Hl). cbn [mbind res_bind].
    destruct (IH (<[d := l ++ [(i, st, et)]]> db0)) as (db & Hfe & Hdb).
    { intros b Hb. destruct (decide (d = blk_day b)) as [->|Hne].
      - rewrite lookup_insert_eq. eauto.
      - rewrite lookup_insert_ne by done. apply Hdom. by right. }
    exists db. split; [exact Hfe|]. intros d'. rewrite Hdb. rewrite filter_cons.
    cbn [blk_day fst]. destruct (decide (d = d')) as [<-|Hne].
    + rewrite lookup_insert_eq, Hl. simpl. by rewrite <- app_assoc.
    + by rewrite lookup_insert_ne.
Qed.

Lemma filter_day_same (bl : list dayblock) d :
  filter (fun b => blk_day b = d) (block_of d <$> bl) = block_of d <$> bl.
Proof.
  induction bl as [|b bl' IH]; [done|]. rewrite fmap_cons, filter_cons.
  rewrite decide_True by done. by rewrite IH.
Qed.

Lemma filter_day_other (bl : list dayblock) d d' :
  d' ≠ d -> filter (fun b => blk_day b = d) (block_of d' <$> bl) = [].
Proof.
  intros Hne. induction bl as [|b bl' IH]; [done|]. rewrite fmap_cons, filter_cons.
  by rewrite decide_False.
Qed.

Lemma filter_day_blocks (ds : list string) (bl : list dayblock) d :
  NoDup ds ->
  filter (fun b => blk_day b = d) (ds ≫= fun d' => block_of d' <$> bl) =
  if decide (d ∈ ds) then block_of d <$> bl else [].
Proof.
  induction 1 as [|d' ds Hnotin Hnd IH]; [done|].
  cbn [mbind list_bind]. rewrite filter_app, IH.
  destruct (decide (d' = d)) as [->|Hne].
  - rewrite filter_day_same, decide_False, decide_True, app_nil_r; [done|left|done].
  - rewrite filter_day_other by done. simpl. repeat case_decide; try done.
    + exfalso. apply H0. by right.
    + by apply elem_of_cons in H0 as [->|].
Qed.

Lemma strip_block_of d (bl : list dayblock) : strip <$> (block_of d <$> bl) = bl.
Proof.
  rewrite <- list_fmap_compose. rewrite <- (list_fmap_id bl) at 2.
  apply list_fmap_ext. by intros _ [[i st] et] _.
Qed.

Lemma group_blocks_closed (ds : list string) (bl : list dayblock) :
  NoDup ds ->
  ∃ db, group_blocks ds (ds ≫= fun d => block_of d <$> bl) = Ret db ∧
        ∀ d, db !! d = if decide (d ∈ ds) then Some bl else None.
Proof.
  intros Hnd. unfold group_blocks.
  set (db0 := foldl (fun m d => <[d := []]> m) ∅ ds : gmap string (list dayblock)).
  assert (Hdb0 : ∀ d, db0 !! d = if decide (d ∈ ds) then Some [] else None).
  { intros d. unfold db0.
    pose proof (lookup_foldl_insert_all (fun d : string => d)
                  (fun _ => @nil dayblock) ds ∅ d) as Hl.
    rewrite list_fmap_id in Hl. setoid_rewrite lookup_empty in Hl.
    case_decide as Hd.
    - apply Hl. by left.
    - apply eq_None_not_Some. intros [v Hv]. apply Hl in Hv as [[? _]|[_ ?]]; done. }
  destruct (group_blocks_loop (ds ≫= fun d => block_of d <$> bl) db0) as (db & Hdb & Hl).
  { intros b (d & Hb & Hd)%list_elem_of_bind.
    apply list_elem_of_fmap in Hb as (b' & -> & _). cbn.
    rewrite Hdb0, decide_True by done. eauto. }
  exists db. split; [done|]. intros d. rewrite Hl, Hdb0, filter_day_blocks by done.
  case_decide; [|done]. simpl. by rewrite strip_block_of.
Qed.

Lemma lookup_create_u (blks : list block) d i v :
  create_u blks !! (d, i) = Some v <->
  (∃ b, b ∈ blks ∧ blk_day b = d ∧ blk_idx b = i) ∧ v = VU d i.
Proof.
  unfold create_u.
  rewrite (lookup_foldl_insert_all (fun b : block => (blk_day b, blk_idx b))
             (fun k : string * Z => VU k.1 k.2)).
  rewrite lookup_empty, list_elem_of_fmap. simpl. split.
  - intros [[(b & [= -> ->] & Hb) ->]|[_ ?]]; [|done]. eauto.
  - intros [(b & Hb & <- & <-) ->]. left. eauto.
Qed.

Lemma dict_set_fresh {V} k (v : V) (m : list (string * V)) :
  k ∉ m.*1 -> dict_set k v m = m ++ [(k, v)].
Proof.
  induction m as [|[k' v'] m IH]; simpl; [done|].
  intros [Hne Hnotin]%not_elem_of_cons. rewrite decide_False by done. by rewrite IH.
Qed.

Lemma dict_get_elem {V} k (v : V) (m : list (string * V)) :
  NoDup m.*1 -> (k, v) ∈ m -> dict_get m k = Ret v.
Proof.
  induction m as [|[k' v'] m IH]; simpl; [by intros _ ?%elem_of_nil|].
  intros [Hnotin Hnd]%NoDup_cons [[= <- <-]|Hin]%elem_of_cons.
  - by rewrite decide_True.
  - rewrite decide_False; [by apply IH|].
    intros ->. apply Hnotin. apply list_elem_of_fmap. by exists (k, v).
Qed.

Lemma build_stmap_closed df :
  build_stmap df = (fun s => (s, classes_of df s)) <$> students df.
Proof.
  unfold build_stmap, groupby_student, students.
  assert (Hgen : ∀ (l : list string) (acc : list (string * list class_)),
    NoDup (acc.*1 ++ l) ->
    foldl (fun stmap (sg : string * list row) =>
             dict_set sg.1
               ((fun r => (day_of_week r, class_start r, class_end r)) <$> sg.2) stmap)
          acc ((fun s => (s, filter (fun r => student_name r = s) df)) <$> l) =
    acc ++ ((fun s => (s, classes_of df s)) <$> l)).
  { induction l as [|s l IH]; intros acc Hnd; simpl; [by rewrite app_nil_r|].
    apply NoDup_app in Hnd as (Hacc & Hdisj & [Hs Hl]%NoDup_cons).
    rewrite dict_set_fresh.
    2:{ intros Hin. apply (Hdisj s Hin). left. }
    rewrite IH.
    - by rewrite <- app_assoc.
    - rewrite fmap_app. simpl. rewrite <- app_assoc. simpl.
      apply NoDup_app. split; [done|]. split; [|by constructor].
      intros k Hk. apply Hdisj in Hk. done. }
  rewrite (Hgen _ []); [done|]. simpl.
  apply NoDup_sorted, NoDup_unique.
Qed.

Lemma stus_closed df : (build_stmap df).*1 = students df.
Proof.
  rewrite build_stmap_closed, <- list_fmap_compose.
  rewrite <- (list_fmap_id (students df)) at 2. by apply list_fmap_ext.
Qed.

Lemma dict_get_stmap df s :
  s ∈ students df -> dict_get (build_stmap df) s = Ret (classes_of df s).
Proof.
  intros Hs. apply dict_get_elem.
  - rewrite stus_closed. apply NoDup_sorted, NoDup_unique.
  - rewrite build_stmap_closed. apply list_elem_of_fmap. eauto.
Qed.

(** ** The constraints of [build_model] *)

Lemma elem_of_pairs (stus ds : list string) s d :
  (s, d) ∈ (stus ≫= fun s => (fun d => (s, d)) <$> ds) <-> s ∈ stus ∧ d ∈ ds.
Proof.
  rewrite list_elem_of_bind. setoid_rewrite list_elem_of_fmap. split.
  - intros (s' & (d' & [= -> ->] & Hd) & Hs). done.
  - intros [Hs Hd]. eauto.
Qed.

(** ** Adding constraints *)

Lemma res_bind_ext {A B} (m : res A) (f g : A -> res B) :
  (∀ a, f a = g a) -> m ≫= f = m ≫= g.
Proof. intros Hfg. destruct m; [apply Hfg|done]. Qed.

Lemma res_bind_Ret_r {A} (m : res A) : m ≫= Ret = m.
Proof. by destruct m. Qed.

Lemma res_bind_assoc {A B C} (m : res A) (f : A -> res B) (g : B -> res C) :
  (m ≫= f) ≫= g = m ≫= (fun a => f a ≫= g).
Proof. by destruct m. Qed.

Lemma add_all_app l1 l2 prob : add_all (l1 ++ l2) prob = add_all l1 prob ≫= add_all l2.
Proof.
  revert prob. induction l1 as [|c l1 IH]; intros prob; [done|].
  cbn [add_all app]. rewrite res_bind_assoc. apply res_bind_ext. intros prob'. apply IH.
Qed.

Lemma add_all_one c prob : add_all [c] prob = store c prob.
Proof. cbn [add_all]. apply res_bind_Ret_r. Qed.

Lemma add_all_two c1 c2 prob : add_all [c1; c2] prob = store c1 prob ≫= store c2.
Proof.
  cbn [add_all]. apply res_bind_ext. intros prob'. apply res_bind_Ret_r.
Qed.

Lemma for_each_add_all {A} (body : A -> LpProblem -> res LpProblem)
    (g : A -> list LpConstraint) l prob :
  (∀ a prob', a ∈ l -> body a prob' = add_all (g a) prob') ->
  for_each l body prob = add_all (l ≫= g) prob.
Proof.
  revert prob. induction l as [|a l IH]; intros prob Hb; [done|].
  cbn [for_each]. rewrite bind_cons, add_all_app, Hb by left.
  apply res_bind_ext. intros prob'. apply IH. intros b prob'' Hin. apply Hb. by right.
Qed.

Lemma constraint_names_app l1 l2 :
  constraint_names (l1 ++ l2) = constraint_names l1 ++ constraint_names l2.
Proof. apply omap_app. Qed.

Lemma constraint_names_cons c cs :
  constraint_names (c :: cs) =
  match c_name c with
  | Some n => n :: constraint_names cs
  | None => constraint_names cs
  end.
Proof. reflexivity. Qed.

(** Adding constraints fails exactly when two of the names coincide. *)
Lemma add_all_spec cs prob :
  NoDup (constraint_names (constraints prob)) ->
  add_all cs prob =
  if decide (NoDup (constraint_names (constraints prob ++ cs)))
  then Ret (mkProblem (prob_name prob) (prob_sense prob) (objective prob)
              (constraints prob ++ cs))
  else Raise PulpError.
Proof.
  revert prob. induction cs as [|c cs IH]; intros prob Hnd.
  - cbn [add_all]. rewrite app_nil_r, decide_True by done. by destruct prob.
  - cbn [add_all]. unfold store.
    assert (Happ : constraints prob ++ c :: cs = (constraints prob ++ [c]) ++ cs)
      by by rewrite <- app_assoc.
    assert (Hone : constraint_names (constraints prob ++ [c]) =
                   constraint_names (constraints prob) ++
                   match c_name c with Some n => [n] | None => [] end).
    { rewrite constraint_names_app, constraint_names_cons. by destruct (c_name c). }
    destruct (c_name c) as [n|] eqn:En.
    + case_decide as Hin.
      * rewrite decide_False; [done|]. rewrite constraint_names_app.
        intros [_ [Hno _]]%NoDup_app. apply (Hno n Hin).
        rewrite constraint_names_cons, En. left.
      * cbn [mbind res_bind]. rewrite IH.
        -- cbn [snoc_constraint constraints prob_name prob_sense objective].
           by rewrite <- Happ.
        -- cbn [snoc_constraint constraints]. rewrite Hone.
           apply NoDup_app. split; [done|]. split; [|apply NoDup_singleton].
           by intros n' Hn' ->%list_elem_of_singleton.
    + cbn [mbind res_bind]. rewrite IH.
      * cbn [snoc_constraint constraints prob_name prob_sense objective].
        by rewrite <- Happ.
      * cbn [snoc_constraint constraints]. by rewrite Hone, app_nil_r.
Qed.

Section Closed.
Variables (p : params) (stus ds : list string) (bl : list dayblock).
Variables (vs : vars) (u : gmap (string * Z) LpVariable).
Variables (day_blocks : gmap string (list dayblock)).
Variables (stmap : list (string * list class_)) (classes : string -> list class_).
Let idx := indices bl.
Let blks := ds ≫= fun d => block_of d <$> bl.

Hypothesis Hvs : vars_inv idx (stus ≫= fun s => (fun d => (s, d)) <$> ds) vs.
Hypothesis Hu : u = create_u blks.
Hypothesis Hdb : ∀ d, day_blocks !! d = if decide (d ∈ ds) then Some bl else None.
Hypothesis Hstmap : ∀ s, s ∈ stus -> dict_get stmap s = Ret (classes s).
Hypothesis Hcontig : ∀ i k j, i ∈ idx -> i + k ∈ idx -> 0 <= j <= k -> i + j ∈ idx.

Lemma elem_of_blks b : b ∈ blks <-> blk_day b ∈ ds ∧ strip b ∈ bl.
Proof.
  unfold blks. rewrite list_elem_of_bind. setoid_rewrite list_elem_of_fmap. split.
  - intros (d & (b' & -> & Hb') & Hd). by destruct b' as [[i st] et].
  - intros [Hd Hb]. exists (blk_day b). split; [|done].
    exists (strip b). split; [|done]. by destruct b as [[[d i] st] et].
Qed.

Lemma blks_idx b : b ∈ blks -> blk_idx b ∈ idx.
Proof.
  intros [_ Hb]%elem_of_blks. unfold idx, indices. apply list_elem_of_fmap.
  by exists (strip b).
Qed.

Lemma getitem_x s d i :
  s ∈ stus -> d ∈ ds -> i ∈ idx -> getitem (x_vars vs) (s, d, i) = Ret (VX s d i).
Proof.
  intros Hs Hd Hi. apply getitem_Some. destruct Hvs as (Hx & _).
  apply Hx. by rewrite elem_of_pairs.
Qed.

Lemma getitem_y s d : s ∈ stus -> d ∈ ds -> getitem (y_vars vs) (s, d) = Ret (VY s d).
Proof.
  intros Hs Hd. apply getitem_Some. destruct Hvs as (_ & Hy & _).
  apply Hy. by rewrite elem_of_pairs.
Qed.

Lemma getitem_u b : b ∈ blks -> getitem u (blk_day b, blk_idx b) = Ret (VU (blk_day b) (blk_idx b)).
Proof. intros Hb. apply getitem_Some. rewrite Hu, lookup_create_u. eauto. Qed.

Lemma is_Some_start2 s d i :
  s ∈ stus -> d ∈ ds -> i ∈ idx -> is_Some (start2_vars vs !! (s, d, i)) <-> i + 1 ∈ idx.
Proof.
  intros Hs Hd Hi. destruct Hvs as (_ & _ & H2 & _). split.
  - intros [v Hv]. apply H2 in Hv. tauto.
  - intros Hk. exists (VStart2 s d i). apply H2. by rewrite elem_of_pairs.
Qed.
Lemma is_Some_start3 s d i :
  s ∈ stus -> d ∈ ds -> i ∈ idx -> is_Some (start3_vars vs !! (s, d, i)) <-> i + 2 ∈ idx.
Proof.
  intros Hs Hd Hi. destruct Hvs as (_ & _ & _ & H3 & _). split.
  - intros [v Hv]. apply H3 in Hv. tauto.
  - intros Hk. exists (VStart3 s d i). apply H3. by rewrite elem_of_pairs.
Qed.
Lemma is_Some_start4 s d i :
  s ∈ stus -> d ∈ ds -> i ∈ idx -> is_Some (start4_vars vs !! (s, d, i)) <-> i + 3 ∈ idx.
Proof.
  intros Hs Hd Hi. destruct Hvs as (_ & _ & _ & _ & H4). split.
  - intros [v Hv]. apply H4 in Hv. tauto.
  - intros Hk. exists (VStart4 s d i). apply H4. by rewrite elem_of_pairs.
Qed.

Lemma getitem_start2 s d i :
  s ∈ stus -> d ∈ ds -> i ∈ idx -> i + 1 ∈ idx ->
  getitem (start2_vars vs) (s, d, i) = Ret (VStart2 s d i).
Proof.
  intros Hs Hd Hi Hk. apply getitem_Some. destruct Hvs as (_ & _ & H2 & _).
  apply H2. by rewrite elem_of_pairs.
Qed.
Lemma getitem_start3 s d i :
  s ∈ stus -> d ∈ ds -> i ∈ idx -> i + 2 ∈ idx ->
  getitem (start3_vars vs) (s, d, i) = Ret (VStart3 s d i).
Proof.
  intros Hs Hd Hi Hk. apply getitem_Some. destruct Hvs as (_ & _ & _ & H3 & _).
  apply H3. by rewrite elem_of_pairs.
Qed.
Lemma getitem_start4 s d i :
  s ∈ stus -> d ∈ ds -> i ∈ idx -> i + 3 ∈ idx ->
  getitem (start4_vars vs) (s, d, i) = Ret (VStart4 s d i).
Proof.
  intros Hs Hd Hi Hk. apply getitem_Some. destruct Hvs as (_ & _ & _ & _ & H4).
  apply H4. by rewrite elem_of_pairs.
Qed.

Lemma x_of_students_closed d i :
  d ∈ ds -> i ∈ idx -> x_of_students (x_vars vs) stus d i = Ret (xs_of_students stus d i).
Proof. intros Hd Hi. apply mapM_res_Ret. intros s Hs. by apply getitem_x. Qed.

Lemma x_of_blocks_closed s :
  s ∈ stus -> x_of_blocks (x_vars vs) s blks = Ret (xs_of_blocks s blks).
Proof.
  intros Hs. apply mapM_res_Ret. intros b Hb. apply getitem_x; [done| |by apply blks_idx].
  by apply elem_of_blks in Hb as [? _].
Qed.

Lemma x_all_closed : x_all (x_vars vs) stus blks = Ret (xs_all stus blks).
Proof. apply for_collect_res_Ret. intros s Hs. by apply x_of_blocks_closed. Qed.

Lemma build_objective_closed :
  build_objective p vs u stus ds blks = Ret (objective_of p stus ds blks).
Proof.
  unfold build_objective.
  rewrite (mapM_res_Ret _ (fun b : block => VU (blk_day b) (blk_idx b)))
    by (intros b Hb; by apply getitem_u).
  cbn [mbind res_bind]. rewrite x_all_closed. cbn [mbind res_bind].
  rewrite (for_collect_res_Ret _ (fun s => (fun d => VY s d) <$> ds)); [done|].
  intros s Hs. apply mapM_res_Ret. intros d Hd. by apply getitem_y.
Qed.

Lemma soft_coverage_closed prob :
  soft_coverage vs u stus blks prob =
  add_all (blks ≫= fun b => [cover_constraint stus (blk_day b) (blk_idx b)]) prob.
Proof.
  apply for_each_add_all. intros b prob' Hb.
  pose proof (getitem_u b Hb) as Hgu. pose proof (blks_idx b Hb) as Hi.
  apply elem_of_blks in Hb as [Hd _].
  destruct b as [[[d i] st] et]. cbn [blk_day blk_idx fst snd] in *.
  rewrite x_of_students_closed by done. cbn [mbind res_bind]. rewrite Hgu.
  cbn [mbind res_bind]. symmetry. exact (add_all_one (cover_constraint stus d i) prob').
Qed.

Lemma overlap_cap_closed prob :
  overlap_cap p vs stus blks prob =
  add_all (blks ≫= fun b => [ovl_constraint p stus (blk_day b) (blk_idx b)]) prob.
Proof.
  apply for_each_add_all. intros b prob' Hb.
  pose proof (blks_idx b Hb) as Hi.
  apply elem_of_blks in Hb as [Hd _].
  destruct b as [[[d i] st] et]. cbn [blk_day blk_idx fst snd] in *.
  rewrite x_of_students_closed by done. cbn [mbind res_bind].
  symmetry. exact (add_all_one (ovl_constraint p stus d i) prob').
Qed.

Lemma weekly_bounds_closed prob :
  weekly_bounds p vs stus blks prob = add_all (stus ≫= weekly_constraints p blks) prob.
Proof.
  apply for_each_add_all. intros s prob' Hs. rewrite x_of_blocks_closed by done.
  cbn [mbind res_bind]. symmetry. unfold weekly_constraints. apply add_all_two.
Qed.

Lemma average_bounds_closed prob :
  average_bounds p vs stus blks prob = add_all (average_constraints p stus blks) prob.
Proof.
  unfold average_bounds. rewrite x_all_closed. cbn [mbind res_bind].
  symmetry. unfold average_constraints. apply add_all_two.
Qed.

Lemma busy_check_closed prob :
  busy_check vs stmap day_blocks stus ds prob =
  add_all (stus ≫= fun s => ds ≫= fun d => busy_constraints (classes s) bl s d) prob.
Proof.
  apply for_each_add_all. intros s prob1 Hs.
  apply for_each_add_all. intros d prob2 Hd.
  rewrite (getitem_Some day_blocks d bl) by (by rewrite Hdb, decide_True).
  cbn [mbind res_bind]. apply for_each_add_all. intros b prob3 Hb.
  destruct b as [[i st] et]. rewrite Hstmap by done. cbn [mbind res_bind fst snd].
  destruct (freeblk (classes s) d st et); [done|]. cbn [negb].
  rewrite getitem_x; [|done..|].
  - cbn [mbind res_bind]. symmetry. exact (add_all_one (busy_constraint s d i) prob3).
  - unfold idx, indices. apply list_elem_of_fmap. by exists (i, st, et).
Qed.
Lemma filter_ext_elem {A} (P Q : A -> Prop) `{!∀ a, Decision (P a)} `{!∀ a, Decision (Q a)}
    (l : list A) :
  (∀ a, a ∈ l -> P a <-> Q a) -> filter P l = filter Q l.
Proof.
  induction l as [|a l IH]; intros HPQ; [done|]. rewrite !filter_cons.
  rewrite IH by (intros b Hb; apply HPQ; by right).
  destruct (decide (P a)) as [HP|HP], (decide (Q a)) as [HQ|HQ]; try done.
  - exfalso. apply HQ. apply HPQ; [left|done].
  - exfalso. apply HP. apply HPQ; [left|done].
Qed.

Lemma starts_in2_closed s d :
  s ∈ stus -> d ∈ ds -> starts_in (start2_vars vs) s d idx = Ret (s2_list s d idx).
Proof.
  intros Hs Hd. unfold starts_in, s2_list, start_indices.
  rewrite (filter_ext_elem _ (fun i => i + 1 ∈ idx))
    by (intros i Hi; by apply is_Some_start2).
  apply mapM_res_Ret. intros i [Hk Hi]%list_elem_of_filter. by apply getitem_start2.
Qed.
Lemma starts_in3_closed s d :
  s ∈ stus -> d ∈ ds -> starts_in (start3_vars vs) s d idx = Ret (s3_list s d idx).
Proof.
  intros Hs Hd. unfold starts_in, s3_list, start_indices.
  rewrite (filter_ext_elem _ (fun i => i + 2 ∈ idx))
    by (intros i Hi; by apply is_Some_start3).
  apply mapM_res_Ret. intros i [Hk Hi]%list_elem_of_filter. by apply getitem_start3.
Qed.
Lemma starts_in4_closed s d :
  s ∈ stus -> d ∈ ds -> starts_in (start4_vars vs) s d idx = Ret (s4_list s d idx).
Proof.
  intros Hs Hd. unfold starts_in, s4_list, start_indices.
  rewrite (filter_ext_elem _ (fun i => i + 3 ∈ idx))
    by (intros i Hi; by apply is_Some_start4).
  apply mapM_res_Ret. intros i [Hk Hi]%list_elem_of_filter. by apply getitem_start4.
Qed.

Lemma shift_links_closed s d i prob :
  s ∈ stus -> d ∈ ds -> i ∈ idx ->
  shift_links vs s d i prob = add_all (link_constraints s d idx i) prob.
Proof using Hvs Hcontig.
  intros Hs Hd Hi. unfold shift_links, link_constraints, add_link.
  pose proof (is_Some_start2 s d i Hs Hd Hi) as E2.
  pose proof (is_Some_start3 s d i Hs Hd Hi) as E3.
  pose proof (is_Some_start4 s d i Hs Hd Hi) as E4.
  assert (Hx : ∀ k j, i + k ∈ idx -> 0 <= j <= k ->
               getitem (x_vars vs) (s, d, i + j) = Ret (VX s d (i + j))).
  { intros k j Hk Hj. apply getitem_x; [done..|]. by apply (Hcontig i k j). }
  assert (Hx0 : getitem (x_vars vs) (s, d, i) = Ret (VX s d i)) by by apply getitem_x.
  destruct (decide (i + 1 ∈ idx)) as [H1|H1],
           (decide (is_Some (start2_vars vs !! (s, d, i)))) as [H1'|H1'];
    try (exfalso; tauto);
    destruct (decide (i + 2 ∈ idx)) as [H2|H2],
             (decide (is_Some (start3_vars vs !! (s, d, i)))) as [H2'|H2'];
    try (exfalso; tauto);
    destruct (decide (i + 3 ∈ idx)) as [H3|H3],
             (decide (is_Some (start4_vars vs !! (s, d, i)))) as [H3'|H3'];
    try (exfalso; tauto);
    rewrite ?Hx0, ?getitem_start2, ?getitem_start3, ?getitem_start4,
      ?(Hx 1 1), ?(Hx 2 1), ?(Hx 2 2), ?(Hx 3 1), ?(Hx 3 2), ?(Hx 3 3) by (done || lia);
    reflexivity.
Qed.

Lemma shift_shape_closed prob :
  shift_shape vs day_blocks stus ds prob =
  add_all (stus ≫= fun s => ds ≫= fun d => shape_constraints s d idx) prob.
Proof using Hvs Hdb Hcontig.
  apply for_each_add_all. intros s prob1 Hs.
  apply for_each_add_all. intros d prob2 Hd.
  rewrite (getitem_Some day_blocks d bl) by (by rewrite Hdb, decide_True).
  cbn [mbind res_bind]. fold (indices bl). fold idx.
  rewrite starts_in2_closed, starts_in3_closed, starts_in4_closed by done.
  cbn [mbind res_bind].
  rewrite (mapM_res_Ret _ (VX s d)) by (intros i Hi; by apply getitem_x).
  cbn [mbind res_bind]. rewrite getitem_y by done. cbn [mbind res_bind].
  unfold shape_constraints. cbn [add_all].
  apply (res_bind_ext _ _ (fun prob' => prob'' ← store (sumx_constraint s d idx) prob';
                                        add_all (idx ≫= link_constraints s d idx) prob'')).
  intros prob3. apply res_bind_ext. intros prob4.
  apply for_each_add_all. intros i prob5 Hi. by apply shift_links_closed.
Qed.
End Closed.

(** ** The model [build_model] returns *)

Lemma genblocks_default ds :
  genblocks ds default_start default_end = Ret (all_blocks ds).
Proof.
  unfold genblocks.
  change (strptime_HM default_start) with (Ret (mktime 7 30 0) : res time).
  change (strptime_HM default_end) with (Ret (mktime 17 30 0) : res time).
  cbn [mbind res_bind].
  rewrite genblocks_days_closed by (unfold mktime; lia).
  reflexivity.
Qed.

Lemma elem_of_indices_template i : i ∈ indices day_template <-> 0 <= i < 10.
Proof.
  unfold indices, day_template. rewrite <- list_fmap_compose, list_elem_of_fmap.
  setoid_rewrite elem_of_seq. simpl. split.
  - intros (k & -> & Hk). lia.
  - intros Hi. exists (Z.to_nat i). lia.
Qed.

Lemma indices_template_seqZ : indices day_template = seqZ 0 10.
Proof. reflexivity. Qed.

Lemma add_all_chain {B} l1 l2 (k : LpProblem -> res B) prob :
  add_all l1 prob ≫= (fun prob' => add_all l2 prob' ≫= k) = add_all (l1 ++ l2) prob ≫= k.
Proof. by rewrite add_all_app, res_bind_assoc. Qed.

(** [build_model] looks up no absent key: it returns the problem
    [problem_of p df], unless two constraints get the same name. *)
Lemma build_model_closed df p :
  ∃ vs,
    build_model df p =
      (if decide (NoDup (constraint_names (constraints_of p df)))
       then Ret (mkModel (problem_of p df) (x_vars vs) (y_vars vs)
                   (create_u (all_blocks (active_days df)))
                   (all_blocks (active_days df)) (students df))
       else Raise PulpError) ∧
    vars_inv (indices day_template)
      (students df ≫= fun s => (fun d => (s, d)) <$> active_days df) vs.
Proof.
  unfold build_model. rewrite genblocks_default. cbn [mbind res_bind].
  destruct (group_blocks_closed (active_days df) day_template (NoDup_active_days df))
    as (db & Hgb & Hdb).
  fold (all_blocks (active_days df)) in Hgb. rewrite Hgb. cbn [mbind res_bind].
  rewrite stus_closed.
  destruct (create_vars_inv (students df) (active_days df) db day_template)
    as (vs & Hcv & Hvs).
  { intros d Hd. by rewrite Hdb, decide_True. }
  rewrite Hcv. cbn [mbind res_bind].
  assert (Hcontig : ∀ i k j, i ∈ indices day_template -> i + k ∈ indices day_template ->
                             0 <= j <= k -> i + j ∈ indices day_template).
  { intros i k j. rewrite !elem_of_indices_template. lia. }
  exists vs. split; [|done]. unfold all_blocks.
  rewrite (build_objective_closed p _ _ _ vs _ Hvs eq_refl). cbn [mbind res_bind].
  rewrite (soft_coverage_closed _ _ _ vs _ Hvs eq_refl).
  etransitivity.
  { apply res_bind_ext. intros prob1. rewrite (overlap_cap_closed p _ _ _ vs Hvs).
    apply res_bind_ext. intros prob2. rewrite (weekly_bounds_closed p _ _ _ vs Hvs).
    apply res_bind_ext. intros prob3. rewrite (average_bounds_closed p _ _ _ vs Hvs).
    apply res_bind_ext. intros prob4.
    rewrite (busy_check_closed _ _ _ vs db _ (classes_of df) Hvs Hdb)
      by (intros s Hs; by apply dict_get_stmap).
    apply res_bind_ext. intros prob5.
    rewrite (shift_shape_closed _ _ _ vs db Hvs Hdb Hcontig). reflexivity. }
  cbn beta. rewrite !add_all_chain, <- !app_assoc.
  fold (all_blocks (active_days df)). fold (constraints_of p df).
  rewrite add_all_spec by constructor. cbn [constraints app prob_name prob_sense objective].
  case_decide; done.
Qed.

(** What a returned model is. *)
Lemma build_model_Ret df p m :
  build_model df p = Ret m ->
  ∃ vs,
    m = mkModel (problem_of p df) (x_vars vs) (y_vars vs)
          (create_u (all_blocks (active_days df)))
          (all_blocks (active_days df)) (students df) ∧
    vars_inv (indices day_template)
      (students df ≫= fun s => (fun d => (s, d)) <$> active_days df) vs ∧
    NoDup (constraint_names (constraints_of p df)).
Proof.
  destruct (build_model_closed df p) as (vs & -> & Hvs). case_decide; [|done].
  intros [= <-]. by exists vs.
Qed.

(** A roster whose constraint names are pairwise distinct has a model. *)
Lemma build_model_distinct df p :
  NoDup (constraint_names (constraints_of p df)) ->
  ∃ vs,
    build_model df p =
      Ret (mkModel (problem_of p df) (x_vars vs) (y_vars vs)
             (create_u (all_blocks (active_days df)))
             (all_blocks (active_days df)) (students df)) ∧
    vars_inv (indices day_template)
      (students df ≫= fun s => (fun d => (s, d)) <$> active_days df) vs.
Proof.
  intros Hnd. destruct (build_model_closed df p) as (vs & Hm & Hvs).
  rewrite decide_True in Hm by done. by exists vs.
Qed.

Lemma roster1_names p : NoDup (constraint_names (constraints_of p roster1)).
Proof. apply (bool_decide_unpack (NoDup _)). vm_compute. exact I. Qed.

(** ** Values of expressions and feasible assignments *)

Lemma sumZ_app l1 l2 : sumZ (l1 ++ l2) = sumZ l1 + sumZ l2.
Proof. induction l1 as [|a l1 IH]; simpl; lia. Qed.

Lemma value_lpSum val vs : value val (lpSum vs) = sumZ (val <$> vs).
Proof.
  unfold value, lpSum. simpl. rewrite Z.add_0_r, <- list_fmap_compose. f_equal.
  apply list_fmap_ext. intros _ v _. simpl. lia.
Qed.

Lemma value_of_var val v : value val (of_var v) = val v.
Proof. unfold value. simpl. lia. Qed.

Lemma value_of_const val k : value val (of_const k) = k.
Proof. reflexivity. Qed.

Lemma value_add val a b : value val (expr_add a b) = value val a + value val b.
Proof. unfold value, expr_add. simpl. rewrite fmap_app, sumZ_app. lia. Qed.

Lemma value_scale val k a : value val (expr_scale k a) = k * value val a.
Proof.
  unfold value, expr_scale. simpl. rewrite <- list_fmap_compose.
  rewrite Z.mul_add_distr_l. f_equal.
  induction (terms a) as [|t l IH]; [simpl; lia|].
  rewrite !fmap_cons. cbn [sumZ foldr]. fold (sumZ). unfold sumZ in *. simpl in *. lia.
Qed.

Lemma feasible_spec p val :
  feasible p val = true <->
  (∀ v, v ∈ variables p -> val v = 0 ∨ val v = 1) ∧
  (∀ c, c ∈ constraints p -> holds val c = true).
Proof.
  unfold feasible. rewrite andb_true_iff, !forallb_forall.
  setoid_rewrite <- list_elem_of_In. unfold binary.
  by setoid_rewrite bool_decide_eq_true.
Qed.

Lemma elem_of_concat {A} (x : A) (ls : list (list A)) :
  x ∈ concat ls <-> ∃ l, l ∈ ls ∧ x ∈ l.
Proof.
  rewrite list_elem_of_In, in_concat. setoid_rewrite list_elem_of_In. done.
Qed.

Lemma elem_of_variables p c v :
  c ∈ constraints p -> v ∈ constraint_vars c -> v ∈ variables p.
Proof.
  intros Hc Hv. unfold variables. apply elem_of_app. right.
  apply elem_of_concat. exists (constraint_vars c). split; [|done].
  apply list_elem_of_fmap. eauto.
Qed.

Lemma holds_GE val c :
  holds val c = true -> c_sense c = GE -> value val (c_lhs c) >= value val (c_rhs c).
Proof. unfold holds. intros H E. rewrite E in H. by apply bool_decide_eq_true in H. Qed.
Lemma holds_LE val c :
  holds val c = true -> c_sense c = LE -> value val (c_lhs c) <= value val (c_rhs c).
Proof. unfold holds. intros H E. rewrite E in H. by apply bool_decide_eq_true in H. Qed.
Lemma holds_EQ val c :
  holds val c = true -> c_sense c = EQ -> value val (c_lhs c) = value val (c_rhs c).
Proof. unfold holds. intros H E. rewrite E in H. by apply bool_decide_eq_true in H. Qed.

(** ** Where each family of constraints sits in the problem *)

Section Families.
Variables (p : params) (df : list row).
Let ds := active_days df.
Let stus := students df.
Let idx := indices day_template.

Lemma cover_in b :
  b ∈ all_blocks ds ->
  cover_constraint stus (blk_day b) (blk_idx b) ∈ constraints_of p df.
Proof.
  intros Hb. unfold constraints_of. apply elem_of_app. left.
  apply list_elem_of_bind. exists b. split; [left|done].
Qed.

Lemma ovl_in b :
  b ∈ all_blocks ds ->
  ovl_constraint p stus (blk_day b) (blk_idx b) ∈ constraints_of p df.
Proof.
  intros Hb. unfold constraints_of. rewrite !elem_of_app. right. left.
  apply list_elem_of_bind. exists b. split; [left|done].
Qed.

Lemma busy_in s d (b : dayblock) :
  s ∈ stus -> d ∈ ds -> b ∈ day_template ->
  freeblk (classes_of df s) d b.1.2 b.2 = false ->
  busy_constraint s d b.1.1 ∈ constraints_of p df.
Proof.
  intros Hs Hd Hb Hfree. unfold constraints_of. rewrite !elem_of_app.
  do 4 right. left.
  apply list_elem_of_bind. exists s. split; [|done].
  apply list_elem_of_bind. exists d. split; [|done].
  apply list_elem_of_bind. exists b. split; [|done].
  rewrite Hfree. left.
Qed.

Lemma shape_in s d c :
  s ∈ stus -> d ∈ ds -> c ∈ shape_constraints s d idx -> c ∈ constraints_of p df.
Proof.
  intros Hs Hd Hc. unfold constraints_of. rewrite !elem_of_app.
  do 5 right.
  apply list_elem_of_bind. exists s. split; [|done].
  apply list_elem_of_bind. exists d. split; [|done]. done.
Qed.

Lemma elem_of_all_blocks b :
  b ∈ all_blocks ds <-> blk_day b ∈ ds ∧ strip b ∈ day_template.
Proof. apply elem_of_blks. Qed.

Lemma block_in_all d (b : dayblock) :
  d ∈ ds -> b ∈ day_template -> block_of d b ∈ all_blocks ds.
Proof.
  intros Hd Hb. apply elem_of_all_blocks. by destruct b as [[i st] et].
Qed.
End Families.

(** ** Sums of 0/1 values *)

Lemma sumZ_cons a l : sumZ (a :: l) = a + sumZ l.
Proof. reflexivity. Qed.

Lemma sumZ_nonneg {A} (f : A -> Z) l :
  (∀ a, a ∈ l -> 0 <= f a) -> 0 <= sumZ (f <$> l).
Proof.
  induction l as [|a l IH]; intros Hf; [done|]. rewrite fmap_cons, sumZ_cons.
  pose proof (Hf a ltac:(left)). pose proof (IH (fun b Hb => Hf b ltac:(by right))). lia.
Qed.

Lemma sumZ_zero {A} (f : A -> Z) l :
  (∀ a, a ∈ l -> 0 <= f a) -> sumZ (f <$> l) = 0 -> ∀ a, a ∈ l -> f a = 0.
Proof.
  induction l as [|b l IH]; intros Hf Hsum a Ha; [by apply elem_of_nil in Ha|].
  rewrite fmap_cons, sumZ_cons in Hsum.
  pose proof (Hf b ltac:(left)).
  pose proof (sumZ_nonneg f l (fun c Hc => Hf c ltac:(by right))).
  apply elem_of_cons in Ha as [->|Ha]; [lia|].
  apply IH; [|lia|done]. intros c Hc. apply Hf. by right.
Qed.

Lemma sumZ_pos_exists {A} (f : A -> Z) l :
  0 < sumZ (f <$> l) -> ∃ a, a ∈ l ∧ 0 < f a.
Proof.
  induction l as [|b l IH]; [simpl; lia|]. rewrite fmap_cons, sumZ_cons. intros Hsum.
  destruct (decide (0 < f b)) as [Hb|Hb].
  - exists b. split; [left|done].
  - destruct IH as (a & Ha & Hfa); [lia|]. exists a. split; [by right|done].
Qed.

Lemma sumZ_ones {A} (f : A -> Z) l :
  (∀ a, a ∈ l -> f a = 1) -> sumZ (f <$> l) = Z.of_nat (length l).
Proof.
  induction l as [|b l IH]; intros Hf; [done|]. rewrite fmap_cons, sumZ_cons.
  rewrite IH by (intros c Hc; apply Hf; by right).
  rewrite (Hf b) by left. cbn [length]. lia.
Qed.

Lemma sumZ_ge_elem {A} (f : A -> Z) l a :
  (∀ b, b ∈ l -> 0 <= f b) -> a ∈ l -> f a <= sumZ (f <$> l).
Proof.
  induction l as [|b l IH]; intros Hf Ha; [by apply elem_of_nil in Ha|].
  rewrite fmap_cons, sumZ_cons.
  pose proof (Hf b ltac:(left)).
  pose proof (sumZ_nonneg f l (fun c Hc => Hf c ltac:(by right))).
  apply elem_of_cons in Ha as [->|Ha]; [lia|].
  pose proof (IH (fun c Hc => Hf c ltac:(by right)) Ha). lia.
Qed.

(** ** The shape of a day's shift *)

Section RunShape.
Variables (n : Z) (X S2 S3 S4 : Z -> Z) (Y : Z).
Let idx := seqZ 0 n.
Let I (k : Z) := start_indices k idx.

Hypothesis X_binary : ∀ i, i ∈ idx -> X i = 0 ∨ X i = 1.
Hypothesis S2_binary : ∀ i, i ∈ I 1 -> S2 i = 0 ∨ S2 i = 1.
Hypothesis S3_binary : ∀ i, i ∈ I 2 -> S3 i = 0 ∨ S3 i = 1.
Hypothesis S4_binary : ∀ i, i ∈ I 3 -> S4 i = 0 ∨ S4 i = 1.
Hypothesis Y_binary : Y = 0 ∨ Y = 1.
Hypothesis shifts : sumZ (S2 <$> I 1) + sumZ (S3 <$> I 2) + sumZ (S4 <$> I 3) = Y.
Hypothesis sumx :
  sumZ (X <$> idx) =
  2 * sumZ (S2 <$> I 1) + 3 * sumZ (S3 <$> I 2) + 4 * sumZ (S4 <$> I 3).
Hypothesis link2 : ∀ i j, i ∈ I 1 -> 0 <= j <= 1 -> S2 i <= X (i + j).
Hypothesis link3 : ∀ i j, i ∈ I 2 -> 0 <= j <= 2 -> S3 i <= X (i + j).
Hypothesis link4 : ∀ i j, i ∈ I 3 -> 0 <= j <= 3 -> S4 i <= X (i + j).

Lemma elem_of_idx i : i ∈ idx <-> 0 <= i < n.
Proof. unfold idx. rewrite elem_of_seqZ. lia. Qed.

Lemma elem_of_I k i : i ∈ I k <-> 0 <= i < n ∧ 0 <= i + k < n.
Proof.
  unfold I, start_indices. rewrite list_elem_of_filter, !elem_of_idx. lia.
Qed.

(** A run of [len] ones that accounts for the whole sum is the whole day. *)
Lemma run_is_all a len :
  0 <= a -> 0 <= len -> a + len <= n ->
  (∀ j, 0 <= j < len -> X (a + j) = 1) ->
  sumZ (X <$> idx) = len ->
  ∀ i, i ∈ idx -> X i = 1 <-> a <= i < a + len.
Proof using X_binary.
  intros Ha Hlen Hn Hrun Hsum.
  assert (Hsplit : idx = seqZ 0 a ++ seqZ a len ++ seqZ (a + len) (n - (a + len))).
  { unfold idx. replace n with (a + (len + (n - (a + len)))) at 1 by lia.
    rewrite seqZ_app by lia. f_equal. rewrite seqZ_app by lia.
    rewrite Z.add_0_l. done. }
  assert (Hnonneg : ∀ l : list Z, (∀ i, i ∈ l -> i ∈ idx) -> ∀ i, i ∈ l -> 0 <= X i).
  { intros l Hl i Hi. destruct (X_binary i (Hl i Hi)); lia. }
  assert (Hsub1 : ∀ i, i ∈ seqZ 0 a -> i ∈ idx).
  { intros i. rewrite elem_of_idx, elem_of_seqZ. lia. }
  assert (Hsub3 : ∀ i, i ∈ seqZ (a + len) (n - (a + len)) -> i ∈ idx).
  { intros i. rewrite elem_of_idx, elem_of_seqZ. lia. }
  assert (Hmid : sumZ (X <$> seqZ a len) = len).
  { rewrite sumZ_ones.
    - rewrite length_seqZ. lia.
    - intros i Hi%elem_of_seqZ. replace i with (a + (i - a)) by lia. apply Hrun. lia. }
  rewrite Hsplit, !fmap_app, !sumZ_app, Hmid in Hsum.
  pose proof (sumZ_nonneg X _ (Hnonneg _ Hsub1)) as H1.
  pose proof (sumZ_nonneg X _ (Hnonneg _ Hsub3)) as H3.
  intros i Hi. split.
  - intros HX. destruct (decide (a <= i < a + len)) as [|Hout]; [done|]. exfalso.
    apply elem_of_idx in Hi.
    destruct (decide (i < a)).
    + assert (X i = 0); [|lia].
      apply (sumZ_zero X (seqZ 0 a)); [by apply Hnonneg|lia|].
      apply elem_of_seqZ. lia.
    + assert (X i = 0); [|lia].
      apply (sumZ_zero X (seqZ (a + len) (n - (a + len)))); [by apply Hnonneg|lia|].
      apply elem_of_seqZ. lia.
  - intros Hin. replace i with (a + (i - a)) by lia. apply Hrun. lia.
Qed.

Lemma run_shape :
  (∀ i, i ∈ idx -> X i = 0) ∨
  ∃ a len, (len = 2 ∨ len = 3 ∨ len = 4) ∧ 0 <= a ∧ a + len <= n ∧
           ∀ i, i ∈ idx -> X i = 1 <-> a <= i < a + len.
Proof using All.
  assert (HX0 : ∀ i, i ∈ idx -> 0 <= X i).
  { intros i Hi. destruct (X_binary i Hi); lia. }
  assert (H20 : ∀ i, i ∈ I 1 -> 0 <= S2 i).
  { intros i Hi. destruct (S2_binary i Hi); lia. }
  assert (H30 : ∀ i, i ∈ I 2 -> 0 <= S3 i).
  { intros i Hi. destruct (S3_binary i Hi); lia. }
  assert (H40 : ∀ i, i ∈ I 3 -> 0 <= S4 i).
  { intros i Hi. destruct (S4_binary i Hi); lia. }
  pose proof (sumZ_nonneg S2 _ H20) as A2.
  pose proof (sumZ_nonneg S3 _ H30) as A3.
  pose proof (sumZ_nonneg S4 _ H40) as A4.
  destruct (decide (0 < sumZ (S2 <$> I 1))) as [P2|P2];
    [|destruct (decide (0 < sumZ (S3 <$> I 2))) as [P3|P3];
      [|destruct (decide (0 < sumZ (S4 <$> I 3))) as [P4|P4]]].
  - right. destruct (sumZ_pos_exists _ _ P2) as (a & Ha & Hpos).
    pose proof (elem_of_I 1 a) as Hr. apply Hr in Ha as Hb.
    exists a, 2. split; [tauto|]. split; [lia|]. split; [lia|].
    apply run_is_all; [lia..| |lia].
    intros j Hj. pose proof (link2 a j Ha ltac:(lia)).
    destruct (X_binary (a + j)); [apply elem_of_idx; lia|lia|done].
  - right. destruct (sumZ_pos_exists _ _ P3) as (a & Ha & Hpos).
    pose proof (elem_of_I 2 a) as Hr. apply Hr in Ha as Hb.
    exists a, 3. split; [tauto|]. split; [lia|]. split; [lia|].
    apply run_is_all; [lia..| |lia].
    intros j Hj. pose proof (link3 a j Ha ltac:(lia)).
    destruct (X_binary (a + j)); [apply elem_of_idx; lia|lia|done].
  - right. destruct (sumZ_pos_exists _ _ P4) as (a & Ha & Hpos).
    pose proof (elem_of_I 3 a) as Hr. apply Hr in Ha as Hb.
    exists a, 4. split; [tauto|]. split; [lia|]. split; [lia|].
    apply run_is_all; [lia..| |lia].
    intros j Hj. pose proof (link4 a j Ha ltac:(lia)).
    destruct (X_binary (a + j)); [apply elem_of_idx; lia|lia|done].
  - left. apply sumZ_zero; [done|lia].
Qed.
End RunShape.

Lemma expr_vars_lpSum vs : expr_vars (lpSum vs) = vs.
Proof.
  unfold expr_vars, lpSum. simpl. rewrite <- list_fmap_compose.
  rewrite <- (list_fmap_id vs) at 2. by apply list_fmap_ext.
Qed.

Lemma expr_vars_add a b : expr_vars (expr_add a b) = expr_vars a ++ expr_vars b.
Proof. unfold expr_vars, expr_add. simpl. by rewrite fmap_app. Qed.

Lemma expr_vars_scale k a : expr_vars (expr_scale k a) = expr_vars a.
Proof.
  unfold expr_vars, expr_scale. simpl. rewrite <- list_fmap_compose.
  by apply list_fmap_ext.
Qed.

Lemma link2_in s d idx i j :
  i + 1 ∈ idx -> 0 <= j <= 1 ->
  ge_constraint (VX s d (i + j)) (VStart2 s d i) ∈ link_constraints s d idx i.
Proof.
  intros Hk Hj. unfold link_constraints. rewrite decide_True by done.
  apply elem_of_app. left.
  assert (j = 0 ∨ j = 1) as [-> | ->] by lia; rewrite ?Z.add_0_r;
    repeat (first [left | right]).
Qed.

Lemma link3_in s d idx i j :
  i + 2 ∈ idx -> 0 <= j <= 2 ->
  ge_constraint (VX s d (i + j)) (VStart3 s d i) ∈ link_constraints s d idx i.
Proof.
  intros Hk Hj. unfold link_constraints. rewrite (decide_True _ _ Hk).
  apply elem_of_app. right. apply elem_of_app. left.
  assert (j = 0 ∨ j = 1 ∨ j = 2) as [-> | [-> | ->]] by lia; rewrite ?Z.add_0_r;
    repeat (first [left | right]).
Qed.

Lemma link4_in s d idx i j :
  i + 3 ∈ idx -> 0 <= j <= 3 ->
  ge_constraint (VX s d (i + j)) (VStart4 s d i) ∈ link_constraints s d idx i.
Proof.
  intros Hk Hj. unfold link_constraints. rewrite (decide_True _ _ Hk).
  apply elem_of_app. right. apply elem_of_app. right.
  assert (j = 0 ∨ j = 1 ∨ j = 2 ∨ j = 3) as [-> | [-> | [-> | ->]]] by lia;
    rewrite ?Z.add_0_r; repeat (first [left | right]).
Qed.

(** The shape of the day of one student in a feasible assignment. *)
Lemma day_run_shape p df val s d :
  feasible (problem_of p df) val = true ->
  s ∈ students df -> d ∈ active_days df ->
  (∀ i, 0 <= i < 10 -> val (VX s d i) = 0) ∨
  ∃ a len, (len = 2 ∨ len = 3 ∨ len = 4) ∧ 0 <= a ∧ a + len <= 10 ∧
           ∀ i, 0 <= i < 10 -> val (VX s d i) = 1 <-> a <= i < a + len.
Proof.
  intros [Hbin Hholds]%feasible_spec Hs Hd. cbn [problem_of constraints] in Hholds.
  set (idx := indices day_template) in *.
  assert (Hidx : idx = seqZ 0 10) by reflexivity.
  assert (Hshape : ∀ c, c ∈ shape_constraints s d idx -> holds val c = true).
  { intros c Hc. apply Hholds. by apply (shape_in p df s d). }
  assert (Hvar : ∀ c v, c ∈ shape_constraints s d idx -> v ∈ constraint_vars c ->
                        val v = 0 ∨ val v = 1).
  { intros c v Hc Hv. apply Hbin. apply (elem_of_variables _ c); [|done].
    by apply (shape_in p df s d). }
  assert (Hsumx_in : sumx_constraint s d idx ∈ shape_constraints s d idx)
    by (right; left).
  assert (Hshifts_in : shifts_constraint s d idx ∈ shape_constraints s d idx) by left.
  assert (Hlinks_in : ∀ i c, i ∈ idx -> c ∈ link_constraints s d idx i ->
                             c ∈ shape_constraints s d idx).
  { intros i c Hi Hc. do 2 right. apply list_elem_of_bind. eauto. }
  assert (Hsumx_vars : constraint_vars (sumx_constraint s d idx) =
            (VX s d <$> idx) ++ s2_list s d idx ++ s3_list s d idx ++ s4_list s d idx).
  { unfold constraint_vars, sumx_constraint. cbn [c_lhs c_rhs].
    rewrite !expr_vars_add, !expr_vars_scale, !expr_vars_lpSum, <- app_assoc. done. }
  assert (Hrange : ∀ i, 0 <= i < 10 <-> i ∈ seqZ 0 10).
  { intros i. rewrite elem_of_seqZ. lia. }
  setoid_rewrite Hrange.
  apply (run_shape 10 (val ∘ VX s d) (val ∘ VStart2 s d) (val ∘ VStart3 s d)
           (val ∘ VStart4 s d) (val (VY s d))); rewrite <- ?Hidx.
  - intros i Hi. apply (Hvar _ _ Hsumx_in). rewrite Hsumx_vars, elem_of_app. left.
    by apply list_elem_of_fmap_2.
  - intros i Hi. apply (Hvar _ _ Hsumx_in). rewrite Hsumx_vars, !elem_of_app.
    right. left. by apply list_elem_of_fmap_2.
  - intros i Hi. apply (Hvar _ _ Hsumx_in). rewrite Hsumx_vars, !elem_of_app.
    right. right. left. by apply list_elem_of_fmap_2.
  - intros i Hi. apply (Hvar _ _ Hsumx_in). rewrite Hsumx_vars, !elem_of_app.
    right. right. right. by apply list_elem_of_fmap_2.
  - apply (Hvar _ _ Hshifts_in). unfold constraint_vars, shifts_constraint.
    cbn [c_lhs c_rhs]. apply elem_of_app. right. left.
  - pose proof (holds_EQ _ _ (Hshape _ Hshifts_in) eq_refl) as E.
    unfold shifts_constraint in E. cbn [c_lhs c_rhs] in E.
    rewrite value_lpSum, value_of_var, !fmap_app, !sumZ_app in E.
    unfold s2_list, s3_list, s4_list in E. rewrite <- !list_fmap_compose in E. lia.
  - pose proof (holds_EQ _ _ (Hshape _ Hsumx_in) eq_refl) as E.
    unfold sumx_constraint in E. cbn [c_lhs c_rhs] in E.
    rewrite !value_add, !value_scale, !value_lpSum in E.
    unfold s2_list, s3_list, s4_list in E. rewrite <- !list_fmap_compose in E. done.
  - intros i j [Hk Hi]%list_elem_of_filter Hj.
    pose proof (link2_in s d idx i j Hk Hj) as Hc.
    pose proof (holds_GE _ _ (Hshape _ (Hlinks_in i _ Hi Hc)) eq_refl) as E.
    cbn [ge_constraint c_lhs c_rhs] in E. rewrite !value_of_var in E. simpl. lia.
  - intros i j [Hk Hi]%list_elem_of_filter Hj.
    pose proof (link3_in s d idx i j Hk Hj) as Hc.
    pose proof (holds_GE _ _ (Hshape _ (Hlinks_in i _ Hi Hc)) eq_refl) as E.
    cbn [ge_constraint c_lhs c_rhs] in E. rewrite !value_of_var in E. simpl. lia.
  - intros i j [Hk Hi]%list_elem_of_filter Hj.
    pose proof (link4_in s d idx i j Hk Hj) as Hc.
    pose proof (holds_GE _ _ (Hshape _ (Hlinks_in i _ Hi Hc)) eq_refl) as E.
    cbn [ge_constraint c_lhs c_rhs] in E. rewrite !value_of_var in E. simpl. lia.
Qed.

(** * The properties of the specification *)

(** C4. For the window from 23:00 to 23:30 [genblocks] does not stop
    before the block that ends after the window end: the end of the block,
    [(cur + 1h).time()], is 00:00, which the test [e > en_time] takes for a
    time before 23:30.  The window of half an hour gets a block of a full
    hour, whose end is a smaller time of day than its start. *)
Theorem genblocks_past_midnight :
  genblocks ["Monday"] "23:00" "23:30" = Ret [("Monday", 0, mktime 23 0 0, 0)] ∧
  mktime 23 30 0 < mktime 23 0 0 + one_hour.
Proof. split; [vm_compute; reflexivity|done]. Qed.

(** X1. For every list of active days and every operating window that ends
    no later than 23:00 (the default window ends at 17:30), [genblocks]
    returns, day after day, the blocks [hour_blocks d st 0 n]: block [k] of a
    day has index [k] and covers the hour from [st + k] hours, so the indices
    start at 0 and grow by 1 and each block starts where the previous one
    ends.  Every block ends within the window, and the number [n] of blocks
    is the largest possible: one more block would end after the window end,
    so a trailing partial hour is dropped. *)
Theorem genblocks_spec days start end_ st en :
  strptime_HM start = Ret st -> strptime_HM end_ = Ret en -> en <= mktime 23 0 0 ->
  let n := Z.to_nat ((en - st) `div` one_hour) in
  genblocks days start end_ = Ret (days ≫= fun d => hour_blocks d st 0 n) ∧
  (∀ d b, b ∈ hour_blocks d st 0 n ->
     blk_day b = d ∧ blk_end b = blk_start b + one_hour ∧ st <= blk_start b ∧ blk_end b <= en) ∧
  en < st + one_hour * (Z.of_nat n + 1).
Proof.
  intros Hst Hen Hwrap n.
  pose proof (strptime_HM_range _ _ Hst) as [Hst0 _].
  assert (Hn : (en - st) `div` one_hour <= 0 ∧ n = 0%nat ∨
               0 < (en - st) `div` one_hour ∧ Z.of_nat n = (en - st) `div` one_hour) by lia.
  assert (Hdiv : st <= en -> one_hour * ((en - st) `div` one_hour) <= en - st
                             ∧ en - st < one_hour * ((en - st) `div` one_hour + 1)).
  { intros Hle. pose proof (Z.mul_div_le (en - st) one_hour ltac:(done)).
    pose proof (Z.mul_succ_div_gt (en - st) one_hour ltac:(done)).
    unfold one_hour in *. lia. }
  assert (Hneg : en < st -> (en - st) `div` one_hour < 0).
  { intros Hlt. apply Z.div_lt_upper_bound; unfold one_hour; lia. }
  split; [|split].
  - unfold genblocks. rewrite Hst, Hen. cbn [mbind res_bind].
    by rewrite genblocks_days_closed.
  - intros d b (k & -> & Hk%elem_of_seq)%list_elem_of_fmap.
    cbn [blk_day blk_end blk_start fst snd]. unfold one_hour in *.
    destruct (decide (st <= en)) as [Hle|Hgt]; [|lia].
    specialize (Hdiv Hle). repeat split; try lia; nia.
  - unfold one_hour in *. destruct (decide (st <= en)) as [Hle|Hgt]; [|lia].
    specialize (Hdiv Hle). destruct Hn as [[? ->]|[? ->]]; lia.
Qed.

Lemma genblocks_spec_witness :
  genblocks ["Monday"; "Tuesday"] "08:00" "10:30" =
    Ret (["Monday"; "Tuesday"] ≫= fun d => hour_blocks d (mktime 8 0 0) 0 2) ∧
  (∀ d b, b ∈ hour_blocks d (mktime 8 0 0) 0 2 ->
     blk_day b = d ∧ blk_end b = blk_start b + one_hour ∧
     mktime 8 0 0 <= blk_start b ∧ blk_end b <= mktime 10 30 0) ∧
  mktime 10 30 0 < mktime 8 0 0 + one_hour * (Z.of_nat 2 + 1).
Proof.
  apply (genblocks_spec ["Monday"; "Tuesday"] "08:00" "10:30" (mktime 8 0 0) (mktime 10 30 0)).
  - reflexivity.
  - reflexivity.
  - vm_compute. discriminate.
Defined.

(** C5. [freeblk] answers busy ([false]) exactly when some interval of
    [classes] on day [d] has [busyStart < blockEnd] and [busyEnd >
    blockStart]; an interval that ends at the start of the block, or starts at
    its end, leaves the block free. *)
Theorem freeblk_spec classes d s e :
  (freeblk classes d s e = false <->
   ∃ cs ce, (d, cs, ce) ∈ classes ∧ cs < e ∧ ce > s) ∧
  (∀ cs, freeblk [(d, cs, s)] d s e = true) ∧
  (∀ ce, freeblk [(d, e, ce)] d s e = true).
Proof.
  split; [apply freeblk_false|]. split; intros c.
  - destruct (freeblk [(d, c, s)] d s e) eqn:E; [done|].
    apply freeblk_false in E as (cs & ce & [= -> ->]%list_elem_of_singleton & ? & ?). lia.
  - destruct (freeblk [(d, e, c)] d s e) eqn:E; [done|].
    apply freeblk_false in E as (cs & ce & [= -> ->]%list_elem_of_singleton & ? & ?). lia.
Qed.

(** C3. In a model [build_model] returns, for every row of the roster and
    every generated block of the row's day that the row's interval overlaps
    (half-open: [start < blockEnd] and [end > blockStart]), the variable
    [x[student,day,block]] exists, the constraint [x == 0] is part of the
    problem under the name [busy_{s}_{d}_{i}] (as pulp stores it), and the
    variable is 0 in every feasible assignment. *)
Theorem busy_block_never_assigned df p m :
  build_model df p = Ret m ->
  ∀ r b, r ∈ df -> b ∈ blks m -> blk_day b = day_of_week r ->
    class_start r < blk_end b -> class_end r > blk_start b ->
    let xv := VX (student_name r) (blk_day b) (blk_idx b) in
    x_dict m !! (student_name r, blk_day b, blk_idx b) = Some xv ∧
    busy_constraint (student_name r) (blk_day b) (blk_idx b) ∈ constraints (prob m) ∧
    ∀ val, feasible (prob m) val = true -> val xv = 0.
Proof.
  intros (vs & -> & Hvs & _)%build_model_Ret.
  cbn [prob x_dict blks problem_of constraints].
  intros r b Hr Hb Hday Hlt Hgt.
  apply elem_of_all_blocks in Hb as [Hd Hb].
  assert (Hs : student_name r ∈ students df).
  { apply elem_of_sorted, elem_of_unique, list_elem_of_fmap. eauto. }
  assert (Hbusy : busy_constraint (student_name r) (blk_day b) (blk_idx b)
                    ∈ constraints_of p df).
  { apply (busy_in p df _ _ (strip b)); [done..|].
    apply freeblk_false. exists (class_start r), (class_end r). split; [|done].
    apply list_elem_of_fmap. exists r. split; [by rewrite Hday|].
    by apply list_elem_of_filter. }
  split; [|split; [done|]].
  - destruct Hvs as (Hx & _). apply Hx. split; [|done]. split.
    + by apply elem_of_pairs.
    + apply list_elem_of_fmap. by exists (strip b).
  - intros val [_ Hholds]%feasible_spec. cbn [constraints] in Hholds.
    pose proof (holds_EQ _ _ (Hholds _ Hbusy) eq_refl) as E.
    cbn [busy_constraint c_lhs c_rhs] in E.
    by rewrite value_of_var, value_of_const in E.
Qed.

Lemma busy_block_never_assigned_witness :
  ∃ m, build_model roster1 default_params = Ret m ∧
    x_dict m !! ("A", "Monday", 0) = Some (VX "A" "Monday" 0) ∧
    busy_constraint "A" "Monday" 0 ∈ constraints (prob m) ∧
    ∀ val, feasible (prob m) val = true -> val (VX "A" "Monday" 0) = 0.
Proof.
  destruct (build_model_distinct roster1 default_params (roster1_names _))
    as (vs & Hm & Hvs).
  eexists. split; [exact Hm|].
  apply (busy_block_never_assigned roster1 default_params _ Hm
           (mkRow "A" "Monday" (mktime 7 30 0) (mktime 8 30 0))
           ("Monday", 0, mktime 7 30 0, mktime 8 30 0)).
  - left.
  - cbn [blks]. apply list_elem_of_In. vm_compute. tauto.
  - reflexivity.
  - reflexivity.
  - reflexivity.
Defined.

(** C1. In every feasible assignment of a model [build_model] returns, and
    for every student and day, the block indices at which [x] is 1 are either
    none or exactly the indices of one run [a, a + len) with [len] 2, 3 or 4:
    no single block, no run of five or more, no two runs. *)
Theorem shift_is_one_run df p m :
  build_model df p = Ret m ->
  ∀ val, feasible (prob m) val = true ->
    ∀ s d,
      (∀ i, ¬ assigned_on m val s d i) ∨
      ∃ a len, (len = 2 ∨ len = 3 ∨ len = 4) ∧
               ∀ i, assigned_on m val s d i <-> a <= i < a + len.
Proof.
  intros (vs & -> & Hvs & _)%build_model_Ret.
  cbn [prob]. intros val Hfeas s d.
  destruct Hvs as (Hx & _).
  assert (Hassigned : ∀ i, assigned_on
            (mkModel (problem_of p df) (x_vars vs) (y_vars vs)
               (create_u (all_blocks (active_days df))) (all_blocks (active_days df))
               (students df)) val s d i <->
            (s ∈ students df ∧ d ∈ active_days df) ∧ 0 <= i < 10 ∧ val (VX s d i) = 1).
  { intros i. unfold assigned_on. cbn [x_dict]. split.
    - intros (xv & Hxv & Hone). apply Hx in Hxv as [[Hp Hi] ->].
      apply elem_of_pairs in Hp. by apply elem_of_indices_template in Hi.
    - intros (Hp & Hi & Hone). exists (VX s d i). split; [|done].
      apply Hx. by rewrite elem_of_pairs, elem_of_indices_template. }
  setoid_rewrite Hassigned.
  destruct (decide (s ∈ students df ∧ d ∈ active_days df)) as [[Hs Hd]|Hnot].
  2:{ left. tauto. }
  destruct (day_run_shape p df val s d Hfeas Hs Hd) as [Hzero|(a & len & Hlen & Ha & Hal & Hrun)].
  - left. intros i (_ & Hi & Hone). rewrite (Hzero i Hi) in Hone. done.
  - right. exists a, len. split; [done|]. intros i. split.
    + intros (_ & Hi & Hone). by apply Hrun.
    + intros Hi. assert (0 <= i < 10) as Hi' by lia.
      split; [done|]. split; [done|]. by apply Hrun.
Qed.

Lemma shift_is_one_run_witness :
  ∃ m, build_model roster1 default_params = Ret m ∧
       feasible (prob m) val1 = true ∧
       ((∀ i, ¬ assigned_on m val1 "A" "Monday" i) ∨
        ∃ a len, (len = 2 ∨ len = 3 ∨ len = 4) ∧
                 ∀ i, assigned_on m val1 "A" "Monday" i <-> a <= i < a + len).
Proof.
  destruct (build_model_distinct roster1 default_params (roster1_names _))
    as (vs & Hm & Hvs).
  eexists. split; [exact Hm|]. cbn [prob].
  assert (Hfeas : feasible (problem_of default_params roster1) val1 = true)
    by (vm_compute; reflexivity).
  split; [exact Hfeas|].
  exact (shift_is_one_run roster1 default_params _ Hm val1 Hfeas "A" "Monday").
Defined.

(** ** The variables of each constraint *)

Lemma expr_vars_of_var v : expr_vars (of_var v) = [v].
Proof. reflexivity. Qed.
Lemma expr_vars_of_const k : expr_vars (of_const k) = [].
Proof. reflexivity. Qed.

Ltac vars_norm :=
  unfold constraint_vars; cbn [c_lhs c_rhs];
  rewrite ?expr_vars_add, ?expr_vars_scale, ?expr_vars_lpSum,
    ?expr_vars_of_var, ?expr_vars_of_const, ?app_nil_r.

Section ConstraintVars.
Variables (p : params) (df : list row).
Let ds := active_days df.
Let stus := students df.
Let idx := indices day_template.
Let ok (v : LpVariable) : Prop := is_u v = false ∧ var_day v ∈ ds.

Lemma ok_xs_of_students d i v : d ∈ ds -> v ∈ xs_of_students stus d i -> ok v.
Proof. intros Hd (s & -> & _)%list_elem_of_fmap. by split. Qed.

Lemma ok_xs_of_blocks s v : v ∈ xs_of_blocks s (all_blocks ds) -> ok v.
Proof.
  intros (b & -> & Hb)%list_elem_of_fmap. split; [done|].
  by apply elem_of_all_blocks in Hb as [? _].
Qed.

Lemma ok_xs_all v : v ∈ xs_all stus (all_blocks ds) -> ok v.
Proof. intros (s & Hv & _)%list_elem_of_bind. by apply ok_xs_of_blocks in Hv. Qed.

Lemma ok_start_lists s d v :
  d ∈ ds -> v ∈ s2_list s d idx ++ s3_list s d idx ++ s4_list s d idx -> ok v.
Proof.
  intros Hd. rewrite !elem_of_app. unfold s2_list, s3_list, s4_list.
  intros [(i & -> & _)%list_elem_of_fmap|[(i & -> & _)%list_elem_of_fmap
                                         |(i & -> & _)%list_elem_of_fmap]]; by split.
Qed.

Lemma ok_links s d i c v :
  d ∈ ds -> c ∈ link_constraints s d idx i -> v ∈ constraint_vars c -> ok v.
Proof.
  intros Hd Hc Hv. unfold link_constraints in Hc.
  apply elem_of_app in Hc as [Hc|Hc]; [|apply elem_of_app in Hc as [Hc|Hc]];
    (case_decide; [|by apply elem_of_nil in Hc]);
    repeat (apply elem_of_cons in Hc as [->|Hc]);
    try (by apply elem_of_nil in Hc);
    revert Hv; unfold ge_constraint; vars_norm; cbn [app];
    rewrite !elem_of_cons, elem_of_nil; (intros [->|[->|[]]]; by split).
Qed.

Lemma ok_shape s d c v :
  d ∈ ds -> c ∈ shape_constraints s d idx -> v ∈ constraint_vars c -> ok v.
Proof.
  intros Hd. unfold shape_constraints. rewrite !elem_of_cons.
  intros [->|[->|(i & Hc & _)%list_elem_of_bind]].
  - unfold shifts_constraint. vars_norm. rewrite elem_of_app, list_elem_of_singleton.
    intros [Hv| ->]; [by apply (ok_start_lists s d)|by split].
  - unfold sumx_constraint. vars_norm. rewrite <- app_assoc, elem_of_app.
    intros [(i & -> & _)%list_elem_of_fmap|Hv]; [by split|by apply (ok_start_lists s d)].
  - by apply (ok_links s d i).
Qed.

(** Every constraint is the coverage constraint of a generated block, or
    mentions only [x], [y] and shift-start variables of active days. *)
Lemma constraint_vars_of c :
  c ∈ constraints_of p df ->
  (∃ b, b ∈ all_blocks ds ∧ c = cover_constraint stus (blk_day b) (blk_idx b)) ∨
  (∀ v, v ∈ constraint_vars c -> ok v).
Proof.
  unfold constraints_of. rewrite !elem_of_app.
  intros [Hc|[Hc|[Hc|[Hc|[Hc|Hc]]]]].
  - left. apply list_elem_of_bind in Hc as (b & ->%list_elem_of_singleton & Hb). eauto.
  - right. apply list_elem_of_bind in Hc as (b & ->%list_elem_of_singleton & Hb).
    apply elem_of_all_blocks in Hb as [Hd _].
    unfold ovl_constraint. vars_norm. intros v. by apply ok_xs_of_students.
  - right. apply list_elem_of_bind in Hc as (s & Hc & Hs).
    unfold weekly_constraints in Hc. rewrite !elem_of_cons, elem_of_nil in Hc.
    destruct Hc as [->|[->|[]]]; vars_norm; intros v; apply ok_xs_of_blocks.
  - right. unfold average_constraints in Hc. rewrite !elem_of_cons, elem_of_nil in Hc.
    destruct Hc as [->|[->|[]]]; vars_norm; intros v; apply ok_xs_all.
  - right. apply list_elem_of_bind in Hc as (s & Hc & Hs).
    apply list_elem_of_bind in Hc as (d & Hc & Hd).
    apply list_elem_of_bind in Hc as (b & Hc & Hb).
    destruct (negb _); [|by apply elem_of_nil in Hc].
    apply list_elem_of_singleton in Hc as ->.
    unfold busy_constraint. vars_norm. intros v ->%list_elem_of_singleton. by split.
  - right. apply list_elem_of_bind in Hc as (s & Hc & Hs).
    apply list_elem_of_bind in Hc as (d & Hc & Hd).
    intros v. by apply (ok_shape s d).
Qed.

Lemma cover_constraint_vars d i :
  constraint_vars (cover_constraint stus d i) = xs_of_students stus d i ++ [VU d i].
Proof. unfold cover_constraint. by vars_norm. Qed.

Lemma objective_vars :
  expr_vars (objective_of p stus ds (all_blocks ds)) =
  us_all (all_blocks ds) ++ xs_all stus (all_blocks ds) ++ ys_all stus ds.
Proof. unfold objective_of. vars_norm. by rewrite <- app_assoc. Qed.

(** Every variable of the problem belongs to an active day. *)
Lemma variables_active v : v ∈ variables (problem_of p df) -> var_day v ∈ ds.
Proof.
  unfold variables. cbn [problem_of objective constraints]. fold ds stus.
  rewrite elem_of_app, objective_vars, !elem_of_app, elem_of_concat.
  intros [[Hv|[Hv|Hv]]|(l & (c & -> & Hc)%list_elem_of_fmap & Hv)].
  - apply list_elem_of_fmap in Hv as (b & -> & Hb).
    by apply elem_of_all_blocks in Hb as [? _].
  - by apply ok_xs_all in Hv as [_ ?].
  - apply list_elem_of_bind in Hv as (s & (d & -> & Hd)%list_elem_of_fmap & _). done.
  - apply constraint_vars_of in Hc as [(b & Hb & ->)|Hok].
    + rewrite cover_constraint_vars, elem_of_app, list_elem_of_singleton in Hv.
      apply elem_of_all_blocks in Hb as [Hd _].
      destruct Hv as [Hv| ->]; [|done]. by apply ok_xs_of_students in Hv as [_ ?].
    + by apply Hok in Hv as [_ ?].
Qed.
End ConstraintVars.

(** C10. [build_model] schedules over [active_days df]: the day labels of
    the rows of the roster, without repetition and in increasing order.  The
    blocks of the model are the ten blocks of each of these days, in that
    order; a day label that no row carries has no block, no key in [x], [y]
    or [u], and no variable in the objective or in any constraint (so no
    coverage constraint either). *)
Theorem active_days_are_roster_days df p m :
  build_model df p = Ret m ->
  StronglySorted (fun a b => String.ltb a b = true) (active_days df) ∧
  (∀ d, d ∈ active_days df <-> ∃ r, r ∈ df ∧ day_of_week r = d) ∧
  blks m = (active_days df ≫= fun d => hour_blocks d (mktime 7 30 0) 0 10) ∧
  ∀ d, ¬ (∃ r, r ∈ df ∧ day_of_week r = d) ->
    (∀ b, b ∈ blks m -> blk_day b ≠ d) ∧
    (∀ s i, x_dict m !! (s, d, i) = None) ∧
    (∀ s, y_dict m !! (s, d) = None) ∧
    (∀ i, u_dict m !! (d, i) = None) ∧
    (∀ v, v ∈ variables (prob m) -> var_day v ≠ d).
Proof.
  intros (vs & -> & (Hx & Hy & _) & _)%build_model_Ret.
  cbn [prob x_dict y_dict u_dict blks].
  split; [apply sorted_strict, NoDup_unique|].
  split; [apply elem_of_active_days|].
  split; [reflexivity|].
  intros d Hd. rewrite <- elem_of_active_days in Hd.
  split; [|split; [|split; [|split]]].
  - intros b [Hb _]%elem_of_all_blocks Heq. by rewrite Heq in Hb.
  - intros s i. apply eq_None_not_Some. intros [v Hv].
    apply Hx in Hv as [[Hp _] _]. apply elem_of_pairs in Hp. tauto.
  - intros s. apply eq_None_not_Some. intros [v Hv].
    apply Hy in Hv as [Hp _]. apply elem_of_pairs in Hp. tauto.
  - intros i. apply eq_None_not_Some. intros [v Hv].
    apply lookup_create_u in Hv as [(b & Hb & <- & _) _].
    by apply elem_of_all_blocks in Hb as [? _].
  - intros v Hv%variables_active Heq. by rewrite Heq in Hv.
Qed.

Lemma active_days_are_roster_days_witness :
  ∃ m, build_model roster1 default_params = Ret m ∧
    StronglySorted (fun a b => String.ltb a b = true) (active_days roster1) ∧
    (∀ d, d ∈ active_days roster1 <-> ∃ r, r ∈ roster1 ∧ day_of_week r = d) ∧
    blks m = (active_days roster1 ≫= fun d => hour_blocks d (mktime 7 30 0) 0 10) ∧
    ∀ d, ¬ (∃ r, r ∈ roster1 ∧ day_of_week r = d) ->
      (∀ b, b ∈ blks m -> blk_day b ≠ d) ∧
      (∀ s i, x_dict m !! (s, d, i) = None) ∧
      (∀ s, y_dict m !! (s, d) = None) ∧
      (∀ i, u_dict m !! (d, i) = None) ∧
      (∀ v, v ∈ variables (prob m) -> var_day v ≠ d).
Proof.
  destruct (build_model_distinct roster1 default_params (roster1_names _))
    as (vs & Hm & Hvs).
  eexists. split; [exact Hm|].
  exact (active_days_are_roster_days roster1 default_params _ Hm).
Defined.

(** ** Coverage and the uncovered flag *)

Lemma sumZ_ext {A} (f g : A -> Z) l :
  (∀ a, a ∈ l -> f a = g a) -> sumZ (f <$> l) = sumZ (g <$> l).
Proof. intros Hfg. f_equal. by apply list_fmap_ext; intros _ a Ha%list_elem_of_lookup_2; auto. Qed.

Lemma sumZ_le {A} (f g : A -> Z) l :
  (∀ a, a ∈ l -> f a <= g a) -> sumZ (f <$> l) <= sumZ (g <$> l).
Proof.
  induction l as [|b l IH]; intros Hfg; [done|]. rewrite !fmap_cons, !sumZ_cons.
  pose proof (Hfg b ltac:(left)). pose proof (IH (fun c Hc => Hfg c ltac:(by right))). lia.
Qed.

Lemma sumZ_lt {A} (f g : A -> Z) l a0 :
  (∀ a, a ∈ l -> f a <= g a) -> a0 ∈ l -> f a0 < g a0 -> sumZ (f <$> l) < sumZ (g <$> l).
Proof.
  induction l as [|b l IH]; intros Hfg Ha0 Hlt; [by apply elem_of_nil in Ha0|].
  rewrite !fmap_cons, !sumZ_cons.
  pose proof (Hfg b ltac:(left)).
  pose proof (sumZ_le f g l (fun c Hc => Hfg c ltac:(by right))).
  apply elem_of_cons in Ha0 as [->|Ha0]; [lia|].
  pose proof (IH (fun c Hc => Hfg c ltac:(by right)) Ha0 Hlt). lia.
Qed.

Lemma value_ext val val' e :
  (∀ v, v ∈ expr_vars e -> val' v = val v) -> value val' e = value val e.
Proof.
  intros Hv. unfold value. f_equal. f_equal. apply list_fmap_ext.
  intros _ [k v] Hin%list_elem_of_lookup_2. simpl. rewrite Hv; [done|].
  apply list_elem_of_fmap. by exists (k, v).
Qed.

Lemma holds_ext val val' c :
  (∀ v, v ∈ constraint_vars c -> val' v = val v) -> holds val' c = holds val c.
Proof.
  intros Hv. unfold holds.
  rewrite (value_ext val val' (c_lhs c)), (value_ext val val' (c_rhs c)); [done|..];
    intros v Hin; apply Hv; unfold constraint_vars; apply elem_of_app; auto.
Qed.

Lemma clear_flag_other val d i v : is_u v = false -> clear_flag val d i v = val v.
Proof. intros Hu. unfold clear_flag. case_decide as E; [by rewrite E in Hu|done]. Qed.

Section Coverage.
Variables (p : params) (df : list row) (vs : vars).
Let ds := active_days df.
Let sts := students df.
Let m := mkModel (problem_of p df) (x_vars vs) (y_vars vs)
           (create_u (all_blocks ds)) (all_blocks ds) sts.
Hypothesis Hvs :
  vars_inv (indices day_template) (sts ≫= fun s => (fun d => (s, d)) <$> ds) vs.

Lemma is_assigned_closed val b s :
  b ∈ all_blocks ds -> s ∈ sts ->
  is_assigned m val (blk_day b) (blk_idx b) s =
  bool_decide (val (VX s (blk_day b) (blk_idx b)) = 1).
Proof using Hvs.
  intros Hb Hs. unfold is_assigned. cbn [m x_dict].
  destruct Hvs as (Hx & _).
  rewrite (proj2 (Hx s (blk_day b) (blk_idx b) (VX s (blk_day b) (blk_idx b)))); [done|].
  apply elem_of_all_blocks in Hb as [Hd Hb]. split; [|done]. split.
  - by apply elem_of_pairs.
  - apply list_elem_of_fmap. by exists (strip b).
Qed.

Lemma uncovered_flag_closed val b :
  b ∈ all_blocks ds ->
  uncovered_flag m val (blk_day b) (blk_idx b) = val (VU (blk_day b) (blk_idx b)).
Proof.
  intros Hb. unfold uncovered_flag. cbn [m u_dict].
  rewrite (proj2 (lookup_create_u _ _ _ (VU (blk_day b) (blk_idx b)))); [done|]. eauto.
Qed.

(** A positive count is a student whose [x] is 1. *)
Lemma assigned_count_pos val b :
  b ∈ all_blocks ds ->
  assigned_count m val (blk_day b) (blk_idx b) >= 1 <->
  ∃ s, s ∈ sts ∧ val (VX s (blk_day b) (blk_idx b)) = 1.
Proof using Hvs.
  intros Hb. unfold assigned_count. cbn [stus m].
  set (l := filter _ sts).
  assert (Hl : ∀ s, s ∈ l <-> s ∈ sts ∧ val (VX s (blk_day b) (blk_idx b)) = 1).
  { intros s. unfold l. rewrite list_elem_of_filter. split.
    - intros [Ha Hs]. rewrite is_assigned_closed in Ha by done.
      by apply bool_decide_eq_true in Ha.
    - intros [Hs Hone]. rewrite is_assigned_closed by done.
      split; [|done]. by apply bool_decide_eq_true. }
  split.
  - intros Hge. destruct l as [|s l'] eqn:E; [simpl in Hge; lia|].
    exists s. apply Hl. left.
  - intros (s & Hs). apply Hl in Hs. destruct l; [by apply elem_of_nil in Hs|].
    cbn [length]. lia.
Qed.

Lemma cover_holds val b :
  feasible (problem_of p df) val = true -> b ∈ all_blocks ds ->
  sumZ (val <$> xs_of_students sts (blk_day b) (blk_idx b))
    + val (VU (blk_day b) (blk_idx b)) >= 1.
Proof.
  intros [_ Hholds]%feasible_spec Hb.
  pose proof (holds_GE _ _ (Hholds _ (cover_in p df b Hb)) eq_refl) as E.
  unfold cover_constraint in E. cbn [c_lhs c_rhs] in E.
  by rewrite value_add, value_lpSum, value_of_var, value_of_const in E.
Qed.

Lemma binary_x val b s :
  feasible (problem_of p df) val = true -> b ∈ all_blocks ds -> s ∈ sts ->
  val (VX s (blk_day b) (blk_idx b)) = 0 ∨ val (VX s (blk_day b) (blk_idx b)) = 1.
Proof.
  intros [Hbin _]%feasible_spec Hb Hs. apply Hbin.
  apply (elem_of_variables (problem_of p df) _ _ (cover_in p df b Hb)).
  rewrite cover_constraint_vars, elem_of_app. left.
  by apply (list_elem_of_fmap_2 (fun s => VX s (blk_day b) (blk_idx b))).
Qed.

Lemma binary_u val b :
  feasible (problem_of p df) val = true -> b ∈ all_blocks ds ->
  val (VU (blk_day b) (blk_idx b)) = 0 ∨ val (VU (blk_day b) (blk_idx b)) = 1.
Proof.
  intros [Hbin _]%feasible_spec Hb. apply Hbin.
  apply (elem_of_variables (problem_of p df) _ _ (cover_in p df b Hb)).
  rewrite cover_constraint_vars, elem_of_app. right. left.
Qed.

Lemma count_plus_flag val b :
  feasible (problem_of p df) val = true -> b ∈ all_blocks ds ->
  assigned_count m val (blk_day b) (blk_idx b)
    + uncovered_flag m val (blk_day b) (blk_idx b) >= 1.
Proof using Hvs.
  intros Hfeas Hb. rewrite uncovered_flag_closed by done.
  pose proof (cover_holds val b Hfeas Hb) as Hc.
  assert (0 <= assigned_count m val (blk_day b) (blk_idx b)) by (unfold assigned_count; lia).
  destruct (binary_u val b Hfeas Hb) as [Hu|Hu]; [|lia].
  assert (assigned_count m val (blk_day b) (blk_idx b) >= 1); [|lia].
  apply assigned_count_pos; [done|].
  unfold xs_of_students in Hc. rewrite <- list_fmap_compose in Hc.
  destruct (sumZ_pos_exists (val ∘ (fun s => VX s (blk_day b) (blk_idx b))) sts)
    as (s & Hs & Hpos); [lia|].
  exists s. split; [done|]. simpl in Hpos.
  destruct (binary_x val b s Hfeas Hb Hs); lia.
Qed.

(** Clearing the flag of a covered block keeps the assignment feasible and
    lowers the objective. *)
Lemma clear_flag_feasible val b :
  feasible (problem_of p df) val = true -> b ∈ all_blocks ds ->
  (∃ s, s ∈ sts ∧ val (VX s (blk_day b) (blk_idx b)) = 1) ->
  feasible (problem_of p df) (clear_flag val (blk_day b) (blk_idx b)) = true.
Proof.
  intros Hfeas Hb (s & Hs & Hone).
  pose proof Hfeas as [Hbin Hholds]%feasible_spec.
  apply feasible_spec. split.
  - intros v Hv. unfold clear_flag. case_decide; [by left|by apply Hbin].
  - intros c Hc. cbn [problem_of constraints] in Hc.
    destruct (constraint_vars_of p df c Hc) as [(b' & Hb' & ->)|Hok].
    + unfold holds, cover_constraint. cbn [c_sense c_lhs c_rhs].
      apply bool_decide_eq_true.
      rewrite value_add, value_lpSum, value_of_var, value_of_const.
      assert (Hxs : sumZ (clear_flag val (blk_day b) (blk_idx b)
                            <$> xs_of_students sts (blk_day b') (blk_idx b')) =
                    sumZ (val <$> xs_of_students sts (blk_day b') (blk_idx b'))).
      { apply sumZ_ext. intros v (s' & -> & _)%list_elem_of_fmap.
        by apply clear_flag_other. }
      fold sts. rewrite Hxs.
      pose proof (cover_holds val b' Hfeas Hb') as Hc'.
      unfold clear_flag. case_decide as E; [|lia].
      injection E as Ed Ei. rewrite Ed, Ei.
      assert (val (VX s (blk_day b) (blk_idx b))
              <= sumZ (val <$> xs_of_students sts (blk_day b) (blk_idx b))); [|lia].
      unfold xs_of_students. rewrite <- list_fmap_compose.
      apply (sumZ_ge_elem (val ∘ (fun s => VX s (blk_day b) (blk_idx b))) sts s); [|done].
      intros s' Hs'. simpl. destruct (binary_x val b s' Hfeas Hb Hs'); lia.
    + rewrite (holds_ext val); [by apply Hholds|].
      intros v Hv. apply clear_flag_other. by apply Hok.
Qed.

Lemma clear_flag_objective val b :
  feasible (problem_of p df) val = true -> b ∈ all_blocks ds ->
  val (VU (blk_day b) (blk_idx b)) = 1 ->
  value (clear_flag val (blk_day b) (blk_idx b)) (objective (problem_of p df))
  < value val (objective (problem_of p df)).
Proof.
  intros Hfeas Hb Hflag. cbn [problem_of objective]. unfold objective_of.
  rewrite !value_add, !value_scale, !value_lpSum. fold ds sts.
  assert (Hx : sumZ (clear_flag val (blk_day b) (blk_idx b) <$> xs_all sts (all_blocks ds))
               = sumZ (val <$> xs_all sts (all_blocks ds))).
  { apply sumZ_ext. intros v Hv. apply clear_flag_other. by apply (ok_xs_all df) in Hv as [? _]. }
  assert (Hy : sumZ (clear_flag val (blk_day b) (blk_idx b)
                       <$> (sts ≫= fun s => (fun d => VY s d) <$> ds))
               = sumZ (val <$> (sts ≫= fun s => (fun d => VY s d) <$> ds))).
  { apply sumZ_ext. intros v (s & (d & -> & _)%list_elem_of_fmap & _)%list_elem_of_bind.
    by apply clear_flag_other. }
  rewrite Hx, Hy.
  assert (sumZ (clear_flag val (blk_day b) (blk_idx b)
                  <$> ((fun b : block => VU (blk_day b) (blk_idx b)) <$> all_blocks ds))
          < sumZ (val <$> ((fun b : block => VU (blk_day b) (blk_idx b)) <$> all_blocks ds))).
  { apply (sumZ_lt _ _ _ (VU (blk_day b) (blk_idx b))).
    - intros v (b' & -> & Hb')%list_elem_of_fmap. unfold clear_flag.
      case_decide; [|lia]. destruct (binary_u val b' Hfeas Hb'); lia.
    - by apply (list_elem_of_fmap_2 (fun b : block => VU (blk_day b) (blk_idx b))).
    - unfold clear_flag. rewrite decide_True by done. lia. }
  unfold big_weight. lia.
Qed.

Lemma optimal_not_both val b :
  optimal (problem_of p df) val -> b ∈ all_blocks ds ->
  ¬ (assigned_count m val (blk_day b) (blk_idx b) >= 1 ∧
     uncovered_flag m val (blk_day b) (blk_idx b) = 1).
Proof using Hvs.
  intros [Hfeas Hopt] Hb [Hcount Hflag].
  rewrite uncovered_flag_closed in Hflag by done.
  apply assigned_count_pos in Hcount; [|done].
  pose proof (Hopt _ (clear_flag_feasible val b Hfeas Hb Hcount)).
  pose proof (clear_flag_objective val b Hfeas Hb Hflag). lia.
Qed.
End Coverage.

(** C2. For every block of a model [build_model] returns and every feasible assignment, the
    number of students assigned to the block plus the block's uncovered flag
    is at least 1.  In every optimal assignment the two do not hold together:
    a block with an assigned student has flag 0.  (A merely feasible
    assignment may flag a covered block, see [flagged_though_covered].) *)
Theorem coverage_or_flag df p m :
  build_model df p = Ret m ->
  ∀ b, b ∈ blks m ->
    (∀ val, feasible (prob m) val = true ->
       assigned_count m val (blk_day b) (blk_idx b)
         + uncovered_flag m val (blk_day b) (blk_idx b) >= 1 ∧
       (assigned_count m val (blk_day b) (blk_idx b) >= 1 ∨
        uncovered_flag m val (blk_day b) (blk_idx b) = 1)) ∧
    (∀ val, optimal (prob m) val ->
       ¬ (assigned_count m val (blk_day b) (blk_idx b) >= 1 ∧
          uncovered_flag m val (blk_day b) (blk_idx b) = 1)).
Proof.
  intros (vs & -> & Hvs & _)%build_model_Ret.
  cbn [prob blks]. intros b Hb. split.
  - intros val Hfeas.
    pose proof (count_plus_flag p df vs Hvs val b Hfeas Hb) as Hsum.
    split; [done|].
    rewrite (uncovered_flag_closed p df vs val b Hb) in Hsum |- *.
    destruct (binary_u p df val b Hfeas Hb) as [E|E]; [|by right].
    left. rewrite E in Hsum. lia.
  - intros val Hopt. by apply optimal_not_both.
Qed.

Lemma coverage_or_flag_witness :
  ∃ m, build_model roster1 default_params = Ret m ∧
    (∀ val, feasible (prob m) val = true ->
       assigned_count m val "Monday" 1 + uncovered_flag m val "Monday" 1 >= 1 ∧
       (assigned_count m val "Monday" 1 >= 1 ∨ uncovered_flag m val "Monday" 1 = 1)) ∧
    (∀ val, optimal (prob m) val ->
       ¬ (assigned_count m val "Monday" 1 >= 1 ∧ uncovered_flag m val "Monday" 1 = 1)).
Proof.
  destruct (build_model_distinct roster1 default_params (roster1_names _))
    as (vs & Hm & Hvs).
  eexists. split; [exact Hm|].
  apply (coverage_or_flag roster1 default_params _ Hm
           ("Monday", 1, mktime 8 30 0, mktime 9 30 0)).
  cbn [blks]. apply list_elem_of_In. vm_compute. tauto.
Defined.

(** A feasible assignment may flag a block that is covered: [val1] is
    feasible for [roster1] with the default parameters, block 1 of Monday has
    an assigned student and its uncovered flag is 1 as well. *)
Example flagged_though_covered :
  ∃ m, build_model roster1 default_params = Ret m ∧
       feasible (prob m) val1 = true ∧
       ("Monday", 1, mktime 8 30 0, mktime 9 30 0) ∈ blks m ∧
       assigned_count m val1 "Monday" 1 >= 1 ∧
       uncovered_flag m val1 "Monday" 1 = 1.
Proof.
  destruct (build_model_distinct roster1 default_params (roster1_names _))
    as (vs & Hm & Hvs).
  eexists. split; [exact Hm|]. cbn [prob blks].
  set (b := ("Monday", 1, mktime 8 30 0, mktime 9 30 0) : block).
  assert (Hb : b ∈ all_blocks (active_days roster1)).
  { apply list_elem_of_In. vm_compute. tauto. }
  split; [vm_compute; reflexivity|]. split; [exact Hb|]. split.
  - apply (assigned_count_pos default_params roster1 vs Hvs val1 b Hb).
    exists "A". split; [|reflexivity]. apply list_elem_of_In. vm_compute. tauto.
  - apply (uncovered_flag_closed default_params roster1 vs val1 b Hb).
Qed.

(** ** The objective and the weight of an uncovered block *)

Lemma sumZ_bind {A B} (f : B -> Z) (g : A -> list B) l :
  sumZ (f <$> (l ≫= g)) = sumZ ((fun a => sumZ (f <$> g a)) <$> l).
Proof.
  induction l as [|a l IH]; [done|].
  cbn [mbind list_bind]. fold (l ≫= g).
  by rewrite fmap_app, sumZ_app, fmap_cons, sumZ_cons, IH.
Qed.

Lemma sumZ_add {A} (f g : A -> Z) l :
  sumZ ((fun a => f a + g a) <$> l) = sumZ (f <$> l) + sumZ (g <$> l).
Proof.
  induction l as [|a l IH]; [done|]. rewrite !fmap_cons, !sumZ_cons, IH. lia.
Qed.

Lemma sumZ_swap {A B} (F : A -> B -> Z) la lb :
  sumZ ((fun a => sumZ ((fun b => F a b) <$> lb)) <$> la) =
  sumZ ((fun b => sumZ ((fun a => F a b) <$> la)) <$> lb).
Proof.
  induction la as [|a la IH].
  - simpl. induction lb as [|b lb IHb]; [done|]. rewrite fmap_cons, sumZ_cons. simpl in *. lia.
  - rewrite fmap_cons, sumZ_cons, IH, <- sumZ_add. apply sumZ_ext. intros b _.
    by rewrite fmap_cons, sumZ_cons.
Qed.

Lemma sumZ_const_le {A} (f : A -> Z) (c : Z) l :
  (∀ a, a ∈ l -> f a <= c) -> sumZ (f <$> l) <= c * Z.of_nat (length l).
Proof.
  induction l as [|a l IH]; intros Hf; [simpl; lia|].
  rewrite fmap_cons, sumZ_cons. cbn [length].
  pose proof (Hf a ltac:(left)). pose proof (IH (fun b Hb => Hf b ltac:(by right))). lia.
Qed.

Section Objective.
Variables (p : params) (df : list row).
Let ds := active_days df.
Let stus := students df.
Let idx := indices day_template.
Variable val : LpVariable -> Z.
Hypothesis Hfeas : feasible (problem_of p df) val = true.

Lemma objective_value val' :
  value val' (objective (problem_of p df)) =
  big_weight * sumZ (val' <$> us_all (all_blocks ds))
  + sumZ (val' <$> xs_all stus (all_blocks ds))
  + day_cost p * sumZ (val' <$> ys_all stus ds).
Proof.
  cbn [problem_of objective]. unfold objective_of.
  by rewrite !value_add, !value_scale, !value_lpSum.
Qed.

(** The staffing of one block is capped by [maxovl]. *)
Lemma ovl_holds b :
  b ∈ all_blocks ds ->
  sumZ (val <$> xs_of_students stus (blk_day b) (blk_idx b)) <= maxovl p.
Proof using Hfeas.
  intros Hb. pose proof Hfeas as [_ Hholds]%feasible_spec.
  pose proof (holds_LE _ _ (Hholds _ (ovl_in p df b Hb)) eq_refl) as E.
  unfold ovl_constraint in E. cbn [c_lhs c_rhs] in E.
  by rewrite value_lpSum, value_of_const in E.
Qed.

Lemma xs_total_by_block :
  sumZ (val <$> xs_all stus (all_blocks ds)) =
  sumZ ((fun b : block => sumZ (val <$> xs_of_students stus (blk_day b) (blk_idx b)))
          <$> all_blocks ds).
Proof.
  unfold xs_all. rewrite sumZ_bind.
  erewrite (sumZ_ext _ (fun s => sumZ ((fun b : block => val (VX s (blk_day b) (blk_idx b)))
                                         <$> all_blocks ds))).
  2:{ intros s _. unfold xs_of_blocks. by rewrite <- list_fmap_compose. }
  rewrite (sumZ_swap (fun s (b : block) => val (VX s (blk_day b) (blk_idx b)))).
  apply sumZ_ext. intros b _. unfold xs_of_students. by rewrite <- list_fmap_compose.
Qed.

Lemma xs_total_le :
  sumZ (val <$> xs_all stus (all_blocks ds))
  <= maxovl p * Z.of_nat (length (all_blocks ds)).
Proof using Hfeas.
  rewrite xs_total_by_block. apply sumZ_const_le. intros b Hb. by apply ovl_holds.
Qed.

Lemma xs_total_by_day :
  sumZ (val <$> xs_all stus (all_blocks ds)) =
  sumZ ((fun s => sumZ ((fun d => sumZ (val <$> (VX s d <$> idx))) <$> ds)) <$> stus).
Proof.
  unfold xs_all. rewrite sumZ_bind. apply sumZ_ext. intros s _.
  unfold xs_of_blocks, all_blocks. rewrite <- list_fmap_compose, sumZ_bind.
  apply sumZ_ext. intros d _. unfold idx, indices.
  rewrite <- !list_fmap_compose. apply sumZ_ext. by intros [[i st] et] _.
Qed.

(** A day worked has at least two blocks and at most four. *)
Lemma day_worked_blocks s d :
  s ∈ stus -> d ∈ ds ->
  2 * val (VY s d) <= sumZ (val <$> (VX s d <$> idx)) <= 4 * val (VY s d).
Proof using Hfeas.
  intros Hs Hd. pose proof Hfeas as [Hbin Hholds]%feasible_spec.
  cbn [problem_of constraints] in Hholds.
  assert (Hin : ∀ c, c ∈ shape_constraints s d idx -> c ∈ constraints_of p df)
    by (intros c; by apply shape_in).
  assert (Hsumx_in : sumx_constraint s d idx ∈ shape_constraints s d idx) by (right; left).
  assert (Hshifts_in : shifts_constraint s d idx ∈ shape_constraints s d idx) by left.
  assert (Hvars : constraint_vars (sumx_constraint s d idx) =
            (VX s d <$> idx) ++ s2_list s d idx ++ s3_list s d idx ++ s4_list s d idx).
  { unfold sumx_constraint. vars_norm. by rewrite <- app_assoc. }
  assert (Hnn : ∀ v, v ∈ (VX s d <$> idx) ++ s2_list s d idx ++ s3_list s d idx
                          ++ s4_list s d idx -> 0 <= val v).
  { intros v Hv. destruct (Hbin v); [|lia..].
    apply (elem_of_variables (problem_of p df) (sumx_constraint s d idx)); [by apply Hin|].
    by rewrite Hvars. }
  assert (N2 : 0 <= sumZ (val <$> s2_list s d idx)).
  { apply sumZ_nonneg. intros v Hv. apply Hnn. rewrite !elem_of_app. tauto. }
  assert (N3 : 0 <= sumZ (val <$> s3_list s d idx)).
  { apply sumZ_nonneg. intros v Hv. apply Hnn. rewrite !elem_of_app. tauto. }
  assert (N4 : 0 <= sumZ (val <$> s4_list s d idx)).
  { apply sumZ_nonneg. intros v Hv. apply Hnn. rewrite !elem_of_app. tauto. }
  pose proof (holds_EQ _ _ (Hholds _ (Hin _ Hshifts_in)) eq_refl) as E1.
  pose proof (holds_EQ _ _ (Hholds _ (Hin _ Hsumx_in)) eq_refl) as E2.
  unfold shifts_constraint in E1. unfold sumx_constraint in E2.
  cbn [c_lhs c_rhs] in E1, E2.
  rewrite value_lpSum, value_of_var, !fmap_app, !sumZ_app in E1.
  rewrite !value_add, !value_scale, !value_lpSum in E2. lia.
Qed.

Lemma ys_total_le :
  2 * sumZ (val <$> ys_all stus ds) <= sumZ (val <$> xs_all stus (all_blocks ds)).
Proof using Hfeas.
  rewrite xs_total_by_day. unfold ys_all. rewrite sumZ_bind.
  assert (Hmul : ∀ {A} (f : A -> Z) l, 2 * sumZ (f <$> l) = sumZ ((fun a => 2 * f a) <$> l)).
  { intros A f l. induction l as [|a l IH]; [done|]. rewrite !fmap_cons, !sumZ_cons. lia. }
  rewrite Hmul. apply sumZ_le. intros s Hs.
  rewrite <- list_fmap_compose, Hmul. apply sumZ_le. intros d Hd. simpl.
  by apply (day_worked_blocks s d).
Qed.

Lemma staffing_bound :
  0 <= day_cost p ->
  2 * (sumZ (val <$> xs_all stus (all_blocks ds))
       + day_cost p * sumZ (val <$> ys_all stus ds))
  <= (2 + day_cost p) * (maxovl p * Z.of_nat (length (all_blocks ds))).
Proof using Hfeas.
  intros Hdc. pose proof xs_total_le. pose proof ys_total_le. nia.
Qed.
End Objective.

Lemma length_all_blocks ds : length (all_blocks ds) = (10 * length ds)%nat.
Proof.
  unfold all_blocks. induction ds as [|d ds IH]; [done|].
  cbn [mbind list_bind]. fold (ds ≫= fun d => block_of d <$> day_template).
  rewrite length_app, IH, length_fmap. cbn [length]. change (length day_template) with 10%nat. lia.
Qed.

(** C6. The problem of [build_model] minimises one linear expression,
    [big_weight · Σu + Σx + day_cost · Σy], with [big_weight] the constant
    1000.  In every feasible assignment twice the two staffing terms is at
    most [(2 + day_cost) · maxovl · #blocks] (for [day_cost >= 0]); with the
    default parameters and at most five active days the staffing terms stay
    below [big_weight].  (For other parameters they need not, see
    [staffing_above_big_weight].) *)
Theorem objective_weights df p m :
  build_model df p = Ret m ->
  prob_sense (prob m) = LpMinimize ∧
  big_weight = 1000 ∧
  (∀ val, value val (objective (prob m)) =
          big_weight * sumZ (val <$> us_all (blks m))
          + sumZ (val <$> xs_all (stus m) (blks m))
          + day_cost p * sumZ (val <$> ys_all (stus m) (active_days df))) ∧
  (∀ val, feasible (prob m) val = true -> 0 <= day_cost p ->
     2 * (sumZ (val <$> xs_all (stus m) (blks m))
          + day_cost p * sumZ (val <$> ys_all (stus m) (active_days df)))
     <= (2 + day_cost p) * (maxovl p * Z.of_nat (length (blks m)))) ∧
  (p = default_params -> (length (active_days df) <= 5)%nat ->
   ∀ val, feasible (prob m) val = true ->
     sumZ (val <$> xs_all (stus m) (blks m))
     + day_cost p * sumZ (val <$> ys_all (stus m) (active_days df)) < big_weight).
Proof.
  intros (vs & -> & Hvs & _)%build_model_Ret.
  cbn [prob blks stus].
  split; [done|]. split; [done|]. split; [apply objective_value|].
  split.
  - intros val Hfeas Hdc. by apply staffing_bound.
  - intros -> Hdays val Hfeas.
    pose proof (staffing_bound default_params df val Hfeas ltac:(done)) as Hb.
    rewrite length_all_blocks in Hb. cbn [default_params day_cost maxovl] in *.
    unfold big_weight. lia.
Qed.

Lemma objective_weights_witness :
  ∃ m, build_model roster1 default_params = Ret m ∧
    prob_sense (prob m) = LpMinimize ∧
    big_weight = 1000 ∧
    (∀ val, value val (objective (prob m)) =
            big_weight * sumZ (val <$> us_all (blks m))
            + sumZ (val <$> xs_all (stus m) (blks m))
            + day_cost default_params * sumZ (val <$> ys_all (stus m) (active_days roster1))) ∧
    (∀ val, feasible (prob m) val = true -> 0 <= day_cost default_params ->
       2 * (sumZ (val <$> xs_all (stus m) (blks m))
            + day_cost default_params * sumZ (val <$> ys_all (stus m) (active_days roster1)))
       <= (2 + day_cost default_params)
          * (maxovl default_params * Z.of_nat (length (blks m)))) ∧
    (default_params = default_params -> (length (active_days roster1) <= 5)%nat ->
     ∀ val, feasible (prob m) val = true ->
       sumZ (val <$> xs_all (stus m) (blks m))
       + day_cost default_params * sumZ (val <$> ys_all (stus m) (active_days roster1))
       < big_weight).
Proof.
  destruct (build_model_distinct roster1 default_params (roster1_names _))
    as (vs & Hm & Hvs).
  eexists. split; [exact Hm|].
  exact (objective_weights roster1 default_params _ Hm).
Defined.

(** With [day_cost] 5000 the assignment [val1] is feasible for [roster1]
    and its two staffing terms exceed [big_weight]. *)
Example staffing_above_big_weight :
  ∃ m, build_model roster1 (mkParams 6 20 8 12 3 5000) = Ret m ∧
       feasible (prob m) val1 = true ∧
       big_weight <= sumZ (val1 <$> xs_all (stus m) (blks m))
                     + 5000 * sumZ (val1 <$> ys_all (stus m) (active_days roster1)).
Proof.
  destruct (build_model_distinct roster1 (mkParams 6 20 8 12 3 5000) (roster1_names _))
    as (vs & Hm & Hvs).
  eexists. split; [exact Hm|]. cbn [prob blks stus].
  split; [vm_compute; reflexivity|]. vm_compute. discriminate.
Qed.

(** ** The extraction monad *)

Lemma io_bind_Ret {A B} (m : io A) (f : A -> io B) log b log' :
  (m ≫= f) log = (Ret b, log') ->
  ∃ a log1, m log = (Ret a, log1) ∧ f a log1 = (Ret b, log').
Proof.
  unfold mbind, io_bind. destruct (m log) as [[a|e] log1]; [eauto|done].
Qed.

Lemma io_fmap_Ret {A B} (m : io A) (f : A -> B) log b log' :
  (f <$> m) log = (Ret b, log') -> ∃ a, m log = (Ret a, log') ∧ b = f a.
Proof.
  unfold fmap, io_fmap. destruct (m log) as [[a|e] log1]; [|done].
  intros [= <- <-]. eauto.
Qed.

Lemma mapM_io_Ret {A B} (f : A -> io B) (g : A -> B) l log r log' :
  (∀ a log1 ra log2, a ∈ l -> f a log1 = (Ret ra, log2) -> ra = g a) ->
  mapM f l log = (Ret r, log') -> r = g <$> l.
Proof.
  revert log r. induction l as [|a l IH]; intros log r Hf; cbn [mapM].
  - by intros [= <- _].
  - intros (ra & log1 & Ha & (k & log2 & Hk & [= <- ->])%io_bind_Ret)%io_bind_Ret.
    rewrite fmap_cons. f_equal.
    + apply (Hf a log ra log1); [left|done].
    + apply (IH log1 k); [|exact Hk]. intros b ? ? ? Hb. apply Hf. by right.
Qed.

Lemma for_collect_io_Ret {A B} (body : A -> io (list B)) (g : A -> list B) l log r log' :
  (∀ a log1 ra log2, a ∈ l -> body a log1 = (Ret ra, log2) -> ra = g a) ->
  for_collect l body log = (Ret r, log') -> r = l ≫= g.
Proof.
  intros Hf (ll & Hmap & ->)%io_fmap_Ret.
  rewrite (mapM_io_Ret _ g _ _ _ _ Hf Hmap). clear.
  induction l as [|a l IH]; [done|]. simpl. f_equal. apply IH.
Qed.

Lemma indep_ret {A} (a : A) : indep (mret a).
Proof. done. Qed.
Lemma indep_lift {A} (r : res A) : indep (lift r).
Proof. done. Qed.
Lemma indep_read out v : indep (read_value out v).
Proof. done. Qed.

Lemma indep_bind {A B} (m : io A) (f : A -> io B) :
  indep m -> (∀ a, indep (f a)) -> indep (m ≫= f).
Proof.
  intros Hm Hf log1 log2. unfold mbind, io_bind.
  specialize (Hm log1 log2).
  destruct (m log1) as [[a1|e1] l1], (m log2) as [[a2|e2] l2]; simpl in Hm; try done.
  - injection Hm as <-. apply Hf.
  - by injection Hm as <-.
Qed.

Lemma indep_fmap {A B} (m : io A) (f : A -> B) : indep m -> indep (f <$> m).
Proof.
  intros Hm log1 log2. unfold fmap, io_fmap. specialize (Hm log1 log2).
  destruct (m log1) as [[a1|e1] l1], (m log2) as [[a2|e2] l2]; simpl in *; congruence.
Qed.

Lemma indep_mapM {A B} (f : A -> io B) l : (∀ a, indep (f a)) -> indep (mapM f l).
Proof.
  intros Hf. induction l as [|a l IH]; cbn [mapM]; [apply indep_ret|].
  apply indep_bind; [done|]. intros b. apply indep_bind; [done|]. intros k. apply indep_ret.
Qed.

Lemma indep_for_collect {A B} (body : A -> io (list B)) l :
  (∀ a, indep (body a)) -> indep (for_collect l body).
Proof. intros Hb. by apply indep_fmap, indep_mapM. Qed.

Lemma indep_solve_and_extract solver prob x y u blks stus :
  indep (solve_and_extract solver prob x y u blks stus).
Proof.
  unfold solve_and_extract. case_decide; [apply indep_ret|].
  apply indep_bind.
  { apply indep_for_collect. intros s. apply indep_for_collect. intros [[[d i] st] et].
    apply indep_bind; [apply indep_lift|]. intros xv.
    apply indep_bind; [apply indep_read|]. intros val. case_decide; apply indep_ret. }
  intros rows. apply indep_bind; [apply indep_lift|]. intros sol.
  apply indep_bind.
  { apply indep_for_collect. intros [[[d i] st] et].
    apply indep_bind; [apply indep_lift|]. intros uv.
    apply indep_bind; [apply indep_read|]. intros val. case_decide; apply indep_ret. }
  intros urows. apply indep_ret.
Qed.

(** ** The order of the assigned table *)

Lemma daynum_compare_rank a b :
  daynum_compare (daymap a) (daymap b) = (day_rank a ?= day_rank b).
Proof. unfold day_rank, daymap. repeat case_decide; reflexivity. Qed.

Lemma row_le_spec a b : row_le a b = true <-> sorted_before a b.
Proof.
  unfold row_le, row_compare, sorted_before. rewrite daynum_compare_rank.
  destruct (Z.compare_spec (day_rank (a_day a)) (day_rank (a_day b))) as [E|L|G].
  - destruct (Z.compare_spec (a_blockidx a) (a_blockidx b)) as [E'|L'|G'].
    + fold (String.leb (a_student a) (a_student b)).
      split; [intros H; right; tauto|]. intros [?|[_ [?|[_ ?]]]]; [lia|lia|done].
    + split; [intros _; right; split; [done|by left]|done].
    + split; [done|]. intros [?|[_ [?|[? _]]]]; lia.
  - split; [by left|done].
  - split; [done|]. intros [?|[? _]]; lia.
Qed.

Lemma row_le_total a b : row_le a b = true ∨ row_le b a = true.
Proof.
  rewrite !row_le_spec. unfold sorted_before.
  destruct (Z.lt_trichotomy (day_rank (a_day a)) (day_rank (a_day b))) as [?|[Ed|?]];
    [left; by left| |right; by left].
  destruct (Z.lt_trichotomy (a_blockidx a) (a_blockidx b)) as [?|[Ei|?]];
    [left; right; split; [done|by left]| |right; right; split; [done|by left]].
  destruct (String.leb_total (a_student a) (a_student b)); [left|right];
    (right; split; [done|]; right; split; done).
Qed.

Lemma row_le_trans a b c : row_le a b = true -> row_le b c = true -> row_le a c = true.
Proof.
  rewrite !row_le_spec. unfold sorted_before.
  intros [?|[? [?|[? Hab]]]] [?|[? [?|[? Hbc]]]]; try lia.
  right. split; [lia|]. right. split; [lia|]. by eapply string_leb_trans.
Qed.

Lemma insert_sorted_head {A} (le : A -> A -> bool) a l :
  Forall (fun b => le a b = true) l -> insert_sorted le a l = a :: l.
Proof. destruct l as [|b l]; [done|]. intros [Hb _]%Forall_cons. simpl. by rewrite Hb. Qed.

(** Sorting a sorted list changes nothing. *)
Lemma sort_by_sorted_id {A} (le : A -> A -> bool) l :
  StronglySorted (fun a b => le a b = true) l -> sort_by le l = l.
Proof.
  induction 1 as [|a l Hl IH Ha]; [done|]. simpl. rewrite IH. by apply insert_sorted_head.
Qed.

Lemma records_add_totalhrs rows :
  records (add_totalhrs (frame_of assigned_labels rows)) = with_total rows <$> rows.
Proof.
  destruct rows as [|r rows]; [reflexivity|].
  unfold add_totalhrs, frame_of, empty. cbn [columns records].
  rewrite bool_decide_eq_false_2; [done|]. by intros [|].
Qed.

Lemma sort_nicely_Ret df sol :
  sort_nicely df = Ret sol -> records sol = sort_by row_le (records df).
Proof.
  unfold sort_nicely. destruct (get_column "Day" df); [|done]. cbn [mbind res_bind].
  destruct (get_column "BlockIdx" _); [|done]. cbn [mbind res_bind].
  destruct (get_column "Student" _); [|done]. cbn [mbind res_bind].
  unfold drop_column. case_decide; [|done]. by intros [= <-].
Qed.

Lemma rows_collected (out : outcome) (x : gmap key3 LpVariable) (blks : list block)
    (stus : list string) (log : list LpVariable) rows log' :
  for_collect stus (fun s =>
    for_collect blks (fun b : block =>
      let '(d, i, st, et) := b in
      xv ← lift (getitem x (s, d, i));
      val ← read_value out xv;
      if decide (val = Some 1)
      then mret [mkAssigned s d i (strftime_HM st) (strftime_HM et) 0]
      else mret [])) log = (Ret rows, log') ->
  rows = assigned_rows out x blks stus.
Proof.
  apply for_collect_io_Ret. intros s log1 rs log2 _.
  apply for_collect_io_Ret. intros [[[d i] st] et] log3 rb log4 _.
  cbn [blk_day blk_idx fst snd]. unfold mbind, io_bind, lift, getitem, read_value.
  unfold key3 in *.
  destruct (x !! (s, d, i)) as [xv|]; [|by intros [=]].
  unfold row_of. cbn [blk_day blk_idx blk_start blk_end fst snd].
  case_decide; unfold mret, io_ret; by intros [= <- _].
Qed.

Lemma sort_nicely_no_rows : sort_nicely (add_totalhrs (frame_of assigned_labels [])) = Raise KeyError.
Proof. reflexivity. Qed.

Lemma sort_nicely_rows r rows :
  sort_nicely (add_totalhrs (frame_of assigned_labels (r :: rows))) =
  Ret (mkFrame (assigned_labels ++ ["TotalHrs"])
         (sort_by row_le (with_total (r :: rows) <$> r :: rows))).
Proof.
  unfold sort_nicely, add_totalhrs, frame_of, empty. cbn [columns records].
  rewrite bool_decide_eq_false_2 by (by intros [|]). reflexivity.
Qed.

Lemma mapM_io_Raise {A B} (f : A -> io B) l log e log' :
  mapM f l log = (Raise e, log') -> ∃ a log1 log2, a ∈ l ∧ f a log1 = (Raise e, log2).
Proof.
  revert log. induction l as [|a l IH]; intros log; cbn [mapM]; [by intros [=]|].
  unfold mbind at 1, io_bind at 1.
  destruct (f a log) as [[b|e1] log1] eqn:Ea.
  - unfold mbind at 1, io_bind at 1.
    destruct (mapM f l log1) as [[k|e2] log2] eqn:Ek; [by intros [=]|].
    intros [= <- <-]. destruct (IH _ Ek) as (a' & l1 & l2 & Ha' & Hf).
    exists a', l1, l2. split; [by right|done].
  - intros [= <- <-]. exists a, log, log1. split; [left|done].
Qed.

Lemma for_collect_io_Raise {A B} (body : A -> io (list B)) l log e log' :
  for_collect l body log = (Raise e, log') ->
  ∃ a log1 log2, a ∈ l ∧ body a log1 = (Raise e, log2).
Proof.
  unfold for_collect, fmap, io_fmap.
  destruct (mapM body l log) as [[k|e1] log1] eqn:E; [by intros [=]|].
  intros [= <- <-]. by eapply mapM_io_Raise.
Qed.

(** A loop whose passes all return and log their reads. *)
Lemma mapM_io_writes {A B} (f : A -> io B) (g : A -> B) (h : A -> list LpVariable) l log :
  (∀ a log1, a ∈ l -> f a log1 = (Ret (g a), log1 ++ h a)) ->
  mapM f l log = (Ret (g <$> l), log ++ (l ≫= h)).
Proof.
  revert log. induction l as [|a l IH]; intros log Hf; cbn [mapM].
  - simpl. by rewrite app_nil_r.
  - unfold mbind at 1, io_bind at 1. rewrite Hf by left.
    unfold mbind at 1, io_bind at 1. rewrite IH by (intros b l1 Hb; apply Hf; by right).
    cbn. by rewrite <- app_assoc.
Qed.

Lemma for_collect_io_writes {A B} (body : A -> io (list B)) (g : A -> list B)
    (h : A -> list LpVariable) l log :
  (∀ a log1, a ∈ l -> body a log1 = (Ret (g a), log1 ++ h a)) ->
  for_collect l body log = (Ret (l ≫= g), log ++ (l ≫= h)).
Proof.
  intros Hb. unfold for_collect, fmap, io_fmap. rewrite (mapM_io_writes _ g h) by done.
  f_equal. f_equal. clear. induction l as [|a l IH]; [done|]. simpl. f_equal. apply IH.
Qed.

Lemma urows_collected (out : outcome) (u : gmap (string * Z) LpVariable) (blks : list block)
    (log : list LpVariable) rows log' :
  for_collect blks (fun b : block =>
    let '(d, i, st, et) := b in
    uv ← lift (getitem u (d, i));
    val ← read_value out uv;
    if decide (val = Some 1)
    then mret [mkUncovered d i (strftime_HM st) (strftime_HM et) "Uncovered"]
    else mret []) log = (Ret rows, log') ->
  rows = uncovered_rows out u blks.
Proof.
  apply for_collect_io_Ret. intros [[[d i] st] et] log3 rb log4 _.
  cbn [blk_day blk_idx fst snd]. unfold mbind, io_bind, lift, getitem, read_value.
  destruct (u !! (d, i)) as [uv|]; [|by intros [=]].
  unfold uncovered_of. cbn [blk_day blk_idx blk_start blk_end fst snd].
  case_decide; unfold mret, io_ret; by intros [= <- _].
Qed.

(** What [solve_and_extract] returns when it returns two tables. *)
Lemma solve_and_extract_Some solver prob x y u blks stus log sol unc log' :
  solve_and_extract solver prob x y u blks stus log = (Ret (Some (sol, unc)), log') ->
  status (solver prob) ∈ ["Optimal"; "Feasible"] ∧
  sort_nicely (add_totalhrs (frame_of assigned_labels
                 (assigned_rows (solver prob) x blks stus))) = Ret sol ∧
  unc = frame_of uncovered_labels (uncovered_rows (solver prob) u blks).
Proof.
  unfold solve_and_extract. case_decide as Hst; [by intros [=]|].
  intros (rows & log1 & Hrows & (sol' & log2 & Hsort &
            (urows & log3 & Hurows & Hret)%io_bind_Ret)%io_bind_Ret)%io_bind_Ret.
  apply rows_collected in Hrows as ->. apply urows_collected in Hurows as ->.
  unfold lift in Hsort. injection Hsort as Hsort _.
  unfold mret, io_ret in Hret. injection Hret as <- <- _.
  split; [|by split].
  destruct (decide (status (solver prob) ∈ ["Optimal"; "Feasible"])); done.
Qed.

(** [solve_and_extract] when every key it looks up is present. *)
Lemma solve_and_extract_present (solver : LpProblem -> outcome) (prob : LpProblem)
    (x : gmap key3 LpVariable) (y : gmap key2 LpVariable) (u : gmap (string * Z) LpVariable)
    (blks : list block) (stus : list string) (log : list LpVariable) :
  status (solver prob) ∈ ["Optimal"; "Feasible"] ->
  (∀ s b, s ∈ stus -> b ∈ blks -> is_Some (x !! (s, blk_day b, blk_idx b))) ->
  (∀ b, b ∈ blks -> is_Some (u !! (blk_day b, blk_idx b))) ->
  solve_and_extract solver prob x y u blks stus log =
  match sort_nicely (add_totalhrs (frame_of assigned_labels
                       (assigned_rows (solver prob) x blks stus))) with
  | Ret sol =>
    (Ret (Some (sol, frame_of uncovered_labels (uncovered_rows (solver prob) u blks))),
     log ++ x_reads x blks stus ++ u_reads u blks)
  | Raise e => (Raise e, log ++ x_reads x blks stus)
  end.
Proof.
  intros Hst Hx Hu. unfold solve_and_extract. rewrite decide_False by (by intros []).
  unfold mbind at 1, io_bind at 1.
  rewrite (for_collect_io_writes _
    (fun s => blks ≫= fun b : block =>
       match x !! (s, blk_day b, blk_idx b) with
       | Some xv => if decide (varValue (solver prob) xv = Some 1) then [row_of s b] else []
       | None => []
       end)
    (fun s => blks ≫= fun b : block =>
       match x !! (s, blk_day b, blk_idx b) with Some xv => [xv] | None => [] end)).
  2:{ intros s log1 Hs. apply for_collect_io_writes. intros [[[d i] st] et] log2 Hb.
      destruct (Hx s _ Hs Hb) as [xv Hxv]. cbn [blk_day blk_idx fst snd] in *.
      unfold mbind, io_bind, lift, getitem, read_value, key3 in *. rewrite Hxv.
      unfold row_of. cbn [blk_day blk_idx blk_start blk_end fst snd].
      by case_decide. }
  fold (assigned_rows (solver prob) x blks stus). fold (x_reads x blks stus).
  unfold mbind at 1, io_bind at 1, lift at 1.
  destruct (sort_nicely _) as [sol|e]; [|done].
  unfold mbind at 1, io_bind at 1.
  rewrite (for_collect_io_writes _
    (fun b : block =>
       match u !! (blk_day b, blk_idx b) with
       | Some uv => if decide (varValue (solver prob) uv = Some 1) then [uncovered_of b] else []
       | None => []
       end)
    (fun b : block => match u !! (blk_day b, blk_idx b) with Some uv => [uv] | None => [] end)).
  2:{ intros [[[d i] st] et] log2 Hb.
      destruct (Hu _ Hb) as [uv Huv]. cbn [blk_day blk_idx fst snd] in *.
      unfold mbind, io_bind, lift, getitem, read_value in *. rewrite Huv.
      unfold uncovered_of. cbn [blk_day blk_idx blk_start blk_end fst snd].
      by case_decide. }
  fold (uncovered_rows (solver prob) u blks). fold (u_reads u blks).
  unfold mret, io_ret. by rewrite <- app_assoc.
Qed.

Lemma length_filter_fmap {A B} (f : A -> B) (P : B -> Prop) `{!∀ b, Decision (P b)} l :
  length (filter P (f <$> l)) = length (filter (fun a => P (f a)) l).
Proof.
  induction l as [|a l IH]; [done|]. rewrite fmap_cons, !filter_cons.
  destruct (decide (P (f a))); simpl; by rewrite IH.
Qed.

Lemma StronglySorted_weaken {A} (R1 R2 : A -> A -> Prop) l :
  (∀ a b, R1 a b -> R2 a b) -> StronglySorted R1 l -> StronglySorted R2 l.
Proof.
  intros HR. induction 1 as [|a l Hl IH Ha]; constructor; [done|].
  eapply Forall_impl; [exact Ha|]. intros b. apply HR.
Qed.

Lemma assigned_table_records (solver : LpProblem -> outcome) (prob : LpProblem)
    (x : gmap key3 LpVariable) (y : gmap key2 LpVariable) (u : gmap (string * Z) LpVariable)
    (blks : list block) (stus : list string) (log : list LpVariable) sol unc log' :
  solve_and_extract solver prob x y u blks stus log = (Ret (Some (sol, unc)), log') ->
  records sol = sort_by row_le (with_total (assigned_rows (solver prob) x blks stus)
                                  <$> assigned_rows (solver prob) x blks stus).
Proof.
  intros (_ & Hsort%sort_nicely_Ret & _)%solve_and_extract_Some.
  by rewrite records_add_totalhrs in Hsort.
Qed.

Lemma solve_and_extract_no_rows (solver : LpProblem -> outcome) (prob : LpProblem)
    (x : gmap key3 LpVariable) (y : gmap key2 LpVariable) (u : gmap (string * Z) LpVariable)
    (blks : list block) (stus : list string) (log : list LpVariable) :
  status (solver prob) ∈ ["Optimal"; "Feasible"] ->
  assigned_rows (solver prob) x blks stus = [] ->
  (solve_and_extract solver prob x y u blks stus log).1 = Raise KeyError.
Proof.
  intros Hst Hnone. unfold solve_and_extract. rewrite decide_False by (by intros []).
  unfold mbind at 1, io_bind at 1.
  match goal with |- context [for_collect stus ?body log] =>
    destruct (for_collect stus body log) as [[rows|e] log1] eqn:E end.
  - apply rows_collected in E. rewrite Hnone in E. subst rows. reflexivity.
  - simpl. f_equal.
    apply for_collect_io_Raise in E as (s & l1 & l2 & _ & E).
    apply for_collect_io_Raise in E as ([[[d i] st] et] & l3 & l4 & _ & E).
    revert E. unfold mbind, io_bind, lift, getitem, read_value, key3 in *.
    destruct (x !! (s, d, i)); [|by intros [= <- _]].
    case_decide; unfold mret, io_ret; by intros [=].
Qed.

(** * Further properties of the code *)

(** X2. [solve_and_extract] returns [None] exactly when the status is
    neither Optimal nor Feasible, and then it has read no value (the log of
    reads is unchanged); with a usable status it never returns [None]. *)
Theorem unusable_status_reads_nothing (solver : LpProblem -> outcome) (prob : LpProblem)
    (x : gmap key3 LpVariable) (y : gmap key2 LpVariable) (u : gmap (string * Z) LpVariable)
    (blks : list block) (stus : list string) (log : list LpVariable) :
  (status (solver prob) ∉ ["Optimal"; "Feasible"] ->
     solve_and_extract solver prob x y u blks stus log = (Ret None, log)) ∧
  (status (solver prob) ∈ ["Optimal"; "Feasible"] ->
     (solve_and_extract solver prob x y u blks stus log).1 ≠ Ret None).
Proof.
  split; intros Hst.
  - unfold solve_and_extract. by rewrite decide_True.
  - destruct (solve_and_extract solver prob x y u blks stus log) as [r log'] eqn:E.
    simpl. intros ->. revert E. unfold solve_and_extract.
    rewrite decide_False by (by intros []).
    intros (rows & log1 & _ & (sol' & log2 & _ &
              (urows & log3 & _ & Hret)%io_bind_Ret)%io_bind_Ret)%io_bind_Ret.
    unfold mret, io_ret in Hret. by injection Hret.
Qed.

(** C9. When [solve_and_extract] returns its tables, the assigned table
    holds exactly the collected rows (one per student and block whose [x] is
    1), each with its total, ordered by day rank (Monday to Friday, any other
    label last), then block index, then student name; sorting it again
    changes nothing. *)
Theorem assigned_table_sorted (solver : LpProblem -> outcome) (prob : LpProblem)
    (x : gmap key3 LpVariable) (y : gmap key2 LpVariable) (u : gmap (string * Z) LpVariable)
    (blks : list block) (stus : list string) (log : list LpVariable) sol unc log' :
  solve_and_extract solver prob x y u blks stus log = (Ret (Some (sol, unc)), log') ->
  records sol ≡ₚ with_total (assigned_rows (solver prob) x blks stus)
                   <$> assigned_rows (solver prob) x blks stus ∧
  StronglySorted sorted_before (records sol) ∧
  sort_by row_le (records sol) = records sol.
Proof.
  intros Hsort%assigned_table_records. rewrite Hsort.
  assert (Hs : StronglySorted (fun a b => row_le a b = true)
                 (sort_by row_le (with_total (assigned_rows (solver prob) x blks stus)
                                    <$> assigned_rows (solver prob) x blks stus))).
  { apply sort_by_sorted; [apply row_le_total|apply row_le_trans]. }
  split; [apply sort_by_perm|]. split.
  - eapply StronglySorted_weaken; [|exact Hs]. intros a b. apply row_le_spec.
  - by apply sort_by_sorted_id.
Qed.

Lemma assigned_table_sorted_witness :
  ∃ sol unc log',
    solve_and_extract (all_ones "Optimal") empty_problem tiny_x ∅ tiny_u tiny_blks tiny_stus []
      = (Ret (Some (sol, unc)), log') ∧
    records sol =
      [mkAssigned "A" "Monday" 1 "08:30" "09:30" 2; mkAssigned "B" "Monday" 1 "08:30" "09:30" 2;
       mkAssigned "A" "Tuesday" 0 "07:30" "08:30" 2; mkAssigned "B" "Tuesday" 0 "07:30" "08:30" 2] ∧
    StronglySorted sorted_before (records sol).
Proof.
  eexists _, _, _.
  match goal with |- ?E ∧ _ => assert (H : E) by (vm_compute; reflexivity) end.
  split; [exact H|]. split; [reflexivity|].
  exact (proj1 (proj2 (assigned_table_sorted _ _ _ _ _ _ _ _ _ _ _ H))).
Defined.

(** X3. With a usable status, when no [x] read has the value 1 the
    function does not return an empty assigned table: the frame built from no
    row has no column ['Day'] and the sort raises [KeyError] (before the
    uncovered table is built). *)
Theorem no_assignment_raises (solver : LpProblem -> outcome) (prob : LpProblem)
    (x : gmap key3 LpVariable) (y : gmap key2 LpVariable) (u : gmap (string * Z) LpVariable)
    (blks : list block) (stus : list string) (log : list LpVariable) :
  status (solver prob) ∈ ["Optimal"; "Feasible"] ->
  assigned_rows (solver prob) x blks stus = [] ->
  (solve_and_extract solver prob x y u blks stus log).1 = Raise KeyError.
Proof.
  apply solve_and_extract_no_rows.
Qed.

Lemma no_assignment_raises_witness :
  (solve_and_extract (all_zeros "Optimal") empty_problem tiny_x ∅ tiny_u tiny_blks tiny_stus []).1
  = Raise KeyError.
Proof.
  apply (no_assignment_raises (all_zeros "Optimal") empty_problem tiny_x ∅ tiny_u
           tiny_blks tiny_stus []).
  - left.
  - vm_compute. reflexivity.
Defined.

(** X4. In the assigned table the ['TotalHrs'] of a row is the number of
    rows of the table that carry the row's student. *)
Theorem total_hours_counts_rows (solver : LpProblem -> outcome) (prob : LpProblem)
    (x : gmap key3 LpVariable) (y : gmap key2 LpVariable) (u : gmap (string * Z) LpVariable)
    (blks : list block) (stus : list string) (log : list LpVariable) sol unc log' :
  solve_and_extract solver prob x y u blks stus log = (Ret (Some (sol, unc)), log') ->
  ∀ r, r ∈ records sol ->
    a_totalhrs r =
    Z.of_nat (length (filter (fun r' => a_student r' = a_student r) (records sol))).
Proof.
  intros Hrun r Hr.
  apply assigned_table_records in Hrun.
  assert (Hperm := sort_by_perm row_le (with_total (assigned_rows (solver prob) x blks stus)
                                  <$> assigned_rows (solver prob) x blks stus)).
  rewrite <- Hrun in Hperm. rewrite Hperm in Hr |- *.
  apply list_elem_of_fmap in Hr as (r0 & -> & Hr0).
  unfold with_total at 1. cbn [a_totalhrs a_student]. f_equal.
  rewrite length_filter_fmap. reflexivity.
Qed.

Lemma total_hours_counts_rows_witness :
  ∃ sol unc log',
    solve_and_extract (all_ones "Optimal") empty_problem tiny_x ∅ tiny_u tiny_blks tiny_stus []
      = (Ret (Some (sol, unc)), log') ∧
    ∀ r, r ∈ records sol ->
      a_totalhrs r =
      Z.of_nat (length (filter (fun r' => a_student r' = a_student r) (records sol))).
Proof.
  eexists _, _, _.
  match goal with |- ?E ∧ _ => assert (H : E) by (vm_compute; reflexivity) end.
  split; [exact H|].
  exact (total_hours_counts_rows _ _ _ _ _ _ _ _ _ _ _ H).
Defined.

(** ** The extraction when nobody is assigned *)

Lemma bind_nil_all {A B} (f : A -> list B) l : (∀ a, a ∈ l -> f a = []) -> l ≫= f = [].
Proof.
  induction l as [|a l IH]; intros Hf; [done|].
  rewrite bind_cons, Hf by left. apply IH. intros b Hb. apply Hf. by right.
Qed.

Lemma assigned_rows_none (out : outcome) (x : gmap key3 LpVariable) blks stus :
  (∀ s b xv, x !! (s, blk_day b, blk_idx b) = Some xv -> varValue out xv ≠ Some 1) ->
  assigned_rows out x blks stus = [].
Proof.
  intros Hx. unfold assigned_rows. apply bind_nil_all. intros s _.
  apply bind_nil_all. intros b _. unfold key3 in *.
  destruct (x !! (s, blk_day b, blk_idx b)) as [xv|] eqn:E; [|done].
  rewrite decide_False; [done|]. by eapply Hx.
Qed.

Lemma no_overlap_no_assignment p df val s b :
  maxovl p = 0 -> feasible (problem_of p df) val = true ->
  s ∈ students df -> b ∈ all_blocks (active_days df) ->
  val (VX s (blk_day b) (blk_idx b)) = 0.
Proof.
  intros Hcap Hfeas Hs Hb.
  pose proof (ovl_holds p df val Hfeas b Hb) as Hsum. rewrite Hcap in Hsum.
  assert (Hnn : ∀ v, v ∈ xs_of_students (students df) (blk_day b) (blk_idx b) -> 0 <= val v).
  { intros v (s' & -> & Hs')%list_elem_of_fmap.
    destruct (binary_x p df val b s' Hfeas Hb Hs') as [E|E]; rewrite E; lia. }
  pose proof (sumZ_ge_elem val _ (VX s (blk_day b) (blk_idx b)) Hnn) as Hle.
  specialize (Hnn (VX s (blk_day b) (blk_idx b))).
  assert (Hin : VX s (blk_day b) (blk_idx b)
                  ∈ xs_of_students (students df) (blk_day b) (blk_idx b)).
  { apply list_elem_of_fmap. by exists s. }
  specialize (Hle Hin). specialize (Hnn Hin). lia.
Qed.

(** C7. With the cap [maxovl] at 0 every feasible assignment of the model
    of [roster1] assigns nobody, and [idle] is one.  When the solver reports
    it with status Optimal, the extraction does not return its two tables:
    no row is collected, the frame built from no row has no column ['Day']
    (the branch [sol_df["TotalHrs"] = 0] adds only that column), and the sort
    raises [KeyError]. *)
Theorem extraction_without_assignment :
  ∃ m, build_model roster1 idle_params = Ret m ∧
    feasible (prob m) idle = true ∧
    (∀ val, feasible (prob m) val = true ->
       ∀ v, v ∈ xs_all (stus m) (blks m) -> val v = 0) ∧
    status (idle_solver (prob m)) = "Optimal" ∧
    (build_and_extract idle_solver roster1 idle_params []).1 = Raise KeyError.
Proof.
  destruct (build_model_distinct roster1 idle_params (roster1_names _)) as (vs & Hm & Hvs).
  eexists. split; [exact Hm|]. cbn [prob stus blks].
  split; [vm_compute; reflexivity|]. split; [|split; [reflexivity|]].
  - intros val Hfeas v (s & (b & -> & Hb)%list_elem_of_fmap & Hs)%list_elem_of_bind.
    by apply (no_overlap_no_assignment idle_params roster1).
  - unfold build_and_extract, mbind, io_bind, lift. rewrite Hm.
    cbn [prob x_dict y_dict u_dict blks stus].
    apply solve_and_extract_no_rows; [left|].
    apply assigned_rows_none. intros s b xv Hxv.
    destruct Hvs as (Hx & _). apply Hx in Hxv as [_ ->]. done.
Qed.

(** ** Input faults *)

Lemma mapM_res_Raise {A B} (f : A -> res B) l a e :
  a ∈ l -> f a = Raise e -> ∃ e', mapM f l = Raise e'.
Proof.
  intros Ha Hf. induction l as [|b l IH]; [by apply elem_of_nil in Ha|].
  cbn [mapM]. destruct (f b) as [r|e1] eqn:Eb; [|by exists e1].
  cbn [mbind res_bind]. apply elem_of_cons in Ha as [->|Ha]; [congruence|].
  destruct (IH Ha) as [e' ->]. by exists e'.
Qed.

Lemma block_of_label df r (b : dayblock) :
  r ∈ df -> b ∈ day_template -> block_of (day_of_week r) b ∈ all_blocks (active_days df).
Proof.
  intros Hr Hb. apply block_in_all; [|done]. apply elem_of_active_days. eauto.
Qed.

(** C8. A time cell that [to_time] rejects makes [loaddata] raise, and
    then no model is built.  An empty sheet is loaded as the empty roster,
    for which [build_model] returns a model without blocks and students.  A
    day label is never checked: in every model [build_model] returns, every
    label of the roster has its ten blocks. *)
Theorem input_faults (to_time : string -> res time) (sheet : list sheet_row) (p : params) :
  (∀ r, r ∈ sheet ->
     (∃ e, to_time (raw_start r) = Raise e) ∨ (∃ e, to_time (raw_end r) = Raise e) ->
     ∃ e, loaddata to_time sheet = Raise e ∧ load_and_build to_time sheet p = Raise e) ∧
  (∃ m, load_and_build to_time [] p = Ret m ∧ blks m = [] ∧ stus m = [] ∧
        variables (prob m) = []) ∧
  (∀ df m, build_model df p = Ret m ->
     ∀ r (b : dayblock), r ∈ df -> b ∈ day_template -> block_of (day_of_week r) b ∈ blks m).
Proof.
  split; [|split].
  - intros r Hr Hbad. unfold load_and_build, loaddata.
    destruct (mapM (fun r => to_time (raw_start r)) sheet) as [starts|e1] eqn:Es;
      [|by exists e1].
    cbn [mbind res_bind].
    destruct (mapM (fun r => to_time (raw_end r)) sheet) as [ends|e2] eqn:Ee;
      [|by exists e2].
    exfalso. destruct Hbad as [[e He]|[e He]].
    + destruct (mapM_res_Raise (fun r => to_time (raw_start r)) sheet r e Hr He). congruence.
    + destruct (mapM_res_Raise (fun r => to_time (raw_end r)) sheet r e Hr He). congruence.
  - destruct (build_model_distinct [] p) as (vs & Hm & Hvs).
    { apply (bool_decide_unpack (NoDup _)). vm_compute. exact I. }
    eexists. split; [exact Hm|]. done.
  - intros df m (vs & -> & _)%build_model_Ret r b Hr Hb. cbn [blks].
    by apply block_of_label.
Qed.

(** The empty roster and a roster with the day label Funday are accepted:
    a model is built for each. *)
Example faulty_rosters_accepted :
  (∃ m, load_and_build strptime_HMS [] default_params = Ret m ∧
        blks m = [] ∧ stus m = []) ∧
  (∃ m, load_and_build strptime_HMS [mkSheetRow "A" "Funday" "09:00:00" "10:00:00"]
          default_params = Ret m ∧
        blks m = hour_blocks "Funday" (mktime 7 30 0) 0 10 ∧ stus m = ["A"]).
Proof.
  split.
  - destruct (build_model_distinct [] default_params) as (vs & Hm & Hvs).
    { apply (bool_decide_unpack (NoDup _)). vm_compute. exact I. }
    eexists. split; [exact Hm|]. done.
  - destruct (build_model_distinct funday_roster default_params) as (vs & Hm & Hvs).
    { apply (bool_decide_unpack (NoDup _)). vm_compute. exact I. }
    eexists. split; [exact Hm|]. done.
Qed.

(** ** Names that coincide *)


(** ** Caps and bounds on the hours *)

Lemma count_sum {A} (f : A -> Z) l :
  (∀ a, a ∈ l -> f a = 0 ∨ f a = 1) ->
  Z.of_nat (length (filter (fun a => f a = 1) l)) = sumZ (f <$> l).
Proof.
  induction l as [|a l IH]; intros Hf; [done|].
  rewrite filter_cons, fmap_cons, sumZ_cons, <- IH by (intros b Hb; apply Hf; by right).
  destruct (Hf a ltac:(left)) as [E|E]; rewrite E.
  - by rewrite decide_False.
  - rewrite decide_True by done. cbn [length]. lia.
Qed.

Lemma weekly_in p df s c :
  s ∈ students df -> c ∈ weekly_constraints p (all_blocks (active_days df)) s ->
  c ∈ constraints_of p df.
Proof.
  intros Hs Hc. unfold constraints_of. rewrite !elem_of_app. do 2 right. left.
  apply list_elem_of_bind. by exists s.
Qed.

Lemma average_in p df c :
  c ∈ average_constraints p (students df) (all_blocks (active_days df)) ->
  c ∈ constraints_of p df.
Proof. intros Hc. unfold constraints_of. rewrite !elem_of_app. do 3 right. by left. Qed.

Section Hours.
Variables (p : params) (df : list row) (vs : vars).
Let ds := active_days df.
Let sts := students df.
Let m := mkModel (problem_of p df) (x_vars vs) (y_vars vs)
           (create_u (all_blocks ds)) (all_blocks ds) sts.
Hypothesis Hvs :
  vars_inv (indices day_template) (sts ≫= fun s => (fun d => (s, d)) <$> ds) vs.
Variable val : LpVariable -> Z.
Hypothesis Hfeas : feasible (problem_of p df) val = true.

Lemma assigned_count_sum b :
  b ∈ all_blocks ds ->
  assigned_count m val (blk_day b) (blk_idx b) =
  sumZ (val <$> xs_of_students sts (blk_day b) (blk_idx b)).
Proof using Hvs Hfeas.
  intros Hb. unfold assigned_count, xs_of_students. cbn [stus m].
  rewrite <- list_fmap_compose.
  rewrite <- (count_sum (fun s => val (VX s (blk_day b) (blk_idx b))))
    by (intros s Hs; by apply (binary_x p df val b s)).
  do 2 f_equal. apply filter_ext_elem. intros s Hs. unfold m, ds, sts in *.
  rewrite (is_assigned_closed p df vs Hvs val b s Hb Hs). apply bool_decide_eq_true.
Qed.

Lemma hours_sum s :
  s ∈ sts -> hours m val s = sumZ (val <$> xs_of_blocks s (all_blocks ds)).
Proof using Hvs Hfeas.
  intros Hs. unfold hours, xs_of_blocks. cbn [blks m].
  rewrite <- list_fmap_compose.
  rewrite <- (count_sum (fun b : block => val (VX s (blk_day b) (blk_idx b))))
    by (intros b Hb; by apply (binary_x p df val b s)).
  do 2 f_equal. apply filter_ext_elem. intros b Hb. unfold m, ds, sts in *.
  rewrite (is_assigned_closed p df vs Hvs val b s Hb Hs). apply bool_decide_eq_true.
Qed.

Lemma weekly_holds s :
  s ∈ sts -> minh p <= sumZ (val <$> xs_of_blocks s (all_blocks ds)) <= maxh p.
Proof using Hfeas.
  intros Hs. pose proof Hfeas as [_ Hholds]%feasible_spec.
  cbn [problem_of constraints] in Hholds.
  assert (Hin : ∀ c, c ∈ weekly_constraints p (all_blocks ds) s -> c ∈ constraints_of p df)
    by (intros c; by apply weekly_in).
  pose proof (holds_GE _ _ (Hholds _ (Hin _ ltac:(left))) eq_refl) as E1.
  pose proof (holds_LE _ _ (Hholds _ (Hin _ ltac:(right; left))) eq_refl) as E2.
  cbn [c_lhs c_rhs] in E1, E2. rewrite value_lpSum, value_of_const in E1, E2. lia.
Qed.

Lemma average_holds :
  avg_low p * Z.of_nat (length sts) <= sumZ (val <$> xs_all sts (all_blocks ds))
  <= avg_high p * Z.of_nat (length sts).
Proof using Hfeas.
  pose proof Hfeas as [_ Hholds]%feasible_spec.
  cbn [problem_of constraints] in Hholds.
  pose proof (holds_GE _ _ (Hholds _ (average_in p df _ ltac:(left))) eq_refl) as E1.
  pose proof (holds_LE _ _ (Hholds _ (average_in p df _ ltac:(right; left))) eq_refl) as E2.
  cbn [c_lhs c_rhs] in E1, E2. rewrite value_lpSum, value_of_const in E1, E2.
  unfold sts, ds. lia.
Qed.

Lemma total_hours_sum :
  sumZ (hours m val <$> sts) = sumZ (val <$> xs_all sts (all_blocks ds)).
Proof using Hvs Hfeas.
  unfold xs_all. rewrite sumZ_bind. apply sumZ_ext. intros s Hs. by apply hours_sum.
Qed.
End Hours.

(** X6. In every feasible assignment of a model [build_model] returns, at
    most [maxovl] students are assigned to a block. *)
Theorem overlap_cap_respected df p m :
  build_model df p = Ret m ->
  ∀ val, feasible (prob m) val = true ->
    ∀ b, b ∈ blks m -> assigned_count m val (blk_day b) (blk_idx b) <= maxovl p.
Proof.
  intros (vs & -> & Hvs & _)%build_model_Ret. cbn [prob blks]. intros val Hfeas b Hb.
  rewrite (assigned_count_sum p df vs Hvs val Hfeas b Hb). by apply ovl_holds.
Qed.

Lemma overlap_cap_respected_witness :
  ∃ m, build_model roster1 default_params = Ret m ∧
       feasible (prob m) val1 = true ∧
       assigned_count m val1 "Monday" 1 <= maxovl default_params.
Proof.
  destruct (build_model_distinct roster1 default_params (roster1_names _)) as (vs & Hm & Hvs).
  eexists. split; [exact Hm|]. cbn [prob].
  assert (Hfeas : feasible (problem_of default_params roster1) val1 = true)
    by (vm_compute; reflexivity).
  split; [exact Hfeas|].
  apply (overlap_cap_respected roster1 default_params _ Hm val1 Hfeas
           ("Monday", 1, mktime 8 30 0, mktime 9 30 0)).
  cbn [blks]. apply list_elem_of_In. vm_compute. tauto.
Defined.

(** X7. In every feasible assignment of a model [build_model] returns,
    every student of the roster works at least [minh] and at most [maxh]
    blocks, and the blocks of all students together number at least
    [avg_low] times and at most [avg_high] times the number of students. *)
Theorem hours_bounded df p m :
  build_model df p = Ret m ->
  ∀ val, feasible (prob m) val = true ->
    (∀ s, s ∈ stus m -> minh p <= hours m val s <= maxh p) ∧
    avg_low p * Z.of_nat (length (stus m)) <= sumZ (hours m val <$> stus m)
      <= avg_high p * Z.of_nat (length (stus m)).
Proof.
  intros (vs & -> & Hvs & _)%build_model_Ret. cbn [prob stus]. intros val Hfeas. split.
  - intros s Hs. rewrite (hours_sum p df vs Hvs val Hfeas s Hs). by apply weekly_holds.
  - rewrite (total_hours_sum p df vs Hvs val Hfeas). by apply average_holds.
Qed.

Lemma hours_bounded_witness :
  ∃ m, build_model roster1 default_params = Ret m ∧
       feasible (prob m) val1 = true ∧
       (∀ s, s ∈ stus m -> minh default_params <= hours m val1 s <= maxh default_params) ∧
       avg_low default_params * Z.of_nat (length (stus m)) <= sumZ (hours m val1 <$> stus m)
         <= avg_high default_params * Z.of_nat (length (stus m)).
Proof.
  destruct (build_model_distinct roster1 default_params (roster1_names _)) as (vs & Hm & Hvs).
  eexists. split; [exact Hm|]. cbn [prob].
  assert (Hfeas : feasible (problem_of default_params roster1) val1 = true)
    by (vm_compute; reflexivity).
  split; [exact Hfeas|].
  exact (hours_bounded roster1 default_params _ Hm val1 Hfeas).
Defined.
